(** * Spreadsheet command translation layer: a shallow embedding

  The tool handlers of the Sheets adapter (row insertion, value update,
  cell formatting, borders, chart creation and chart update, spreadsheet
  creation and sheet properties) are written
  here as Rocq functions over the request objects they build, together
  with the backend calls they dispatch.  JavaScript numbers that hold row
  and column indices are integers well inside the exact range of a
  double, so they are modelled as [Z]. *)

From Stdlib Require Import ZArith List String Ascii Bool Lia.
From Equations Require Import Equations.
Import ListNotations.
Open Scope string_scope.
Open Scope Z_scope.
Set Warnings "-register-all".

(** ** JavaScript string and value helpers *)

Module Js.

(** [[A-Z]] *)
Definition isUpper (c : ascii) : bool :=
  let n := nat_of_ascii c in (Nat.leb 65 n && Nat.leb n 90)%bool.

(** [\d] *)
Definition isDigit (c : ascii) : bool :=
  let n := nat_of_ascii c in (Nat.leb 48 n && Nat.leb n 57)%bool.

(** Longest prefix whose characters satisfy [p], and what follows it. *)
Fixpoint span (p : ascii -> bool) (s : string) : string * string :=
  match s with
  | EmptyString => (EmptyString, EmptyString)
  | String c s' =>
      if p c then let '(a, b) := span p s' in (String c a, b)
      else (EmptyString, s)
  end.

Fixpoint all (p : ascii -> bool) (s : string) : bool :=
  match s with
  | EmptyString => true
  | String c s' => (p c && all p s')%bool
  end.

Definition isEmpty (s : string) : bool :=
  match s with EmptyString => true | _ => false end.

(** A string is truthy when it is not empty. *)
Definition truthy (s : string) : bool := negb (isEmpty s).

(** [s.endsWith(suffix)] *)
Definition endsWith (s suffix : string) : bool :=
  let n := String.length s in
  let m := String.length suffix in
  (Nat.leb m n && String.eqb (substring (n - m) m s) suffix)%bool.

(** [parseInt(s, 10)] on a string of decimal digits. *)
Fixpoint parseInt_from (acc : Z) (s : string) : Z :=
  match s with
  | EmptyString => acc
  | String c s' => parseInt_from (acc * 10 + (Z.of_nat (nat_of_ascii c) - 48)) s'
  end.

Definition parseInt (s : string) : Z := parseInt_from 0 s.

(** Decimal rendering of a number inside a template string. *)
Definition digitChar (d : Z) : ascii := ascii_of_nat (Z.to_nat (d + 48)).

Fixpoint natToString_loop (fuel : nat) (n : Z) (acc : string) : string :=
  match fuel with
  | O => acc
  | S fuel' =>
      let acc' := String (digitChar (n mod 10)) acc in
      if n / 10 =? 0 then acc' else natToString_loop fuel' (n / 10) acc'
  end.

Definition numberToString (n : Z) : string :=
  if n <? 0 then "-" ++ natToString_loop (S (Z.to_nat (- n))) (- n) ""
  else natToString_loop (S (Z.to_nat n)) n "".

(** [s.split(sep)[0]] for a one-character separator. *)
Fixpoint splitHead (sep : ascii) (s : string) : string :=
  match s with
  | EmptyString => EmptyString
  | String c s' => if Ascii.eqb c sep then EmptyString else String c (splitHead sep s')
  end.

(** [a || b] on optional strings: an absent or empty string is falsy. *)
Definition orString (a : option string) (b : string) : string :=
  match a with
  | Some s => if truthy s then s else b
  | None => b
  end.

(** [a || b] on optional numbers: [undefined] and [0] are falsy. *)
Definition orNumber (a b : option Z) : option Z :=
  match a with
  | Some n => if n =? 0 then b else Some n
  | None => b
  end.

(** [a || b] on optional objects and arrays, which are truthy when present. *)
Definition orObject {A : Type} (a : option A) (b : A) : A :=
  match a with Some x => x | None => b end.

(** The double quote and the line feed, as they occur in template strings. *)
Definition dquote : string := String (ascii_of_nat 34) EmptyString.
Definition newline : string := String (ascii_of_nat 10) EmptyString.

(** [a ?? b] on an optional number. *)
Definition nullish (a : option Z) (b : Z) : Z :=
  match a with Some n => n | None => b end.

(** An untyped JSON payload that a handler passes through unchanged. *)
Inductive Json : Type :=
| JNull
| JBool (b : bool)
| JNum (n : Z)
| JStr (s : string)
| JArr (items : list Json)
| JObj (members : list (string * Json)).

End Js.

(** ** The two range regular expressions

    A pattern is a sequence of items: a greedy run [class+] (every run is
    recorded as a group), a literal character, or the end of the input.
    The engine is the backtracking one of the language: a run first takes
    the longest stretch of its class and gives characters back one at a
    time while the rest of the pattern fails, and the start positions are
    tried from left to right. *)

Module Regex.
Import Js.

Inductive Item : Type :=
| Run (class : ascii -> bool)
| Lit (c : ascii)
| EndOfInput.

Fixpoint runLength (class : ascii -> bool) (s : string) : nat :=
  match s with
  | EmptyString => O
  | String c s' => if class c then S (runLength class s') else O
  end.

Fixpoint takeN (n : nat) (s : string) : string :=
  match n, s with
  | S n', String c s' => String c (takeN n' s')
  | _, _ => EmptyString
  end.

Fixpoint dropN (n : nat) (s : string) : string :=
  match n, s with
  | S n', String _ s' => dropN n' s'
  | _, _ => s
  end.

(** A run of at most [k] characters, longest first, followed by [rest]. *)
Fixpoint tryLengths (rest : string -> option (list string)) (s : string) (k : nat)
  : option (list string) :=
  match k with
  | O => None
  | S k' =>
      match rest (dropN k s) with
      | Some groups => Some (takeN k s :: groups)
      | None => tryLengths rest s k'
      end
  end.

(** The pattern matched at the head of [s]: the runs read, in order. *)
Fixpoint matchItems (items : list Item) (s : string) {struct items}
  : option (list string) :=
  match items with
  | [] => Some []
  | Run class :: rest => tryLengths (matchItems rest) s (runLength class s)
  | Lit c :: rest =>
      match s with
      | String c' s' => if Ascii.eqb c' c then matchItems rest s' else None
      | EmptyString => None
      end
  | EndOfInput :: rest => if isEmpty s then matchItems rest s else None
  end.

(** [s.match(pattern)]: the match at the leftmost start that has one. *)
Fixpoint exec (items : list Item) (s : string) : option (list string) :=
  match matchItems items s with
  | Some groups => Some groups
  | None =>
      match s with
      | EmptyString => None
      | String _ s' => exec items s'
      end
  end.

(** [/[A-Z]+(\d+):[A-Z]+(\d+)/] *)
Definition rowSpanPattern : list Item :=
  [Run isUpper; Run isDigit; Lit ":"; Run isUpper; Run isDigit].

(** [/([A-Z]+)(\d+):([A-Z]+)(\d+)$/] *)
Definition rangePattern : list Item :=
  [Run isUpper; Run isDigit; Lit ":"; Run isUpper; Run isDigit; EndOfInput].

(** [s.match(/[A-Z]+(\d+):[A-Z]+(\d+)/)]: the groups [match[1]], [match[2]]. *)
Definition matchRowSpan (s : string) : option (string * string) :=
  match exec rowSpanPattern s with
  | Some [_; row1; _; row2] => Some (row1, row2)
  | _ => None
  end.

(** [range.match(/([A-Z]+)(\d+):([A-Z]+)(\d+)$/)]: groups 1 to 4. *)
Definition matchRangePattern (s : string)
  : option (string * string * string * string) :=
  match exec rangePattern s with
  | Some [col1; row1; col2; row2] => Some (col1, row1, col2, row2)
  | _ => None
  end.

(** *** The same search without giving back

    In both patterns every run is followed by something its own class
    cannot start: a run of the other class, the colon, or the end.  A run
    that gave a character back would leave that character in front of the
    next item, so only the longest run can succeed.  [matchHere] reads the
    four longest runs directly; [search] tries the starts left to right. *)

Definition matchHere (anchored : bool) (s : string)
  : option (string * string * string * string) :=
  let '(c1, s1) := span isUpper s in
  if isEmpty c1 then None else
  let '(r1, s2) := span isDigit s1 in
  if isEmpty r1 then None else
  match s2 with
  | String ":" s3 =>
      let '(c2, s4) := span isUpper s3 in
      if isEmpty c2 then None else
      let '(r2, s5) := span isDigit s4 in
      if isEmpty r2 then None else
      if (negb anchored || isEmpty s5)%bool then Some (c1, r1, c2, r2) else None
  | _ => None
  end.

Fixpoint search (anchored : bool) (s : string)
  : option (string * string * string * string) :=
  match matchHere anchored s with
  | Some g => Some g
  | None =>
      match s with
      | EmptyString => None
      | String _ s' => search anchored s'
      end
  end.

End Regex.

(** ** Backend request objects ([sheets_v4.Schema$...])

    Every optional key of a request object is an [option]: [None] is an
    absent key, [Some v] a key that is sent.  Each record lives in a module
    of its own so that the fields keep the key names of the source. *)

Module GridRange.
Record t : Type := mk {
  sheetId : option Z;
  startRowIndex : option Z;
  endRowIndex : option Z;
  startColumnIndex : option Z;
  endColumnIndex : option Z }.
End GridRange.

(** Colours are copied from the input into the request without being
    inspected, so they stay untyped payloads. *)
Definition Color : Type := Js.Json.

Inductive HorizontalAlignment : Type := LEFT | CENTER | RIGHT.
Inductive VerticalAlignment : Type := TOP | MIDDLE | BOTTOM.
Inductive WrapStrategy : Type := OVERFLOW_CELL | LEGACY_WRAP | CLIP | WRAP.
Inductive NumberFormatType : Type :=
  TEXT | NUMBER | PERCENT | CURRENCY | DATE | TIME | DATE_TIME | SCIENTIFIC.
Inductive BorderStyle : Type :=
  NONE | SOLID | DASHED | DOTTED | SOLID_MEDIUM | SOLID_THICK | DOUBLE.

Module TextFormat.
Record t : Type := mk {
  foregroundColor : option Color;
  fontFamily : option string;
  fontSize : option Z;
  bold : option bool;
  italic : option bool;
  strikethrough : option bool;
  underline : option bool }.
Definition empty : t := mk None None None None None None None.
End TextFormat.

Module NumberFormat.
(** In the input [pattern] is optional; in the request the key is always
    sent and [None] stands for the [null] put there by [?? null]. *)
Record t : Type := mk {
  type : NumberFormatType;
  pattern : option string }.
End NumberFormat.

Module Padding.
Record t : Type := mk {
  top : option Z;
  right : option Z;
  bottom : option Z;
  left : option Z }.
End Padding.

Module CellFormat.
Record t : Type := mk {
  backgroundColor : option Color;
  textFormat : option TextFormat.t;
  horizontalAlignment : option HorizontalAlignment;
  verticalAlignment : option VerticalAlignment;
  wrapStrategy : option WrapStrategy;
  numberFormat : option NumberFormat.t;
  padding : option Padding.t }.
Definition empty : t := mk None None None None None None None.
End CellFormat.

Module RepeatCell.
Record t : Type := mk {
  range : GridRange.t;
  userEnteredFormat : CellFormat.t;
  fields : string }.
End RepeatCell.

Module Border.
Record t : Type := mk {
  style : BorderStyle;
  color : option Color;
  width : option Z }.
End Border.

Module UpdateBordersRequest.
Record t : Type := mk {
  range : GridRange.t;
  top : option Border.t;
  bottom : option Border.t;
  left : option Border.t;
  right : option Border.t;
  innerHorizontal : option Border.t;
  innerVertical : option Border.t }.
End UpdateBordersRequest.

Module InsertDimension.
Record t : Type := mk {
  sheetId : Z;
  dimension : string;
  startIndex : Z;
  endIndex : Z;
  inheritFromBefore : bool }.
End InsertDimension.

(** *** Charts *)

Module ChartData.
(** [{ sourceRange: { sources: [...] } }]; the empty object [{}] has no
    [sourceRange]. *)
Record t : Type := mk {
  sources : option (list GridRange.t);
  extra : list (string * Js.Json) }.
Definition empty : t := mk None [].
Definition ofSources (l : list GridRange.t) : t := mk (Some l) [].
End ChartData.

Module BasicChartAxis.
Record t : Type := mk {
  position : string;
  title : option string;
  extra : list (string * Js.Json) }.
End BasicChartAxis.

Module BasicChartDomain.
Record t : Type := mk {
  domain : ChartData.t;
  extra : list (string * Js.Json) }.
End BasicChartDomain.

Module BasicChartSeries.
Record t : Type := mk {
  series : ChartData.t;
  targetAxis : option string;
  type : option string;
  extra : list (string * Js.Json) }.
End BasicChartSeries.

Module BasicChartSpec.
Record t : Type := mk {
  chartType : option string;
  legendPosition : option string;
  axis : option (list BasicChartAxis.t);
  domains : option (list BasicChartDomain.t);
  series : option (list BasicChartSeries.t);
  extra : list (string * Js.Json) }.
Definition set_legendPosition (v : string) (b : t) : t :=
  mk (chartType b) (Some v) (axis b) (domains b) (series b) (extra b).
Definition set_axis (v : list BasicChartAxis.t) (b : t) : t :=
  mk (chartType b) (legendPosition b) (Some v) (domains b) (series b) (extra b).
Definition set_domains (v : list BasicChartDomain.t) (b : t) : t :=
  mk (chartType b) (legendPosition b) (axis b) (Some v) (series b) (extra b).
Definition set_series (v : list BasicChartSeries.t) (b : t) : t :=
  mk (chartType b) (legendPosition b) (axis b) (domains b) (Some v) (extra b).
End BasicChartSpec.

Module PieChartSpec.
Record t : Type := mk {
  legendPosition : option string;
  domain : option ChartData.t;
  series : option ChartData.t;
  extra : list (string * Js.Json) }.
Definition set_legendPosition (v : string) (p : t) : t :=
  mk (Some v) (domain p) (series p) (extra p).
Definition set_domain (v : ChartData.t) (p : t) : t :=
  mk (legendPosition p) (Some v) (series p) (extra p).
Definition set_series (v : ChartData.t) (p : t) : t :=
  mk (legendPosition p) (domain p) (Some v) (extra p).
End PieChartSpec.

Module ChartSpec.
(** [extra] holds every key of a chart specification that the handlers never
    name (fonts, text formats, other chart families, ...). *)
Record t : Type := mk {
  title : option string;
  subtitle : option string;
  backgroundColor : option Color;
  altText : option string;
  basicChart : option BasicChartSpec.t;
  pieChart : option PieChartSpec.t;
  extra : list (string * Js.Json) }.
Definition empty : t := mk None None None None None None [].
Definition set_title (v : string) (c : t) : t :=
  mk (Some v) (subtitle c) (backgroundColor c) (altText c) (basicChart c)
     (pieChart c) (extra c).
Definition set_subtitle (v : string) (c : t) : t :=
  mk (title c) (Some v) (backgroundColor c) (altText c) (basicChart c)
     (pieChart c) (extra c).
Definition set_backgroundColor (v : Color) (c : t) : t :=
  mk (title c) (subtitle c) (Some v) (altText c) (basicChart c) (pieChart c)
     (extra c).
Definition set_altText (v : string) (c : t) : t :=
  mk (title c) (subtitle c) (backgroundColor c) (Some v) (basicChart c)
     (pieChart c) (extra c).
(** Assigning ([Some]) or deleting ([None]) the two chart families. *)
Definition set_basicChart (v : option BasicChartSpec.t) (c : t) : t :=
  mk (title c) (subtitle c) (backgroundColor c) (altText c) v (pieChart c)
     (extra c).
Definition set_pieChart (v : option PieChartSpec.t) (c : t) : t :=
  mk (title c) (subtitle c) (backgroundColor c) (altText c) (basicChart c) v
     (extra c).
End ChartSpec.

Module AnchorCell.
Record t : Type := mk {
  sheetId : option Z;
  rowIndex : option Z;
  columnIndex : option Z }.
End AnchorCell.

Module OverlayPosition.
Record t : Type := mk {
  anchorCell : option AnchorCell.t;
  offsetXPixels : option Z;
  offsetYPixels : option Z;
  widthPixels : option Z;
  heightPixels : option Z }.
End OverlayPosition.

Module EmbeddedObjectPosition.
Record t : Type := mk {
  overlayPosition : option OverlayPosition.t;
  extra : list (string * Js.Json) }.
(** [position?.overlayPosition?.anchorCell?.sheetId] *)
Definition anchorSheetId (p : option t) : option Z :=
  match p with
  | Some p' =>
      match overlayPosition p' with
      | Some o =>
          match OverlayPosition.anchorCell o with
          | Some a => AnchorCell.sheetId a
          | None => None
          end
      | None => None
      end
  | None => None
  end.
End EmbeddedObjectPosition.

Module EmbeddedChart.
Record t : Type := mk {
  chartId : option Z;
  position : option EmbeddedObjectPosition.t;
  spec : option ChartSpec.t }.
End EmbeddedChart.

Module Sheet.
Record t : Type := mk {
  charts : option (list EmbeddedChart.t) }.
End Sheet.

Module Spreadsheet.
Record t : Type := mk {
  sheets : option (list Sheet.t) }.
End Spreadsheet.

Module UpdateValuesResponse.
Record t : Type := mk {
  updatedCells : option Z;
  updatedRange : option string }.
End UpdateValuesResponse.

(** One entry of the [requests] array of [spreadsheets.batchUpdate]. *)
Inductive Request : Type :=
| insertDimension (r : InsertDimension.t)
| repeatCell (r : RepeatCell.t)
| updateBorders (r : UpdateBordersRequest.t)
| addChart (spec : ChartSpec.t) (position : EmbeddedObjectPosition.t)
| updateEmbeddedObjectPosition (objectId : Z)
    (newPosition : option EmbeddedObjectPosition.t) (fields : string)
| updateChartSpec (chartId : Z) (spec : ChartSpec.t).

(** ** Effects: thrown errors and dispatched backend calls *)

Inductive Result (A : Type) : Type :=
| Ok (a : A)
| Thrown (message : string).
Arguments Ok {A} a.
Arguments Thrown {A} message.

(** A call that reaches the spreadsheet service. *)
Inductive BackendCall : Type :=
| SheetLookup (spreadsheetId : string) (sheetName : option string)
| SpreadsheetsGet (spreadsheetId : string)
| ValuesUpdate (spreadsheetId range valueInputOption : string)
    (values : list (list Js.Json))
| BatchUpdate (spreadsheetId : string) (requests : list Request).

(** A computation: the calls it dispatched, in order, and how it ended. *)
Definition Prog (A : Type) : Type := list BackendCall * Result A.

Definition ret {A : Type} (a : A) : Prog A := ([], Ok a).

Definition throw {A : Type} (message : string) : Prog A := ([], Thrown message).

Definition bind {A B : Type} (m : Prog A) (k : A -> Prog B) : Prog B :=
  match m with
  | (calls, Ok a) => let '(calls', r) := k a in ((calls ++ calls')%list, r)
  | (calls, Thrown e) => (calls, Thrown e)
  end.

(** A pure step that may throw. *)
Definition lift {A : Type} (r : Result A) : Prog A := ([], r).

(** An awaited backend call with the answer the service gives. *)
Definition await {A : Type} (c : BackendCall) (answer : Result A) : Prog A :=
  ([c], answer).

Declare Scope prog_scope.
Delimit Scope prog_scope with prog.
Notation "x <- m ;; k" := (bind m (fun x => k))
  (at level 61, m at next level, right associativity) : prog_scope.
Notation "m ;;; k" := (bind m (fun _ => k))
  (at level 61, right associativity) : prog_scope.

(** What a handler returns: the formatted success message, or the result
    of [handleError] on whatever was thrown inside its [try] block. *)
Inductive ToolResponse : Type :=
| Success (text : string)
| HandledError (message : string).

(** [try { ... } catch (error) { return handleError(error); }] *)
Definition tryCatch (m : Prog string) : list BackendCall * ToolResponse :=
  match m with
  | (calls, Ok text) => (calls, Success text)
  | (calls, Thrown e) => (calls, HandledError e)
  end.

(** ** Collaborators outside the handlers

    The range helpers ([extractSheetName], [getSheetId], [parseRange]) and
    the service itself are used by the handlers but defined elsewhere; a
    handler is a function of them.  A handler is modelled from its
    validated input on: the schema validation in front of it either throws,
    which ends the invocation in [handleError], or yields the record the
    handler takes here. *)

Module Env.
Record t : Type := mk {
  extractSheetName : string -> option string * string;
  getSheetId : string -> option string -> Result Z;
  parseRange : string -> Z -> Result GridRange.t;
  spreadsheetsGet : string -> Result Spreadsheet.t;
  batchUpdate : string -> list Request -> Result unit;
  valuesUpdate : string -> string -> string -> list (list Js.Json)
                 -> Result UpdateValuesResponse.t;
  formatUpdateResponse : Z -> option string -> string }.
End Env.

(** [await getSheetId(sheets, spreadsheetId, sheetName)] *)
Definition awaitSheetId (env : Env.t) (spreadsheetId : string)
    (sheetName : option string) : Prog Z :=
  await (SheetLookup spreadsheetId sheetName)
        (Env.getSheetId env spreadsheetId sheetName).

(** [await sheets.spreadsheets.batchUpdate({ spreadsheetId, requestBody })] *)
Definition awaitBatchUpdate (env : Env.t) (spreadsheetId : string)
    (requests : list Request) : Prog unit :=
  await (BatchUpdate spreadsheetId requests)
        (Env.batchUpdate env spreadsheetId requests).

(** A sheet name is truthy when it is present and not empty. *)
Definition truthyName (sheetName : option string) : bool :=
  match sheetName with Some s => Js.truthy s | None => false end.

(** ** sheets_insert_rows *)

Inductive InsertPosition : Type := BEFORE | AFTER.

Definition InsertPosition_toString (p : InsertPosition) : string :=
  match p with BEFORE => "BEFORE" | AFTER => "AFTER" end.

Module InsertRowsInput.
Record t : Type := mk {
  spreadsheetId : string;
  range : string;
  rows : Z;
  position : InsertPosition;
  inheritFromBefore : bool;
  values : option (list (list Js.Json));
  valueInputOption : string }.
End InsertRowsInput.

(** [String.fromCharCode((num % 26) + 'A'.charCodeAt(0))] *)
Definition columnLetter (digit : Z) : ascii := ascii_of_nat (Z.to_nat (digit + 65)).

(** The [while (num > 0)] loop of [indexToColumn]: each round decrements
    [num], prepends the letter of [num % 26] and continues with
    [Math.floor(num / 26)]. *)
Equations? indexToColumn_loop (num : Z) (column : string) : string
  by wf (Z.to_nat num) lt :=
  indexToColumn_loop num column with Z_lt_dec 0 num => {
    | left _ =>
        indexToColumn_loop ((num - 1) / 26)
          (String (columnLetter ((num - 1) mod 26)) column);
    | right _ => column }.
Proof.
  assert (0 <= (num - 1) / 26) by (apply Z.div_pos; lia).
  assert ((num - 1) / 26 <= num - 1) by (apply Z.div_le_upper_bound; lia).
  lia.
Qed.

(** Convert zero-based index to column letter(s): 0 = A, 25 = Z, 26 = AA. *)
Definition indexToColumn (index : Z) : string :=
  indexToColumn_loop (index + 1) "".

(** [Math.max(...lengths)] for a non-empty array of lengths; the handler
    only evaluates it under [values.length > 0]. *)
Definition maxLength (values : list (list Js.Json)) : Z :=
  match values with
  | [] => 0
  | row :: rest =>
      fold_left (fun m r => Z.max m (Z.of_nat (List.length r))) rest
                (Z.of_nat (List.length row))
  end.

(** The insertion indices computed from the anchor row. *)
Definition insertStartIndex (position : InsertPosition) (anchorRowIndex : Z) : Z :=
  match position with
  | AFTER => anchorRowIndex + 1
  | BEFORE => anchorRowIndex
  end.

Definition insertRequest (sheetId : Z) (parsedRange : GridRange.t)
    (input : InsertRowsInput.t) : InsertDimension.t :=
  let anchorRowIndex := Js.nullish (GridRange.startRowIndex parsedRange) 0 in
  let startIndex := insertStartIndex (InsertRowsInput.position input) anchorRowIndex in
  let endIndex := startIndex + InsertRowsInput.rows input in
  InsertDimension.mk sheetId "ROWS" startIndex endIndex
    (InsertRowsInput.inheritFromBefore input).

Definition insertedMessage (input : InsertRowsInput.t) (anchorRowIndex : Z)
    (sheetName : option string) : string :=
  "Inserted " ++ Js.numberToString (InsertRowsInput.rows input) ++ " rows "
  ++ InsertPosition_toString (InsertRowsInput.position input) ++ " row "
  ++ Js.numberToString (anchorRowIndex + 1) ++ " on " ++ Js.dquote
  ++ Js.orString sheetName "Sheet" ++ Js.dquote.

Definition handleInsertRows_body (env : Env.t) (input : InsertRowsInput.t)
  : Prog string :=
  (let '(sheetName, cellRange) := Env.extractSheetName env (InsertRowsInput.range input) in
   sheetId <- awaitSheetId env (InsertRowsInput.spreadsheetId input) sheetName ;;
   parsedRange <- lift (Env.parseRange env cellRange sheetId) ;;
   let anchorRowIndex := Js.nullish (GridRange.startRowIndex parsedRange) 0 in
   let anchorColumnIndex := Js.nullish (GridRange.startColumnIndex parsedRange) 0 in
   let req := insertRequest sheetId parsedRange input in
   let startIndex := InsertDimension.startIndex req in
   awaitBatchUpdate env (InsertRowsInput.spreadsheetId input) [insertDimension req] ;;;
   match InsertRowsInput.values input with
   | Some (row :: rest) =>
       let values := row :: rest in
       let updateStartRow := startIndex + 1 in
       let updateEndRow := updateStartRow + Z.of_nat (List.length values) - 1 in
       let startColumn := indexToColumn anchorColumnIndex in
       let endColumn := indexToColumn (anchorColumnIndex + maxLength values - 1) in
       let cells := startColumn ++ Js.numberToString updateStartRow ++ ":"
                    ++ endColumn ++ Js.numberToString updateEndRow in
       let updateRange :=
         if truthyName sheetName
         then "'" ++ Js.orString sheetName "" ++ "'!" ++ cells
         else cells in
       await (ValuesUpdate (InsertRowsInput.spreadsheetId input) updateRange
                (InsertRowsInput.valueInputOption input) values)
             (Env.valuesUpdate env (InsertRowsInput.spreadsheetId input) updateRange
                (InsertRowsInput.valueInputOption input) values) ;;;
       let cellCount :=
         fold_left (fun sum r => sum + Z.of_nat (List.length r)) values 0 in
       ret (insertedMessage input anchorRowIndex sheetName ++ " and updated "
            ++ Js.numberToString cellCount ++ " cells in range: " ++ updateRange)
   | _ => ret (insertedMessage input anchorRowIndex sheetName)
   end)%prog.

Definition handleInsertRows (env : Env.t) (input : InsertRowsInput.t)
  : list BackendCall * ToolResponse :=
  tryCatch (handleInsertRows_body env input).

(** ** sheets_update_values *)

Module UpdateValuesInput.
Record t : Type := mk {
  spreadsheetId : string;
  range : string;
  values : list (list Js.Json);
  valueInputOption : string }.
End UpdateValuesInput.

(** The text of the error thrown on a row-count mismatch. *)
Definition rangeMismatchMessage (range : string)
    (groups : string * string * string * string)
    (expectedRows actualRows : Z) : string :=
  let '(c1, r1, c3, _) := groups in
  let startRow := Js.parseInt r1 in
  "Range mismatch: The range " ++ Js.dquote ++ range ++ Js.dquote
  ++ " expects exactly " ++ Js.numberToString expectedRows ++ " rows, "
  ++ "but you provided " ++ Js.numberToString actualRows
  ++ " rows (including any empty rows). "
  ++ Js.newline ++ "To fix this, either:" ++ Js.newline
  ++ "1. Provide exactly " ++ Js.numberToString expectedRows ++ " rows of data"
  ++ Js.newline
  ++ "2. Use a flexible range (e.g., " ++ Js.dquote ++ Js.splitHead ":" range
  ++ Js.dquote ++ ") to auto-expand based on your data" ++ Js.newline
  ++ "3. Adjust your range to match your data: " ++ Js.dquote
  ++ Js.splitHead "!" range ++ "!" ++ c1 ++ Js.numberToString startRow ++ ":"
  ++ c3 ++ Js.numberToString (startRow + actualRows - 1) ++ Js.dquote.

(** Validates that the number of rows in values matches the range
    specification.  Groups 2 and 4 are non-empty digit runs whenever the
    pattern matches, so the guard [!match?.[2] || !match[4]] returns exactly
    when there is no match. *)
Definition validateRangeRowCount (range : string) (values : list (list Js.Json))
  : Result unit :=
  match Regex.matchRangePattern range with
  | None => Ok tt
  | Some (c1, r1, c3, r2) =>
      if (Js.isEmpty r1 || Js.isEmpty r2)%bool then Ok tt else
      let startRow := Js.parseInt r1 in
      let endRow := Js.parseInt r2 in
      let expectedRows := endRow - startRow + 1 in
      let actualRows := Z.of_nat (List.length values) in
      if expectedRows =? actualRows then Ok tt
      else Thrown (rangeMismatchMessage range (c1, r1, c3, r2) expectedRows actualRows)
  end.

Definition handleUpdateValues_body (env : Env.t) (input : UpdateValuesInput.t)
  : Prog string :=
  (lift (validateRangeRowCount (UpdateValuesInput.range input)
           (UpdateValuesInput.values input)) ;;;
   response <- await
     (ValuesUpdate (UpdateValuesInput.spreadsheetId input)
        (UpdateValuesInput.range input) (UpdateValuesInput.valueInputOption input)
        (UpdateValuesInput.values input))
     (Env.valuesUpdate env (UpdateValuesInput.spreadsheetId input)
        (UpdateValuesInput.range input) (UpdateValuesInput.valueInputOption input)
        (UpdateValuesInput.values input)) ;;
   ret (Env.formatUpdateResponse env
          (Js.nullish (Js.orNumber (UpdateValuesResponse.updatedCells response) (Some 0)) 0)
          (UpdateValuesResponse.updatedRange response)))%prog.

Definition handleUpdateValues (env : Env.t) (input : UpdateValuesInput.t)
  : list BackendCall * ToolResponse :=
  tryCatch (handleUpdateValues_body env input).

(** ** sheets_format_cells *)

Module FormatCellsInput.
Record t : Type := mk {
  spreadsheetId : string;
  range : string;
  format : CellFormat.t }.
End FormatCellsInput.

(** The text format object: a key is copied when it is not [undefined]. *)
Definition formatCellsHandler_textFormat (tf : TextFormat.t) : TextFormat.t :=
  let textFormat := TextFormat.empty in
  let textFormat :=
    match TextFormat.foregroundColor tf with
    | Some v => TextFormat.mk (Some v) (TextFormat.fontFamily textFormat)
        (TextFormat.fontSize textFormat) (TextFormat.bold textFormat)
        (TextFormat.italic textFormat) (TextFormat.strikethrough textFormat)
        (TextFormat.underline textFormat)
    | None => textFormat
    end in
  let textFormat :=
    match TextFormat.fontFamily tf with
    | Some v => TextFormat.mk (TextFormat.foregroundColor textFormat) (Some v)
        (TextFormat.fontSize textFormat) (TextFormat.bold textFormat)
        (TextFormat.italic textFormat) (TextFormat.strikethrough textFormat)
        (TextFormat.underline textFormat)
    | None => textFormat
    end in
  let textFormat :=
    match TextFormat.fontSize tf with
    | Some v => TextFormat.mk (TextFormat.foregroundColor textFormat)
        (TextFormat.fontFamily textFormat) (Some v) (TextFormat.bold textFormat)
        (TextFormat.italic textFormat) (TextFormat.strikethrough textFormat)
        (TextFormat.underline textFormat)
    | None => textFormat
    end in
  let textFormat :=
    match TextFormat.bold tf with
    | Some v => TextFormat.mk (TextFormat.foregroundColor textFormat)
        (TextFormat.fontFamily textFormat) (TextFormat.fontSize textFormat) (Some v)
        (TextFormat.italic textFormat) (TextFormat.strikethrough textFormat)
        (TextFormat.underline textFormat)
    | None => textFormat
    end in
  let textFormat :=
    match TextFormat.italic tf with
    | Some v => TextFormat.mk (TextFormat.foregroundColor textFormat)
        (TextFormat.fontFamily textFormat) (TextFormat.fontSize textFormat)
        (TextFormat.bold textFormat) (Some v) (TextFormat.strikethrough textFormat)
        (TextFormat.underline textFormat)
    | None => textFormat
    end in
  let textFormat :=
    match TextFormat.strikethrough tf with
    | Some v => TextFormat.mk (TextFormat.foregroundColor textFormat)
        (TextFormat.fontFamily textFormat) (TextFormat.fontSize textFormat)
        (TextFormat.bold textFormat) (TextFormat.italic textFormat) (Some v)
        (TextFormat.underline textFormat)
    | None => textFormat
    end in
  match TextFormat.underline tf with
  | Some v => TextFormat.mk (TextFormat.foregroundColor textFormat)
      (TextFormat.fontFamily textFormat) (TextFormat.fontSize textFormat)
      (TextFormat.bold textFormat) (TextFormat.italic textFormat)
      (TextFormat.strikethrough textFormat) (Some v)
  | None => textFormat
  end.

(** The [cellFormat] object the handler builds from [validatedInput.format].
    Colour, text format, number format and padding are objects and the three
    enumerations are non-empty strings, so each [if (format.x)] holds exactly
    when the key is present. *)
Definition formatCellsHandler_cellFormat (format : CellFormat.t) : CellFormat.t :=
  CellFormat.mk
    (match CellFormat.backgroundColor format with
     | Some c => Some c
     | None => None
     end)
    (match CellFormat.textFormat format with
     | Some tf => Some (formatCellsHandler_textFormat tf)
     | None => None
     end)
    (match CellFormat.horizontalAlignment format with
     | Some a => Some a
     | None => None
     end)
    (match CellFormat.verticalAlignment format with
     | Some a => Some a
     | None => None
     end)
    (match CellFormat.wrapStrategy format with
     | Some w => Some w
     | None => None
     end)
    (match CellFormat.numberFormat format with
     | Some nf => Some (NumberFormat.mk (NumberFormat.type nf) (NumberFormat.pattern nf))
     | None => None
     end)
    (match CellFormat.padding format with
     | Some p => Some p
     | None => None
     end).

(** The [repeatCell] request of one formatted range. *)
Definition formatCellsHandler_request (gridRange : GridRange.t)
    (format : CellFormat.t) : RepeatCell.t :=
  RepeatCell.mk gridRange (formatCellsHandler_cellFormat format) "userEnteredFormat".

Definition formatCellsHandler_body (env : Env.t) (input : FormatCellsInput.t)
  : Prog string :=
  (let '(sheetName, cleanRange) :=
     Env.extractSheetName env (FormatCellsInput.range input) in
   sheetId <- awaitSheetId env (FormatCellsInput.spreadsheetId input) sheetName ;;
   gridRange <- lift (Env.parseRange env cleanRange sheetId) ;;
   awaitBatchUpdate env (FormatCellsInput.spreadsheetId input)
     [repeatCell (formatCellsHandler_request gridRange (FormatCellsInput.format input))] ;;;
   ret ("Successfully formatted cells in range " ++ FormatCellsInput.range input))%prog.

Definition formatCellsHandler (env : Env.t) (input : FormatCellsInput.t)
  : list BackendCall * ToolResponse :=
  tryCatch (formatCellsHandler_body env input).

(** ** sheets_batch_format_cells *)

Module FormatRequest.
Record t : Type := mk {
  range : string;
  format : CellFormat.t }.
End FormatRequest.

Module BatchFormatCellsInput.
Record t : Type := mk {
  spreadsheetId : string;
  formatRequests : list FormatRequest.t }.
End BatchFormatCellsInput.

(** The body of the [for (const formatRequest of ...)] loop builds the same
    cell format, key by key, as the single-range handler. *)
Definition handleBatchFormatCells_cellFormat (format : CellFormat.t) : CellFormat.t :=
  formatCellsHandler_cellFormat format.

Fixpoint handleBatchFormatCells_loop (env : Env.t) (spreadsheetId : string)
    (formatRequests : list FormatRequest.t) (requests : list Request)
  : Prog (list Request) :=
  match formatRequests with
  | [] => ret requests
  | formatRequest :: rest =>
      (let '(sheetName, cleanRange) :=
         Env.extractSheetName env (FormatRequest.range formatRequest) in
       sheetId <- awaitSheetId env spreadsheetId sheetName ;;
       gridRange <- lift (Env.parseRange env cleanRange sheetId) ;;
       let cellFormat :=
         handleBatchFormatCells_cellFormat (FormatRequest.format formatRequest) in
       handleBatchFormatCells_loop env spreadsheetId rest
         (requests ++ [repeatCell (RepeatCell.mk gridRange cellFormat "userEnteredFormat")])%list)%prog
  end.

Definition handleBatchFormatCells_body (env : Env.t) (input : BatchFormatCellsInput.t)
  : Prog string :=
  (requests <- handleBatchFormatCells_loop env
     (BatchFormatCellsInput.spreadsheetId input)
     (BatchFormatCellsInput.formatRequests input) [] ;;
   awaitBatchUpdate env (BatchFormatCellsInput.spreadsheetId input) requests ;;;
   ret ("Successfully formatted "
        ++ Js.numberToString
             (Z.of_nat (List.length (BatchFormatCellsInput.formatRequests input)))
        ++ " cell ranges"))%prog.

Definition handleBatchFormatCells (env : Env.t) (input : BatchFormatCellsInput.t)
  : list BackendCall * ToolResponse :=
  tryCatch (handleBatchFormatCells_body env input).

(** ** sheets_update_borders *)

Module Borders.
Record t : Type := mk {
  top : option Border.t;
  bottom : option Border.t;
  left : option Border.t;
  right : option Border.t;
  innerHorizontal : option Border.t;
  innerVertical : option Border.t }.
End Borders.

Module UpdateBordersInput.
Record t : Type := mk {
  spreadsheetId : string;
  range : string;
  borders : Borders.t }.
End UpdateBordersInput.

(** Helper function to convert our border format to Google's format. *)
Definition convertBorder (border : option Border.t) : option Border.t :=
  match border with
  | None => None
  | Some b => Some (Border.mk (Border.style b) (Border.color b) (Border.width b))
  end.

(** [if (xBorder) { updateBordersRequest.x = xBorder; }]: a converted border
    is an object, so the key is set exactly when the conversion returned one. *)
Definition updateBordersHandler_request (gridRange : GridRange.t)
    (borders : Borders.t) : UpdateBordersRequest.t :=
  let topBorder := convertBorder (Borders.top borders) in
  let bottomBorder := convertBorder (Borders.bottom borders) in
  let leftBorder := convertBorder (Borders.left borders) in
  let rightBorder := convertBorder (Borders.right borders) in
  let innerHorizontalBorder := convertBorder (Borders.innerHorizontal borders) in
  let innerVerticalBorder := convertBorder (Borders.innerVertical borders) in
  UpdateBordersRequest.mk gridRange
    (match topBorder with Some b => Some b | None => None end)
    (match bottomBorder with Some b => Some b | None => None end)
    (match leftBorder with Some b => Some b | None => None end)
    (match rightBorder with Some b => Some b | None => None end)
    (match innerHorizontalBorder with Some b => Some b | None => None end)
    (match innerVerticalBorder with Some b => Some b | None => None end).

Definition updateBordersHandler_body (env : Env.t) (input : UpdateBordersInput.t)
  : Prog string :=
  (let '(sheetName, cleanRange) :=
     Env.extractSheetName env (UpdateBordersInput.range input) in
   sheetId <- awaitSheetId env (UpdateBordersInput.spreadsheetId input) sheetName ;;
   gridRange <- lift (Env.parseRange env cleanRange sheetId) ;;
   awaitBatchUpdate env (UpdateBordersInput.spreadsheetId input)
     [updateBorders (updateBordersHandler_request gridRange
                       (UpdateBordersInput.borders input))] ;;;
   ret ("Successfully updated borders for range " ++ UpdateBordersInput.range input))%prog.

Definition updateBordersHandler (env : Env.t) (input : UpdateBordersInput.t)
  : list BackendCall * ToolResponse :=
  tryCatch (updateBordersHandler_body env input).

(** ** Chart inputs shared by create and update *)

Module SeriesInput.
Record t : Type := mk {
  sourceRange : string;
  type : option string;
  targetAxis : option string }.
End SeriesInput.

Module AxisInput.
Record t : Type := mk { title : option string }.
End AxisInput.

Module LegendInput.
Record t : Type := mk { position : option string }.
End LegendInput.

(** [if (cond !== undefined) obj.key = value] as a function on the object. *)
Definition whenDefined {A B : Type} (v : option A) (set : A -> B -> B) (obj : B) : B :=
  match v with Some x => set x obj | None => obj end.

(** ** sheets_create_chart *)

Module AnchorCellInput.
Record t : Type := mk {
  sheetId : Z;
  rowIndex : Z;
  columnIndex : Z }.
End AnchorCellInput.

Module OverlayPositionInput.
Record t : Type := mk {
  anchorCell : AnchorCellInput.t;
  offsetXPixels : option Z;
  offsetYPixels : option Z;
  widthPixels : option Z;
  heightPixels : option Z }.
End OverlayPositionInput.

Module ChartPositionInput.
Record t : Type := mk { overlayPosition : OverlayPositionInput.t }.
(** The same object, seen as the [position] of the request. *)
Definition toRequest (p : t) : EmbeddedObjectPosition.t :=
  let o := overlayPosition p in
  let a := OverlayPositionInput.anchorCell o in
  EmbeddedObjectPosition.mk
    (Some (OverlayPosition.mk
       (Some (AnchorCell.mk (Some (AnchorCellInput.sheetId a))
                (Some (AnchorCellInput.rowIndex a))
                (Some (AnchorCellInput.columnIndex a))))
       (OverlayPositionInput.offsetXPixels o) (OverlayPositionInput.offsetYPixels o)
       (OverlayPositionInput.widthPixels o) (OverlayPositionInput.heightPixels o)))
    [].
End ChartPositionInput.

Module CreateChartInput.
Record t : Type := mk {
  spreadsheetId : string;
  position : ChartPositionInput.t;
  chartType : string;
  title : option string;
  subtitle : option string;
  series : list SeriesInput.t;
  domainRange : option string;
  domainAxis : option AxisInput.t;
  leftAxis : option AxisInput.t;
  rightAxis : option AxisInput.t;
  legend : option LegendInput.t;
  backgroundColor : option Color;
  altText : option string }.
Definition anchorSheetId (i : t) : Z :=
  AnchorCellInput.sheetId
    (OverlayPositionInput.anchorCell (ChartPositionInput.overlayPosition (position i))).
End CreateChartInput.

(** Validate and fix legend position: a truthy position that neither ends
    in [_LEGEND] nor equals [NO_LEGEND] gets the suffix appended. *)
Definition handleCreateChart_legendPosition (legend : option LegendInput.t) : string :=
  let legendPosition := "BOTTOM_LEGEND" in
  match legend with
  | Some l =>
      match LegendInput.position l with
      | Some pos =>
          if Js.truthy pos then
            if (negb (Js.endsWith pos "_LEGEND") && negb (String.eqb pos "NO_LEGEND"))%bool
            then pos ++ "_LEGEND"
            else pos
          else legendPosition
      | None => legendPosition
      end
  | None => legendPosition
  end.

Definition newBasicChart (chartType legendPosition : string) : BasicChartSpec.t :=
  BasicChartSpec.mk (Some chartType) (Some legendPosition) (Some []) (Some []) (Some []) [].

(** The [switch (validatedInput.chartType)] that sets the chart family. *)
Definition handleCreateChart_family (chartType legendPosition : string)
    (chartSpec : ChartSpec.t) : ChartSpec.t :=
  if String.eqb chartType "COLUMN" then
    ChartSpec.set_basicChart (Some (newBasicChart "COLUMN" legendPosition)) chartSpec
  else if String.eqb chartType "BAR" then
    ChartSpec.set_basicChart (Some (newBasicChart "BAR" legendPosition)) chartSpec
  else if String.eqb chartType "LINE" then
    ChartSpec.set_basicChart (Some (newBasicChart "LINE" legendPosition)) chartSpec
  else if String.eqb chartType "AREA" then
    ChartSpec.set_basicChart (Some (newBasicChart "AREA" legendPosition)) chartSpec
  else if String.eqb chartType "PIE" then
    ChartSpec.set_pieChart
      (Some (PieChartSpec.mk (Some legendPosition) (Some ChartData.empty)
               (Some ChartData.empty) [])) chartSpec
  else if String.eqb chartType "SCATTER" then
    ChartSpec.set_basicChart (Some (newBasicChart "SCATTER" legendPosition)) chartSpec
  else
    ChartSpec.set_basicChart (Some (newBasicChart chartType legendPosition)) chartSpec.

(** [if (axisInput?.title) axes.push({ position, title })] *)
Definition pushAxis (position : string) (axisInput : option AxisInput.t)
    (axes : list BasicChartAxis.t) : list BasicChartAxis.t :=
  match axisInput with
  | Some a =>
      match AxisInput.title a with
      | Some t =>
          if Js.truthy t
          then (axes ++ [BasicChartAxis.mk position (Some t) []])%list
          else axes
      | None => axes
      end
  | None => axes
  end.

(** Add axis configuration if provided. *)
Definition handleCreateChart_axes (input : CreateChartInput.t)
    (chartSpec : ChartSpec.t) : ChartSpec.t :=
  match ChartSpec.basicChart chartSpec with
  | Some basic =>
      let axes := pushAxis "BOTTOM_AXIS" (CreateChartInput.domainAxis input) [] in
      let axes := pushAxis "LEFT_AXIS" (CreateChartInput.leftAxis input) axes in
      let axes := pushAxis "RIGHT_AXIS" (CreateChartInput.rightAxis input) axes in
      match axes with
      | [] => chartSpec
      | _ => ChartSpec.set_basicChart (Some (BasicChartSpec.set_axis axes basic)) chartSpec
      end
  | None => chartSpec
  end.

(** [sheetName ? await getSheetId(sheets, spreadsheetId, sheetName) : fallback] *)
Definition resolveSheetId (env : Env.t) (spreadsheetId : string)
    (sheetName : option string) (fallback : Z) : Prog Z :=
  if truthyName sheetName then awaitSheetId env spreadsheetId sheetName
  else ret fallback.

(** [`A${match[1]}:A${match[2]}`] for the rows of the first
    letters-digits:letters-digits match in the series range. *)
Definition columnADomain (cleanRange : string) : option string :=
  match Regex.matchRowSpan cleanRange with
  | Some (row1, row2) => Some ("A" ++ row1 ++ ":A" ++ row2)
  | None => None
  end.

(** Parse each series: one round of [for (const series of ...)] per entry. *)
Fixpoint handleCreateChart_series (env : Env.t) (input : CreateChartInput.t)
    (actualSheetId : Z) (remaining : list SeriesInput.t)
    (acc : list BasicChartSeries.t) : Prog (list BasicChartSeries.t) :=
  match remaining with
  | [] => ret acc
  | series :: rest =>
      (let '(seriesSheetName, cleanRange) :=
         Env.extractSheetName env (SeriesInput.sourceRange series) in
       seriesSheetId <- resolveSheetId env (CreateChartInput.spreadsheetId input)
                          seriesSheetName actualSheetId ;;
       gridRange <- lift (Env.parseRange env cleanRange seriesSheetId) ;;
       handleCreateChart_series env input actualSheetId rest
         (acc ++ [BasicChartSeries.mk (ChartData.ofSources [gridRange])
                    (Some (Js.orString (SeriesInput.targetAxis series) "LEFT_AXIS"))
                    (Some (Js.orString (SeriesInput.type series)
                             (CreateChartInput.chartType input)))
                    []])%list)%prog
  end.

(** The domain of a basic chart: the provided range, or column A over the
    rows of the first series. *)
Definition handleCreateChart_basicDomain (env : Env.t) (input : CreateChartInput.t)
    (actualSheetId : Z) (firstSeriesRange : string) (basic : BasicChartSpec.t)
  : Prog BasicChartSpec.t :=
  (if match CreateChartInput.domainRange input with
      | Some d => Js.truthy d
      | None => false
      end
   then
     let '(domainSheetName, domainCleanRange) :=
       Env.extractSheetName env (Js.orString (CreateChartInput.domainRange input) "") in
     domainSheetId <- resolveSheetId env (CreateChartInput.spreadsheetId input)
                        domainSheetName actualSheetId ;;
     domainGridRange <- lift (Env.parseRange env domainCleanRange domainSheetId) ;;
     ret (BasicChartSpec.set_domains
            [BasicChartDomain.mk (ChartData.ofSources [domainGridRange]) []] basic)
   else
     let '(domainSheetName, domainCleanRange) :=
       Env.extractSheetName env firstSeriesRange in
     domainSheetId <- resolveSheetId env (CreateChartInput.spreadsheetId input)
                        domainSheetName actualSheetId ;;
     match columnADomain domainCleanRange with
     | Some domainRange =>
         domainGridRange <- lift (Env.parseRange env domainRange domainSheetId) ;;
         ret (BasicChartSpec.set_domains
                [BasicChartDomain.mk (ChartData.ofSources [domainGridRange]) []] basic)
     | None => ret basic
     end)%prog.


(** The branch taken for a basic chart with at least one series. *)
Definition handleCreateChart_basicBranch (env : Env.t) (input : CreateChartInput.t)
    (chartSpec : ChartSpec.t) (basic : BasicChartSpec.t)
    (firstSeries : SeriesInput.t) : Prog ChartSpec.t :=
  (let firstSeriesRange := SeriesInput.sourceRange firstSeries in
   let '(sheetName, _) := Env.extractSheetName env firstSeriesRange in
   actualSheetId <- resolveSheetId env (CreateChartInput.spreadsheetId input)
                      sheetName (CreateChartInput.anchorSheetId input) ;;
   parsed <- handleCreateChart_series env input actualSheetId
               (CreateChartInput.series input)
               (Js.orObject (BasicChartSpec.series basic) []) ;;
   let basic := BasicChartSpec.set_series parsed basic in
   basic <- handleCreateChart_basicDomain env input actualSheetId
              firstSeriesRange basic ;;
   ret (ChartSpec.set_basicChart (Some basic) chartSpec))%prog.

(** For pie charts, parse the first series range; the domain is column A
    over the rows of that range.  [validatedInput.domainRange] is not read
    on this branch. *)
Definition handleCreateChart_pieBranch (env : Env.t) (input : CreateChartInput.t)
    (chartSpec : ChartSpec.t) (pie : PieChartSpec.t)
    (firstSeries : SeriesInput.t) : Prog ChartSpec.t :=
  (let '(sheetName, cleanRange) :=
     Env.extractSheetName env (SeriesInput.sourceRange firstSeries) in
   seriesSheetId <- resolveSheetId env (CreateChartInput.spreadsheetId input)
                      sheetName (CreateChartInput.anchorSheetId input) ;;
   gridRange <- lift (Env.parseRange env cleanRange seriesSheetId) ;;
   let pie := PieChartSpec.set_series (ChartData.ofSources [gridRange]) pie in
   match columnADomain cleanRange with
   | Some domainRange =>
       domainGridRange <- lift (Env.parseRange env domainRange seriesSheetId) ;;
       ret (ChartSpec.set_pieChart
              (Some (PieChartSpec.set_domain
                       (ChartData.ofSources [domainGridRange]) pie))
              chartSpec)
   | None => ret (ChartSpec.set_pieChart (Some pie) chartSpec)
   end)%prog.

(** Parse series data and get proper grid ranges:
    [if (basicChart && chartType !== 'PIE' && series.length > 0) ...
     else if (pieChart && chartType === 'PIE' && series.length > 0) ...]. *)
Definition handleCreateChart_ranges (env : Env.t) (input : CreateChartInput.t)
    (chartSpec : ChartSpec.t) : Prog ChartSpec.t :=
  let isPie := String.eqb (CreateChartInput.chartType input) "PIE" in
  let elseIf :=
    match ChartSpec.pieChart chartSpec, CreateChartInput.series input with
    | Some pie, firstSeries :: _ =>
        if isPie then handleCreateChart_pieBranch env input chartSpec pie firstSeries
        else ret chartSpec
    | _, _ => ret chartSpec
    end in
  match ChartSpec.basicChart chartSpec, CreateChartInput.series input with
  | Some basic, firstSeries :: _ =>
      if negb isPie
      then handleCreateChart_basicBranch env input chartSpec basic firstSeries
      else elseIf
  | _, _ => elseIf
  end.

(** The chart specification sent in the [addChart] request. *)
Definition handleCreateChart_spec (env : Env.t) (input : CreateChartInput.t)
  : Prog ChartSpec.t :=
  let chartSpec := ChartSpec.empty in
  let chartSpec := whenDefined (CreateChartInput.title input) ChartSpec.set_title chartSpec in
  let chartSpec :=
    whenDefined (CreateChartInput.subtitle input) ChartSpec.set_subtitle chartSpec in
  let chartSpec :=
    whenDefined (CreateChartInput.backgroundColor input)
      ChartSpec.set_backgroundColor chartSpec in
  let chartSpec := whenDefined (CreateChartInput.altText input) ChartSpec.set_altText chartSpec in
  let legendPosition := handleCreateChart_legendPosition (CreateChartInput.legend input) in
  let chartSpec :=
    handleCreateChart_family (CreateChartInput.chartType input) legendPosition chartSpec in
  let chartSpec := handleCreateChart_axes input chartSpec in
  handleCreateChart_ranges env input chartSpec.

Definition handleCreateChart_body (env : Env.t) (input : CreateChartInput.t)
  : Prog string :=
  (chartSpec <- handleCreateChart_spec env input ;;
   awaitBatchUpdate env (CreateChartInput.spreadsheetId input)
     [addChart chartSpec (ChartPositionInput.toRequest (CreateChartInput.position input))] ;;;
   ret ("Successfully created " ++ CreateChartInput.chartType input ++ " chart"))%prog.

Definition handleCreateChart (env : Env.t) (input : CreateChartInput.t)
  : list BackendCall * ToolResponse :=
  tryCatch (handleCreateChart_body env input).

(** ** sheets_update_chart *)

Module UpdateChartInput.
Record t : Type := mk {
  spreadsheetId : string;
  chartId : Z;
  position : option EmbeddedObjectPosition.t;
  chartType : option string;
  title : option string;
  subtitle : option string;
  series : option (list SeriesInput.t);
  domainAxis : option AxisInput.t;
  leftAxis : option AxisInput.t;
  rightAxis : option AxisInput.t;
  legend : option LegendInput.t;
  backgroundColor : option Color;
  altText : option string }.
End UpdateChartInput.

(** [sheet.charts?.find((c) => c.chartId === chartId)] *)
Definition findInSheet (chartId : Z) (sheet : Sheet.t) : option EmbeddedChart.t :=
  match Sheet.charts sheet with
  | Some charts =>
      List.find (fun c => match EmbeddedChart.chartId c with
                          | Some n => n =? chartId
                          | None => false
                          end) charts
  | None => None
  end.

(** Find the chart in the spreadsheet: the first sheet that has it. *)
Fixpoint findChart (chartId : Z) (sheets : list Sheet.t) : option EmbeddedChart.t :=
  match sheets with
  | [] => None
  | sheet :: rest =>
      match findInSheet chartId sheet with
      | Some chart => Some chart
      | None => findChart chartId rest
      end
  end.

(** [validatedInput.legend?.position || 'BOTTOM_LEGEND'] *)
Definition handleUpdateChart_legendPosition (legend : option LegendInput.t) : string :=
  Js.orString (match legend with Some l => LegendInput.position l | None => None end)
              "BOTTOM_LEGEND".

(** Update chart type and structure if specified. *)
Definition handleUpdateChart_chartType (input : UpdateChartInput.t)
    (currentSpec : option ChartSpec.t) (spec : ChartSpec.t) : ChartSpec.t :=
  match UpdateChartInput.chartType input with
  | Some chartType =>
      if Js.truthy chartType then
        if String.eqb chartType "PIE" then
          let currentPie :=
            match currentSpec with Some s => ChartSpec.pieChart s | None => None end in
          let pie := PieChartSpec.mk
            (Some (handleUpdateChart_legendPosition (UpdateChartInput.legend input)))
            (Some (Js.orObject
                     (match currentPie with Some p => PieChartSpec.domain p | None => None end)
                     ChartData.empty))
            (Some (Js.orObject
                     (match currentPie with Some p => PieChartSpec.series p | None => None end)
                     ChartData.empty))
            [] in
          ChartSpec.set_basicChart None (ChartSpec.set_pieChart (Some pie) spec)
        else
          let currentBasic :=
            match currentSpec with Some s => ChartSpec.basicChart s | None => None end in
          let basic := BasicChartSpec.mk
            (Some chartType)
            (Some (handleUpdateChart_legendPosition (UpdateChartInput.legend input)))
            (Some (Js.orObject
                     (match currentBasic with Some b => BasicChartSpec.axis b | None => None end)
                     []))
            (Some (Js.orObject
                     (match currentBasic with Some b => BasicChartSpec.domains b | None => None end)
                     []))
            (Some (Js.orObject
                     (match currentBasic with Some b => BasicChartSpec.series b | None => None end)
                     []))
            [] in
          ChartSpec.set_pieChart None (ChartSpec.set_basicChart (Some basic) spec)
      else spec
  | None => spec
  end.

(** Update legend if provided. *)
Definition handleUpdateChart_legend (input : UpdateChartInput.t)
    (spec : ChartSpec.t) : ChartSpec.t :=
  match UpdateChartInput.legend input with
  | Some legend =>
      let position := Js.orString (LegendInput.position legend) "BOTTOM_LEGEND" in
      match ChartSpec.basicChart spec, ChartSpec.pieChart spec with
      | Some basic, _ =>
          ChartSpec.set_basicChart
            (Some (BasicChartSpec.set_legendPosition position basic)) spec
      | None, Some pie =>
          ChartSpec.set_pieChart (Some (PieChartSpec.set_legendPosition position pie)) spec
      | None, None => spec
      end
  | None => spec
  end.

(** One element of [validatedInput.series.map(...)]: the source range is
    the fixed block of rows 0 to 100 in column 0 of the anchor's sheet. *)
Definition handleUpdateChart_basicSeries (input : UpdateChartInput.t)
    (currentChart : EmbeddedChart.t) (series : SeriesInput.t) : BasicChartSeries.t :=
  let sheetId :=
    Js.orNumber (EmbeddedObjectPosition.anchorSheetId (UpdateChartInput.position input))
                (EmbeddedObjectPosition.anchorSheetId (EmbeddedChart.position currentChart)) in
  BasicChartSeries.mk
    (ChartData.ofSources [GridRange.mk sheetId (Some 0) (Some 100) (Some 0) (Some 1)])
    (Some (Js.orString (SeriesInput.targetAxis series) "LEFT_AXIS"))
    (match SeriesInput.type series with
     | Some t => Some t
     | None => UpdateChartInput.chartType input
     end)
    [].

(** Update series if provided. *)
Definition handleUpdateChart_series (input : UpdateChartInput.t)
    (currentChart : EmbeddedChart.t) (spec : ChartSpec.t) : ChartSpec.t :=
  match UpdateChartInput.series input, ChartSpec.basicChart spec with
  | Some series, Some basic =>
      ChartSpec.set_basicChart
        (Some (BasicChartSpec.set_series
                 (List.map (handleUpdateChart_basicSeries input currentChart) series)
                 basic))
        spec
  | _, _ => spec
  end.

(** Build the updated chart spec based on current chart and new values.
    The copy [{ ...currentChart.spec }] is shallow, but nothing read from
    [currentChart] after a nested assignment is part of [spec], so the
    shared family objects need no store of their own. *)
Definition handleUpdateChart_spec (input : UpdateChartInput.t)
    (currentChart : EmbeddedChart.t) : ChartSpec.t :=
  let spec := Js.orObject (EmbeddedChart.spec currentChart) ChartSpec.empty in
  let spec := whenDefined (UpdateChartInput.title input) ChartSpec.set_title spec in
  let spec := whenDefined (UpdateChartInput.subtitle input) ChartSpec.set_subtitle spec in
  let spec :=
    whenDefined (UpdateChartInput.backgroundColor input) ChartSpec.set_backgroundColor spec in
  let spec := whenDefined (UpdateChartInput.altText input) ChartSpec.set_altText spec in
  let spec := handleUpdateChart_chartType input (EmbeddedChart.spec currentChart) spec in
  let spec := handleUpdateChart_legend input spec in
  handleUpdateChart_series input currentChart spec.

(** [(validatedInput.position || currentChart.position)!] *)
Definition handleUpdateChart_position (input : UpdateChartInput.t)
    (currentChart : EmbeddedChart.t) : option EmbeddedObjectPosition.t :=
  match UpdateChartInput.position input with
  | Some p => Some p
  | None => EmbeddedChart.position currentChart
  end.

Definition handleUpdateChart_body (env : Env.t) (input : UpdateChartInput.t)
  : Prog string :=
  (spreadsheet <- await (SpreadsheetsGet (UpdateChartInput.spreadsheetId input))
                    (Env.spreadsheetsGet env (UpdateChartInput.spreadsheetId input)) ;;
   match findChart (UpdateChartInput.chartId input)
           (Js.orObject (Spreadsheet.sheets spreadsheet) []) with
   | None =>
       throw ("Chart with ID " ++ Js.numberToString (UpdateChartInput.chartId input)
              ++ " not found")
   | Some currentChart =>
       awaitBatchUpdate env (UpdateChartInput.spreadsheetId input)
         [updateEmbeddedObjectPosition (UpdateChartInput.chartId input)
            (handleUpdateChart_position input currentChart) "position";
          updateChartSpec (UpdateChartInput.chartId input)
            (handleUpdateChart_spec input currentChart)] ;;;
       ret ("Successfully updated chart "
            ++ Js.numberToString (UpdateChartInput.chartId input))
   end)%prog.

Definition handleUpdateChart (env : Env.t) (input : UpdateChartInput.t)
  : list BackendCall * ToolResponse :=
  tryCatch (handleUpdateChart_body env input).

(** ** The range helpers, as the specification describes them

    [extractSheetName], [getSheetId], [parseRange] and the letters-to-index
    conversion are imported by the handlers from a helper file that is not
    among the sources.  The definitions below follow the specification of
    the address parser and the sheet resolver; they give the handlers a
    concrete environment to run in. *)

Module RangeHelpers.
Import Js.

(** Modelled from the spec: the letters-to-index half of the column
    conversion (the helper file with [columnToIndex] is absent).  "Bijective
    base-26 with no digit zero (A=0, Z=25, AA=26)": every letter is a digit
    from 1 to 26 and the index is the value minus one. *)
Fixpoint columnValue_from (acc : Z) (s : string) : Z :=
  match s with
  | EmptyString => acc
  | String c s' => columnValue_from (acc * 26 + (Z.of_nat (nat_of_ascii c) - 64)) s'
  end.

(** Modelled from the spec: [columnToIndex], the inverse of
    [indexToColumn] (A=0, Z=25, AA=26); absent from the sources. *)
Definition columnToIndex (s : string) : Z := columnValue_from 0 s - 1.

(** [s] split at its last [!], when it has one. *)
Fixpoint splitLastBang (s : string) : option (string * string) :=
  match s with
  | EmptyString => None
  | String c s' =>
      match splitLastBang s' with
      | Some (name, rest) => Some (String c name, rest)
      | None => if Ascii.eqb c "!" then Some (EmptyString, s') else None
      end
  end.

(** One layer of single quotes around a sheet name is stripped. *)
Definition stripQuotes (name : string) : string :=
  let n := String.length name in
  if (Nat.leb 2 n && String.eqb (substring 0 1 name) "'"
      && String.eqb (substring (n - 1) 1 name) "'")%bool
  then substring 1 (n - 2) name
  else name.

(** Modelled from the spec: the address parser "detects and strips an
    optional leading sheet-name qualifier", grammar
    [[ 'sheetName' ! ] range], and "must strip one layer of quoting if
    present" (the helper file with [extractSheetName] is absent). *)
Definition extractSheetName (range : string) : option string * string :=
  match splitLastBang range with
  | Some (name, rest) => (Some (stripQuotes name), rest)
  | None => (None, range)
  end.

Definition invalidRange {A : Type} (range : string) : Result A :=
  Thrown ("InvalidRangeError: " ++ range).

(** The zero-based row of a one-based row label; a missing label is an
    unbounded side. *)
Definition rowIndex (digits : string) : option Z :=
  if isEmpty digits then None else Some (parseInt digits - 1).

(** Modelled from the spec: the A1 parser (the helper file with [parseRange]
    is absent).  A single cell "yields a region of height 1, width 1";
    ["A1:C10"] yields [{startRow:0,endRow:9,startCol:0,endCol:2}]; a bare
    column range such as ["A:A"] "yields an unbounded row span"; [""], ["A"]
    and ["1:5"] fail with [InvalidRangeError]. *)
Definition parseRange (range : string) (sheetId : Z) : Result GridRange.t :=
  let '(c1, s1) := span isUpper range in
  let '(r1, s2) := span isDigit s1 in
  if isEmpty c1 then invalidRange range else
  match s2 with
  | EmptyString =>
      if isEmpty r1 then invalidRange range else
      Ok (GridRange.mk (Some sheetId) (rowIndex r1) (rowIndex r1)
            (Some (columnToIndex c1)) (Some (columnToIndex c1)))
  | String ":" s3 =>
      let '(c2, s4) := span isUpper s3 in
      let '(r2, s5) := span isDigit s4 in
      if (isEmpty c2 || negb (isEmpty s5))%bool then invalidRange range else
      Ok (GridRange.mk (Some sheetId) (rowIndex r1) (rowIndex r2)
            (Some (columnToIndex c1)) (Some (columnToIndex c2)))
  | _ => invalidRange range
  end.

(** Modelled from the spec: the sheet resolver (the helper file with
    [getSheetId] is absent).  With a name it "performs exact
    (case-sensitive) name match" over the metadata list and "fails with
    SheetNotFoundError if no match"; without one it returns the contextual
    default the caller supplied. *)
Definition getSheetId (metadata : list (string * Z)) (contextDefault : option Z)
    (sheetName : option string) : Result Z :=
  match sheetName with
  | Some name =>
      match List.find (fun entry => String.eqb (fst entry) name) metadata with
      | Some entry => Ok (snd entry)
      | None => Thrown ("SheetNotFoundError: " ++ name)
      end
  | None =>
      match contextDefault with
      | Some id => Ok id
      | None => Thrown "SheetNotFoundError: no sheet name"
      end
  end.

(** An environment built from these helpers: a spreadsheet with the given
    sheets and content, and a service that accepts every request. *)
Definition env (metadata : list (string * Z)) (content : Spreadsheet.t) : Env.t :=
  Env.mk extractSheetName
    (fun _ sheetName => getSheetId metadata None sheetName)
    parseRange
    (fun _ => Ok content)
    (fun _ _ => Ok tt)
    (fun _ range _ _ => Ok (UpdateValuesResponse.mk None (Some range)))
    (fun cells _ => "Updated " ++ numberToString cells ++ " cells").

End RangeHelpers.

(** ** The service's side of [repeatCell]

    The request names, in [fields], the paths of the cell that the service
    overwrites with the values of the request; a named path that the request
    leaves out is cleared, and a path that is not named keeps its value.
    The mask is a comma-separated list of dotted paths. *)

Module Backend.

Fixpoint splitComma_from (current : string) (s : string) : list string :=
  match s with
  | EmptyString => [current]
  | String c s' =>
      if Ascii.eqb c "," then current :: splitComma_from EmptyString s'
      else splitComma_from (current ++ String c EmptyString) s'
  end.

Definition maskPaths (fields : string) : list string := splitComma_from EmptyString fields.

(** A format attribute is written when the mask names the whole format
    object or the attribute itself. *)
Definition maskCovers (fields attribute : string) : bool :=
  existsb (fun path =>
             (String.eqb path "userEnteredFormat"
              || String.eqb path ("userEnteredFormat." ++ attribute))%bool)
          (maskPaths fields).

Definition pick {A : Type} (fields attribute : string) (requested existing : option A)
  : option A :=
  if maskCovers fields attribute then requested else existing.

(** The format of a cell in the range after the request is applied. *)
Definition applyRepeatCell (r : RepeatCell.t) (existing : CellFormat.t) : CellFormat.t :=
  let f := RepeatCell.fields r in
  let q := RepeatCell.userEnteredFormat r in
  CellFormat.mk
    (pick f "backgroundColor" (CellFormat.backgroundColor q) (CellFormat.backgroundColor existing))
    (pick f "textFormat" (CellFormat.textFormat q) (CellFormat.textFormat existing))
    (pick f "horizontalAlignment" (CellFormat.horizontalAlignment q)
       (CellFormat.horizontalAlignment existing))
    (pick f "verticalAlignment" (CellFormat.verticalAlignment q)
       (CellFormat.verticalAlignment existing))
    (pick f "wrapStrategy" (CellFormat.wrapStrategy q) (CellFormat.wrapStrategy existing))
    (pick f "numberFormat" (CellFormat.numberFormat q) (CellFormat.numberFormat existing))
    (pick f "padding" (CellFormat.padding q) (CellFormat.padding existing)).

End Backend.

(** ** Keys present in a built object, and shapes of inputs named by the
    properties below *)

Definition keyIf {A : Type} (name : string) (v : option A) : list string :=
  match v with Some _ => [name] | None => [] end.

(** The keys of a text-format object, in declaration order. *)
Definition TextFormat_keys (tf : TextFormat.t) : list string :=
  (keyIf "foregroundColor" (TextFormat.foregroundColor tf)
   ++ keyIf "fontFamily" (TextFormat.fontFamily tf)
   ++ keyIf "fontSize" (TextFormat.fontSize tf)
   ++ keyIf "bold" (TextFormat.bold tf)
   ++ keyIf "italic" (TextFormat.italic tf)
   ++ keyIf "strikethrough" (TextFormat.strikethrough tf)
   ++ keyIf "underline" (TextFormat.underline tf))%list.

(** The keys of a cell-format object. *)
Definition CellFormat_keys (cf : CellFormat.t) : list string :=
  (keyIf "backgroundColor" (CellFormat.backgroundColor cf)
   ++ keyIf "textFormat" (CellFormat.textFormat cf)
   ++ keyIf "horizontalAlignment" (CellFormat.horizontalAlignment cf)
   ++ keyIf "verticalAlignment" (CellFormat.verticalAlignment cf)
   ++ keyIf "wrapStrategy" (CellFormat.wrapStrategy cf)
   ++ keyIf "numberFormat" (CellFormat.numberFormat cf)
   ++ keyIf "padding" (CellFormat.padding cf))%list.

(** The edge keys of an update-borders request. *)
Definition UpdateBordersRequest_keys (r : UpdateBordersRequest.t) : list string :=
  (keyIf "top" (UpdateBordersRequest.top r)
   ++ keyIf "bottom" (UpdateBordersRequest.bottom r)
   ++ keyIf "left" (UpdateBordersRequest.left r)
   ++ keyIf "right" (UpdateBordersRequest.right r)
   ++ keyIf "innerHorizontal" (UpdateBordersRequest.innerHorizontal r)
   ++ keyIf "innerVertical" (UpdateBordersRequest.innerVertical r))%list.

Definition isSome {A : Type} (v : option A) : bool :=
  match v with Some _ => true | None => false end.

(** The format [{ textFormat: { bold: true } }]. *)
Definition boldOnly : CellFormat.t :=
  CellFormat.mk None
    (Some (TextFormat.mk None None None (Some true) None None None))
    None None None None None.

(** The borders [{ top: { style: "NONE" } }]. *)
Definition topNoneOnly : Borders.t :=
  Borders.mk (Some (Border.mk NONE None None)) None None None None None.

(** A non-empty run of upper-case letters, and of decimal digits. *)
Definition letters (s : string) : Prop := s <> EmptyString /\ Js.all Js.isUpper s = true.
Definition digits (s : string) : Prop := s <> EmptyString /\ Js.all Js.isDigit s = true.

(** A valid column string is a non-empty run of the letters A to Z. *)
Definition validColumn (s : string) : Prop := letters s.

(** A range that ends in letters-digits:letters-digits, with the two row
    labels [row1] and [row2]. *)
Definition endsInRectangle (range row1 row2 : string) : Prop :=
  exists prefix col1 col2,
    range = prefix ++ col1 ++ row1 ++ ":" ++ col2 ++ row2
    /\ letters col1 /\ digits row1 /\ letters col2 /\ digits row2.

(** The first character of [s], if any, is outside the class [p]. *)
Definition headOutside (p : ascii -> bool) (s : string) : Prop :=
  match s with
  | EmptyString => True
  | String c _ => p c = false
  end.

Definition notColon (c : ascii) : bool := negb (Ascii.eqb c ":").

(** The digits that end a string: what follows its last non-digit. *)
Fixpoint trailingDigits (s : string) : string :=
  match s with
  | EmptyString => EmptyString
  | String c s' => if Js.all Js.isDigit s then s else trailingDigits s'
  end.

(** *** Inputs and states used as examples *)

(** A cell format with a red background and centred text, as already
    present on a sheet. *)
Definition redCentred : CellFormat.t :=
  CellFormat.mk (Some (Js.JObj [("red", Js.JNum 1)])) None (Some CENTER)
    None None None None.

Definition anchorOnSheet (sheetId : Z) : ChartPositionInput.t :=
  ChartPositionInput.mk
    (OverlayPositionInput.mk (AnchorCellInput.mk sheetId 0 0) None None None None).

(** A pie chart over ["Sheet1!B2:B10"], with or without a domain range. *)
Definition pieInput (domainRange : option string) : CreateChartInput.t :=
  CreateChartInput.mk "doc" (anchorOnSheet 0) "PIE" None None
    [SeriesInput.mk "Sheet1!B2:B10" None None] domainRange
    None None None None None None.

(** The input with another [domainRange] and everything else unchanged. *)
Definition withDomainRange (domainRange : option string) (i : CreateChartInput.t)
  : CreateChartInput.t :=
  CreateChartInput.mk (CreateChartInput.spreadsheetId i) (CreateChartInput.position i)
    (CreateChartInput.chartType i) (CreateChartInput.title i)
    (CreateChartInput.subtitle i) (CreateChartInput.series i) domainRange
    (CreateChartInput.domainAxis i) (CreateChartInput.leftAxis i)
    (CreateChartInput.rightAxis i) (CreateChartInput.legend i)
    (CreateChartInput.backgroundColor i) (CreateChartInput.altText i).

(** The pie chart of a specification the handler produced, if any. *)
Definition sentPieDomain (p : Prog ChartSpec.t) : option ChartData.t :=
  match snd p with
  | Ok spec =>
      match ChartSpec.pieChart spec with
      | Some pie => PieChartSpec.domain pie
      | None => None
      end
  | Thrown _ => None
  end.

(** The sources a parsed range gives to a chart. *)
Definition sourcesOf (r : Result GridRange.t) : option ChartData.t :=
  match r with
  | Ok g => Some (ChartData.ofSources [g])
  | Thrown _ => None
  end.

(** An update that names nothing but the given fields. *)
Definition updateInput (chartType : option string) (legend : option LegendInput.t)
  : UpdateChartInput.t :=
  UpdateChartInput.mk "doc" 7 None chartType None None None None None None legend
    None None.

(** A column chart on sheet 0 with a titled left axis, a domain in column A,
    one series in column B and its legend on the right. *)
Definition columnChartSpec : ChartSpec.t :=
  ChartSpec.mk (Some "Sales") None None None
    (Some (BasicChartSpec.mk (Some "COLUMN") (Some "RIGHT_LEGEND")
             (Some [BasicChartAxis.mk "LEFT_AXIS" (Some "Units") []])
             (Some [BasicChartDomain.mk
                      (ChartData.ofSources
                         [GridRange.mk (Some 0) (Some 1) (Some 10) (Some 0) (Some 1)]) []])
             (Some [BasicChartSeries.mk
                      (ChartData.ofSources
                         [GridRange.mk (Some 0) (Some 1) (Some 10) (Some 1) (Some 2)])
                      (Some "LEFT_AXIS") (Some "COLUMN") []])
             [("headerCount", Js.JNum 1)]))
    None [].

Definition columnChart : EmbeddedChart.t :=
  EmbeddedChart.mk (Some 7)
    (Some (ChartPositionInput.toRequest (anchorOnSheet 0)))
    (Some columnChartSpec).

(** The legend position of whichever chart family a specification has. *)
Definition legendPositionOf (spec : ChartSpec.t) : option string :=
  match ChartSpec.basicChart spec, ChartSpec.pieChart spec with
  | Some basic, _ => BasicChartSpec.legendPosition basic
  | None, Some pie => PieChartSpec.legendPosition pie
  | None, None => None
  end.


(** The first character of [s] exists and is inside the class [p]. *)
Definition headInside (p : ascii -> bool) (s : string) : Prop :=
  match s with
  | EmptyString => False
  | String c _ => p c = true
  end.

(** The groups of a direct match, as the list the engine returns. *)
Definition groupList (g : option (string * string * string * string))
  : option (list string) :=
  match g with
  | Some (a, b, c, d) => Some [a; b; c; d]
  | None => None
  end.

(** *** Further environments and shapes used by the properties *)

(** The environment of the range helpers with a service that rejects every
    structural request and every value update with [message]. *)
Definition rejectingEnv (metadata : list (string * Z)) (message : string) : Env.t :=
  Env.mk RangeHelpers.extractSheetName
    (fun _ sheetName => RangeHelpers.getSheetId metadata None sheetName)
    RangeHelpers.parseRange
    (fun _ => Thrown message)
    (fun _ _ => Thrown message)
    (fun _ _ _ _ => Thrown message)
    (fun cells _ => "Updated " ++ Js.numberToString cells ++ " cells").

(** The last character of a string, if it has one. *)
Fixpoint lastChar (s : string) : option ascii :=
  match s with
  | EmptyString => None
  | String c EmptyString => Some c
  | String _ s' => lastChar s'
  end.

(** The A1 range that [handleInsertRows] writes its values to: the block
    that starts in the anchor column at the first inserted row, as wide as
    the longest row and as tall as the payload. *)
Definition handleInsertRows_updateRange (sheetName : option string)
    (anchorColumnIndex startIndex : Z) (values : list (list Js.Json)) : string :=
  let updateStartRow := startIndex + 1 in
  let updateEndRow := updateStartRow + Z.of_nat (List.length values) - 1 in
  let startColumn := indexToColumn anchorColumnIndex in
  let endColumn := indexToColumn (anchorColumnIndex + maxLength values - 1) in
  let cells := startColumn ++ Js.numberToString updateStartRow ++ ":"
               ++ endColumn ++ Js.numberToString updateEndRow in
  if truthyName sheetName
  then "'" ++ Js.orString sheetName "" ++ "'!" ++ cells
  else cells.

(** What the three steps shared by the range handlers yield for a range
    string: the sheet name is split off, looked up, and the rest is parsed
    against the sheet found. *)
Definition resolveRange (env : Env.t) (spreadsheetId range : string)
  : Result GridRange.t :=
  let '(sheetName, cleanRange) := Env.extractSheetName env range in
  match Env.getSheetId env spreadsheetId sheetName with
  | Ok sheetId => Env.parseRange env cleanRange sheetId
  | Thrown e => Thrown e
  end.

(** The lookup a range handler makes for a range string. *)
Definition lookupOf (env : Env.t) (spreadsheetId range : string) : BackendCall :=
  SheetLookup spreadsheetId (fst (Env.extractSheetName env range)).

(** The [repeatCell] request of a batch entry whose range resolved to
    [gridRange]. *)
Definition batchEntryRequest (entry : FormatRequest.t * GridRange.t) : Request :=
  repeatCell (formatCellsHandler_request (snd entry) (FormatRequest.format (fst entry))).

(** A call that only reads: the lookup of a sheet id. *)
Definition isLookup (c : BackendCall) : Prop :=
  match c with
  | SheetLookup _ _ => True
  | _ => False
  end.

(** The grid range that chart creation gets for a range string: the sheet
    named in the string, or [fallback] when it names none. *)
Definition chartRange (env : Env.t) (spreadsheetId : string) (fallback : Z)
    (range : string) : Result GridRange.t :=
  let '(sheetName, cleanRange) := Env.extractSheetName env range in
  match snd (resolveSheetId env spreadsheetId sheetName fallback) with
  | Ok sheetId => Env.parseRange env cleanRange sheetId
  | Thrown e => Thrown e
  end.

(** The series entry that chart creation builds for an input series whose
    range resolved to [gridRange]. *)
Definition createdSeries (chartType : string) (entry : SeriesInput.t * GridRange.t)
  : BasicChartSeries.t :=
  BasicChartSeries.mk (ChartData.ofSources [snd entry])
    (Some (Js.orString (SeriesInput.targetAxis (fst entry)) "LEFT_AXIS"))
    (Some (Js.orString (SeriesInput.type (fst entry)) chartType))
    [].

(** A chart input cut down to what a pie chart is built from: its first
    series, and neither a domain range nor axis settings. *)
Definition pieReduced (i : CreateChartInput.t) : CreateChartInput.t :=
  CreateChartInput.mk (CreateChartInput.spreadsheetId i) (CreateChartInput.position i)
    (CreateChartInput.chartType i) (CreateChartInput.title i)
    (CreateChartInput.subtitle i)
    (match CreateChartInput.series i with
     | [] => []
     | firstSeries :: _ => [firstSeries]
     end)
    None None None None (CreateChartInput.legend i)
    (CreateChartInput.backgroundColor i) (CreateChartInput.altText i).

(** Whether the input names a domain range:
    [validatedInput.domainRange] as a condition. *)
Definition hasDomainRange (input : CreateChartInput.t) : bool :=
  match CreateChartInput.domainRange input with
  | Some d => Js.truthy d
  | None => false
  end.

(** The sheet id that ranges without a sheet name fall back to in a basic
    chart: the sheet of the first series, or the anchor's sheet when the
    first series names none. *)
Definition firstSeriesSheetId (env : Env.t) (input : CreateChartInput.t)
    (firstSeries : SeriesInput.t) : Result Z :=
  snd (resolveSheetId env (CreateChartInput.spreadsheetId input)
         (fst (Env.extractSheetName env (SeriesInput.sourceRange firstSeries)))
         (CreateChartInput.anchorSheetId input)).

(** The [domains] entry built from one grid range. *)
Definition domainOf (g : GridRange.t) : BasicChartDomain.t :=
  BasicChartDomain.mk (ChartData.ofSources [g]) [].

(** A column chart anchored on sheet 0 over two series: column B of the
    sheet "Data", and column C of no named sheet drawn as a line on the
    right axis. *)
Definition comboInput (domainRange : option string) (legend : option LegendInput.t)
  : CreateChartInput.t :=
  CreateChartInput.mk "doc" (anchorOnSheet 0) "COLUMN" None None
    [SeriesInput.mk "Data!B2:B10" None None;
     SeriesInput.mk "C2:C10" (Some "LINE") (Some "RIGHT_AXIS")]
    domainRange None None None legend None None.

(** A spreadsheet with the sheets "Sheet1" (id 0) and "Data" (id 7). *)
Definition twoSheets : Env.t :=
  RangeHelpers.env [("Sheet1", 0); ("Data", 7)] (Spreadsheet.mk None).


(** Some sheet of the list holds a chart with the given id. *)
Definition hasChart (chartId : Z) (sheets : list Sheet.t) : Prop :=
  exists sheet charts chart,
    In sheet sheets /\ Sheet.charts sheet = Some charts /\ In chart charts
    /\ EmbeddedChart.chartId chart = Some chartId.

(** The block of rows 0 to 100 in column 0 of a sheet. *)
Definition placeholderRange (sheetId : option Z) : GridRange.t :=
  GridRange.mk sheetId (Some 0) (Some 100) (Some 0) (Some 1).

(** [axisInput?.title] *)
Definition axisTitle (axisInput : option AxisInput.t) : option string :=
  match axisInput with
  | Some a => AxisInput.title a
  | None => None
  end.

(** The axis entry with the given position and title. *)
Definition titledAxis (position title : string) : BasicChartAxis.t :=
  BasicChartAxis.mk position (Some title) [].

(** ** Spreadsheet and sheet properties

    [handleCreateSpreadsheet] and [handleUpdateSheetProperties] reach the
    service through calls of their own.  The formatters of their answers
    are defined elsewhere; here the answer of a call is the text that the
    formatter makes of the service's response. *)

Module SheetInput.
Record t : Type := mk {
  title : option string;
  rowCount : option Z;
  columnCount : option Z }.
End SheetInput.

Module CreateSpreadsheetInput.
Record t : Type := mk {
  title : string;
  sheets : option (list SheetInput.t) }.
End CreateSpreadsheetInput.

(** [{ properties: { title, gridProperties: { rowCount, columnCount } } }] *)
Module NewSheet.
Record t : Type := mk {
  title : string;
  rowCount : Z;
  columnCount : Z }.
End NewSheet.

(** [{ properties: { title }, sheets }], where [sheets] may be left out. *)
Module CreateRequestBody.
Record t : Type := mk {
  title : string;
  sheets : option (list NewSheet.t) }.
End CreateRequestBody.

Module GridPropertiesInput.
Record t : Type := mk {
  rowCount : option Z;
  columnCount : option Z;
  frozenRowCount : option Z;
  frozenColumnCount : option Z }.
End GridPropertiesInput.

Module UpdateSheetPropertiesInput.
Record t : Type := mk {
  spreadsheetId : string;
  sheetId : Z;
  title : option string;
  gridProperties : option GridPropertiesInput.t;
  tabColor : option Color }.
End UpdateSheetPropertiesInput.

(** [{ properties: { sheetId, title, gridProperties, tabColor }, fields }] *)
Module UpdateSheetPropertiesRequest.
Record t : Type := mk {
  sheetId : Z;
  title : option string;
  gridProperties : option GridPropertiesInput.t;
  tabColor : option Color;
  fields : string }.
End UpdateSheetPropertiesRequest.

(** The calls of these two handlers. *)
Inductive PropertiesCall : Type :=
| SpreadsheetsCreate (requestBody : CreateRequestBody.t)
| UpdateSheetProperties (spreadsheetId : string) (request : UpdateSheetPropertiesRequest.t).

Module PropertiesEnv.
Record t : Type := mk {
  spreadsheetsCreate : CreateRequestBody.t -> Result string;
  batchUpdate : string -> UpdateSheetPropertiesRequest.t -> Result unit;
  formatSheetOperationResponse : string -> Z -> string -> string }.
End PropertiesEnv.

(** [count || fallback] on an optional number: [undefined] and [0] are
    falsy. *)
Definition orCount (count : option Z) (fallback : Z) : Z :=
  match count with
  | Some n => if n =? 0 then fallback else n
  | None => fallback
  end.

(** The callback of [validatedInput.sheets.map((sheet, index) => ...)]. *)
Definition handleCreateSpreadsheet_sheet (sheet : SheetInput.t) (index : Z) : NewSheet.t :=
  NewSheet.mk
    (Js.orString (SheetInput.title sheet) ("Sheet" ++ Js.numberToString (index + 1)))
    (orCount (SheetInput.rowCount sheet) 1000)
    (orCount (SheetInput.columnCount sheet) 26).

(** [Array.prototype.map] with the index, from [index] on. *)
Fixpoint mapWithIndex {A B : Type} (f : A -> Z -> B) (index : Z) (l : list A) : list B :=
  match l with
  | [] => []
  | x :: rest => f x index :: mapWithIndex f (index + 1) rest
  end.

Definition handleCreateSpreadsheet_requestBody (input : CreateSpreadsheetInput.t)
  : CreateRequestBody.t :=
  CreateRequestBody.mk (CreateSpreadsheetInput.title input)
    (match CreateSpreadsheetInput.sheets input with
     | Some (first :: rest) =>
         Some (mapWithIndex handleCreateSpreadsheet_sheet 0 (first :: rest))
     | _ => None
     end).

Definition handleCreateSpreadsheet (env : PropertiesEnv.t)
    (input : CreateSpreadsheetInput.t) : list PropertiesCall * ToolResponse :=
  let requestBody := handleCreateSpreadsheet_requestBody input in
  ([SpreadsheetsCreate requestBody],
   match PropertiesEnv.spreadsheetsCreate env requestBody with
   | Ok text => Success text
   | Thrown e => HandledError e
   end).

(** [if (value !== undefined) fields.push(name)] *)
Definition pushIfDefined {A : Type} (value : option A) (name : string)
    (fields : list string) : list string :=
  match value with
  | Some _ => (fields ++ [name])%list
  | None => fields
  end.

(** The [fields] array before it is joined. *)
Definition handleUpdateSheetProperties_fields (input : UpdateSheetPropertiesInput.t)
  : list string :=
  let fields := [] in
  let fields := pushIfDefined (UpdateSheetPropertiesInput.title input) "title" fields in
  let fields :=
    match UpdateSheetPropertiesInput.gridProperties input with
    | Some g =>
        let fields :=
          pushIfDefined (GridPropertiesInput.rowCount g) "gridProperties.rowCount" fields in
        let fields :=
          pushIfDefined (GridPropertiesInput.columnCount g)
            "gridProperties.columnCount" fields in
        let fields :=
          pushIfDefined (GridPropertiesInput.frozenRowCount g)
            "gridProperties.frozenRowCount" fields in
        pushIfDefined (GridPropertiesInput.frozenColumnCount g)
          "gridProperties.frozenColumnCount" fields
    | None => fields
    end in
  pushIfDefined (UpdateSheetPropertiesInput.tabColor input) "tabColor" fields.

(** [fields.join(',')] *)
Fixpoint join (separator : string) (l : list string) : string :=
  match l with
  | [] => ""
  | x :: rest =>
      match rest with
      | [] => x
      | _ => x ++ separator ++ join separator rest
      end
  end.

Definition handleUpdateSheetProperties_request (input : UpdateSheetPropertiesInput.t)
  : Result UpdateSheetPropertiesRequest.t :=
  match handleUpdateSheetProperties_fields input with
  | [] => Thrown "No properties to update"
  | fields =>
      Ok (UpdateSheetPropertiesRequest.mk
            (UpdateSheetPropertiesInput.sheetId input)
            (UpdateSheetPropertiesInput.title input)
            (UpdateSheetPropertiesInput.gridProperties input)
            (UpdateSheetPropertiesInput.tabColor input)
            (join "," fields))
  end.

Definition handleUpdateSheetProperties (env : PropertiesEnv.t)
    (input : UpdateSheetPropertiesInput.t) : list PropertiesCall * ToolResponse :=
  match handleUpdateSheetProperties_request input with
  | Thrown e => ([], HandledError e)
  | Ok request =>
      let spreadsheetId := UpdateSheetPropertiesInput.spreadsheetId input in
      ([UpdateSheetProperties spreadsheetId request],
       match PropertiesEnv.batchUpdate env spreadsheetId request with
       | Ok _ =>
           Success (PropertiesEnv.formatSheetOperationResponse env
                      "Sheet properties updated"
                      (UpdateSheetPropertiesInput.sheetId input)
                      (UpdateSheetPropertiesRequest.fields request))
       | Thrown e => HandledError e
       end)
  end.

(** A service that accepts every request of these handlers. *)
Definition acceptingProperties : PropertiesEnv.t :=
  PropertiesEnv.mk (fun _ => Ok "created") (fun _ _ => Ok tt)
    (fun message _ fields => message ++ ": " ++ fields).

(** The property that a path of the field mask names is present in the
    input. *)
Definition namesPresentProperty (input : UpdateSheetPropertiesInput.t) (path : string)
  : Prop :=
  (path = "title" /\ UpdateSheetPropertiesInput.title input <> None)
  \/ (path = "tabColor" /\ UpdateSheetPropertiesInput.tabColor input <> None)
  \/ (exists g,
        UpdateSheetPropertiesInput.gridProperties input = Some g
        /\ ((path = "gridProperties.rowCount" /\ GridPropertiesInput.rowCount g <> None)
            \/ (path = "gridProperties.columnCount"
                /\ GridPropertiesInput.columnCount g <> None)
            \/ (path = "gridProperties.frozenRowCount"
                /\ GridPropertiesInput.frozenRowCount g <> None)
            \/ (path = "gridProperties.frozenColumnCount"
                /\ GridPropertiesInput.frozenColumnCount g <> None))).

Definition notComma (c : ascii) : bool := negb (Ascii.eqb c ",").

(** * Properties *)

(** ** Column letters *)

Lemma indexToColumn_loop_step (num : Z) (column : string) :
  0 < num ->
  indexToColumn_loop num column =
  indexToColumn_loop ((num - 1) / 26)
    (String (columnLetter ((num - 1) mod 26)) column).
Proof.
  intros Hpos. rewrite indexToColumn_loop_equation_1.
  destruct (Z_lt_dec 0 num) as [Hl | Hn]; [reflexivity | lia].
Qed.

Lemma indexToColumn_loop_done (num : Z) (column : string) :
  num <= 0 -> indexToColumn_loop num column = column.
Proof.
  intros Hle. rewrite indexToColumn_loop_equation_1.
  destruct (Z_lt_dec 0 num) as [Hl | Hn]; [lia | reflexivity].
Qed.

(** An upper-case letter has a code from 65 to 90. *)
Lemma isUpper_code (c : ascii) :
  Js.isUpper c = true -> 65 <= Z.of_nat (nat_of_ascii c) <= 90.
Proof.
  unfold Js.isUpper. intros H.
  apply andb_true_iff in H as [H1 H2].
  apply Nat.leb_le in H1. apply Nat.leb_le in H2. lia.
Qed.

(** The letter written for digit [code - 65] is the letter itself. *)
Lemma columnLetter_code (c : ascii) :
  columnLetter (Z.of_nat (nat_of_ascii c) - 65) = c.
Proof.
  unfold columnLetter.
  replace (Z.of_nat (nat_of_ascii c) - 65 + 65) with (Z.of_nat (nat_of_ascii c)) by lia.
  rewrite Nat2Z.id. apply ascii_nat_embedding.
Qed.

(** One round of the loop undoes one letter of the value. *)
Lemma indexToColumn_loop_letter (acc : Z) (c : ascii) (column : string) :
  0 <= acc -> Js.isUpper c = true ->
  indexToColumn_loop (acc * 26 + (Z.of_nat (nat_of_ascii c) - 64)) column =
  indexToColumn_loop acc (String c column).
Proof.
  intros Hacc Hc. apply isUpper_code in Hc as Hcode.
  set (d := Z.of_nat (nat_of_ascii c) - 65).
  assert (Hd : 0 <= d < 26) by (unfold d; lia).
  rewrite indexToColumn_loop_step by lia.
  replace (acc * 26 + (Z.of_nat (nat_of_ascii c) - 64) - 1) with (d + acc * 26)
    by (unfold d; lia).
  rewrite Z.div_add by lia. rewrite Z.mod_add by lia.
  rewrite Z.div_small, Z.mod_small by lia.
  unfold d. rewrite columnLetter_code. reflexivity.
Qed.

Lemma columnValue_from_nonneg (s : string) :
  forall acc, 0 <= acc -> Js.all Js.isUpper s = true ->
              0 <= RangeHelpers.columnValue_from acc s.
Proof.
  induction s as [| c s IH]; intros acc Hacc Hall; simpl in *.
  - exact Hacc.
  - apply andb_true_iff in Hall as [Hc Hs]. apply isUpper_code in Hc.
    apply IH; [lia | exact Hs].
Qed.

(** Running the loop on the value of [s] (on top of [acc]) leaves [acc] to
    convert and [s] written in front of the column built so far. *)
Lemma indexToColumn_loop_value (s : string) :
  forall acc column, 0 <= acc -> Js.all Js.isUpper s = true ->
    indexToColumn_loop (RangeHelpers.columnValue_from acc s) column =
    indexToColumn_loop acc (s ++ column).
Proof.
  induction s as [| c s IH]; intros acc column Hacc Hall; simpl in *.
  - reflexivity.
  - apply andb_true_iff in Hall as [Hc Hs].
    assert (Hcode := isUpper_code c Hc).
    rewrite IH by (try lia; exact Hs).
    apply indexToColumn_loop_letter; assumption.
Qed.

Lemma append_empty_r (s : string) : s ++ "" = s.
Proof. induction s as [| c s IH]; simpl; [reflexivity | now rewrite IH]. Qed.

Lemma append_assoc (a b c : string) : (a ++ b) ++ c = a ++ b ++ c.
Proof. induction a as [| x a IH]; simpl; [reflexivity | now rewrite IH]. Qed.

(** The round trip holds for column strings of any length. *)
Lemma indexToColumn_columnToIndex (s : string) :
  Js.all Js.isUpper s = true ->
  indexToColumn (RangeHelpers.columnToIndex s) = s.
Proof.
  intros Hall. unfold indexToColumn, RangeHelpers.columnToIndex.
  replace (RangeHelpers.columnValue_from 0 s - 1 + 1)
    with (RangeHelpers.columnValue_from 0 s) by lia.
  rewrite indexToColumn_loop_value by (try lia; exact Hall).
  rewrite indexToColumn_loop_done by lia.
  apply append_empty_r.
Qed.

(** C4.  Column letters are bijective base 26 with A = 0, Z = 25 and
    AA = 26: [indexToColumn] maps 0, 25 and 26 to "A", "Z" and "AA", and for
    every valid column string [s] of at most three letters, converting [s]
    to its zero-based index and back with [indexToColumn] gives [s] again. *)
Theorem C4_column_round_trip (s : string)
    (Hvalid : validColumn s) (Hlen : (String.length s <= 3)%nat) :
  indexToColumn 0 = "A" /\ indexToColumn 25 = "Z" /\ indexToColumn 26 = "AA"
  /\ RangeHelpers.columnToIndex "A" = 0 /\ RangeHelpers.columnToIndex "Z" = 25
  /\ RangeHelpers.columnToIndex "AA" = 26
  /\ indexToColumn (RangeHelpers.columnToIndex s) = s.
Proof.
  repeat split; try reflexivity.
  apply indexToColumn_columnToIndex. exact (proj2 Hvalid).
Qed.

Lemma C4_column_round_trip_witness :
  validColumn "ZZZ" /\ (String.length "ZZZ" <= 3)%nat
  /\ indexToColumn (RangeHelpers.columnToIndex "ZZZ") = "ZZZ".
Proof.
  assert (Hv : validColumn "ZZZ") by (split; [discriminate | reflexivity]).
  assert (Hl : (String.length "ZZZ" <= 3)%nat) by (simpl; lia).
  split; [exact Hv | split; [exact Hl |]].
  exact (proj2 (proj2 (proj2 (proj2 (proj2 (proj2
           (C4_column_round_trip "ZZZ" Hv Hl))))))).
Defined.

(** ** Row insertion *)




(** ** Cell formatting *)

(** The text-format builder copies every key as it is. *)
Lemma formatCellsHandler_textFormat_id (tf : TextFormat.t) :
  formatCellsHandler_textFormat tf = tf.
Proof.
  destruct tf as [fg ff fs b i s u].
  destruct fg, ff, fs, b, i, s, u; reflexivity.
Qed.

(** The built cell format has a key exactly when the input format has it. *)
Lemma formatCellsHandler_cellFormat_keys (format : CellFormat.t) :
  CellFormat_keys (formatCellsHandler_cellFormat format) = CellFormat_keys format.
Proof.
  destruct format as [bg tf ha va ws nf pd].
  destruct bg, tf, ha, va, ws, nf, pd; reflexivity.
Qed.

(** The handler looks the sheet up and then sends the one [repeatCell]
    request built from the parsed range and the input format. *)
Lemma formatCellsHandler_dispatch (env : Env.t) (input : FormatCellsInput.t)
    (sheetId : Z) (gridRange : GridRange.t) :
  Env.getSheetId env (FormatCellsInput.spreadsheetId input)
    (fst (Env.extractSheetName env (FormatCellsInput.range input))) = Ok sheetId ->
  Env.parseRange env (snd (Env.extractSheetName env (FormatCellsInput.range input)))
    sheetId = Ok gridRange ->
  fst (formatCellsHandler env input)
  = [SheetLookup (FormatCellsInput.spreadsheetId input)
       (fst (Env.extractSheetName env (FormatCellsInput.range input)));
     BatchUpdate (FormatCellsInput.spreadsheetId input)
       [repeatCell (formatCellsHandler_request gridRange (FormatCellsInput.format input))]].
Proof.
  intros Hid Hparse. unfold formatCellsHandler, formatCellsHandler_body.
  destruct (Env.extractSheetName env (FormatCellsInput.range input)) as [sheetName cleanRange].
  simpl in Hid, Hparse.
  unfold awaitSheetId, await, lift, awaitBatchUpdate, bind.
  rewrite Hid, Hparse. simpl.
  destruct (Env.batchUpdate env _ _) as [[] | e]; reflexivity.
Qed.

(** C6.  For an input whose format is [{ textFormat: { bold: true } }] the
    handler sends one [repeatCell] request whose [userEnteredFormat] has the
    single key [textFormat], whose object has the single key [bold] with
    value true: no background colour, alignment, wrap strategy, number
    format or padding key is present. *)
Theorem C6_bold_only_format (env : Env.t) (input : FormatCellsInput.t)
    (sheetId : Z) (gridRange : GridRange.t)
    (Hformat : FormatCellsInput.format input = boldOnly)
    (Hid : Env.getSheetId env (FormatCellsInput.spreadsheetId input)
             (fst (Env.extractSheetName env (FormatCellsInput.range input))) = Ok sheetId)
    (Hparse : Env.parseRange env
                (snd (Env.extractSheetName env (FormatCellsInput.range input)))
                sheetId = Ok gridRange) :
  exists request,
    fst (formatCellsHandler env input)
    = [SheetLookup (FormatCellsInput.spreadsheetId input)
         (fst (Env.extractSheetName env (FormatCellsInput.range input)));
       BatchUpdate (FormatCellsInput.spreadsheetId input) [repeatCell request]]
    /\ RepeatCell.range request = gridRange
    /\ CellFormat_keys (RepeatCell.userEnteredFormat request) = ["textFormat"]
    /\ CellFormat.textFormat (RepeatCell.userEnteredFormat request)
       = Some (TextFormat.mk None None None (Some true) None None None)
    /\ (forall tf, CellFormat.textFormat (RepeatCell.userEnteredFormat request) = Some tf ->
                   TextFormat_keys tf = ["bold"])
    /\ CellFormat.backgroundColor (RepeatCell.userEnteredFormat request) = None
    /\ CellFormat.horizontalAlignment (RepeatCell.userEnteredFormat request) = None
    /\ CellFormat.verticalAlignment (RepeatCell.userEnteredFormat request) = None
    /\ CellFormat.wrapStrategy (RepeatCell.userEnteredFormat request) = None
    /\ CellFormat.numberFormat (RepeatCell.userEnteredFormat request) = None
    /\ CellFormat.padding (RepeatCell.userEnteredFormat request) = None.
Proof.
  exists (formatCellsHandler_request gridRange boldOnly).
  split.
  - rewrite <- Hformat. exact (formatCellsHandler_dispatch env input sheetId gridRange Hid Hparse).
  - simpl. repeat split; try reflexivity.
    intros tf Htf. injection Htf as <-. reflexivity.
Qed.

Lemma C6_bold_only_format_witness :
  let env := RangeHelpers.env [("Sheet1", 0)] (Spreadsheet.mk None) in
  let input := FormatCellsInput.mk "doc" "Sheet1!A1:C1" boldOnly in
  let gridRange := GridRange.mk (Some 0) (Some 0) (Some 0) (Some 0) (Some 2) in
  Env.getSheetId env "doc" (fst (Env.extractSheetName env "Sheet1!A1:C1")) = Ok 0
  /\ Env.parseRange env (snd (Env.extractSheetName env "Sheet1!A1:C1")) 0 = Ok gridRange
  /\ exists request,
       fst (formatCellsHandler env input)
       = [SheetLookup "doc" (Some "Sheet1"); BatchUpdate "doc" [repeatCell request]]
       /\ CellFormat_keys (RepeatCell.userEnteredFormat request) = ["textFormat"].
Proof.
  intros env input gridRange.
  assert (Hid : Env.getSheetId env (FormatCellsInput.spreadsheetId input)
                  (fst (Env.extractSheetName env (FormatCellsInput.range input))) = Ok 0)
    by reflexivity.
  assert (Hparse : Env.parseRange env
                     (snd (Env.extractSheetName env (FormatCellsInput.range input)))
                     0 = Ok gridRange) by reflexivity.
  split; [exact Hid | split; [exact Hparse |]].
  destruct (C6_bold_only_format env input 0 gridRange eq_refl Hid Hparse)
    as (request & Hcalls & _ & Hkeys & _).
  exists request. split; [exact Hcalls | exact Hkeys].
Defined.

(** ** Borders *)

Lemma convertBorder_isSome (border : option Border.t) :
  isSome (convertBorder border) = isSome border.
Proof. destruct border; reflexivity. Qed.

(** The handler looks the sheet up and then sends the one [updateBorders]
    request built from the parsed range and the input borders. *)
Lemma updateBordersHandler_dispatch (env : Env.t) (input : UpdateBordersInput.t)
    (sheetId : Z) (gridRange : GridRange.t) :
  Env.getSheetId env (UpdateBordersInput.spreadsheetId input)
    (fst (Env.extractSheetName env (UpdateBordersInput.range input))) = Ok sheetId ->
  Env.parseRange env (snd (Env.extractSheetName env (UpdateBordersInput.range input)))
    sheetId = Ok gridRange ->
  fst (updateBordersHandler env input)
  = [SheetLookup (UpdateBordersInput.spreadsheetId input)
       (fst (Env.extractSheetName env (UpdateBordersInput.range input)));
     BatchUpdate (UpdateBordersInput.spreadsheetId input)
       [updateBorders (updateBordersHandler_request gridRange
                         (UpdateBordersInput.borders input))]].
Proof.
  intros Hid Hparse. unfold updateBordersHandler, updateBordersHandler_body.
  destruct (Env.extractSheetName env (UpdateBordersInput.range input))
    as [sheetName cleanRange].
  simpl in Hid, Hparse.
  unfold awaitSheetId, await, lift, awaitBatchUpdate, bind.
  rewrite Hid, Hparse. simpl.
  destruct (Env.batchUpdate env _ _) as [[] | e]; reflexivity.
Qed.

(** Each edge key is in the request exactly when the edge is in the input,
    and then with the style of the input. *)
Lemma updateBordersHandler_request_edges (gridRange : GridRange.t) (borders : Borders.t) :
  let request := updateBordersHandler_request gridRange borders in
  UpdateBordersRequest.top request = convertBorder (Borders.top borders)
  /\ UpdateBordersRequest.bottom request = convertBorder (Borders.bottom borders)
  /\ UpdateBordersRequest.left request = convertBorder (Borders.left borders)
  /\ UpdateBordersRequest.right request = convertBorder (Borders.right borders)
  /\ UpdateBordersRequest.innerHorizontal request
     = convertBorder (Borders.innerHorizontal borders)
  /\ UpdateBordersRequest.innerVertical request
     = convertBorder (Borders.innerVertical borders).
Proof.
  destruct borders as [t b l r ih iv]. simpl.
  destruct t, b, l, r, ih, iv; repeat split; reflexivity.
Qed.

(** C8.  The handler sends one [updateBorders] request in which each of the
    six edge keys is present exactly when that edge is present in the input.
    With only [top: { style: "NONE" }] in the input, the request has a [top]
    key with style NONE and none of the keys bottom, left, right,
    innerHorizontal and innerVertical, so an explicit NONE edge differs from
    an omitted one. *)
Theorem C8_border_edges (env : Env.t) (input : UpdateBordersInput.t)
    (sheetId : Z) (gridRange : GridRange.t)
    (Hid : Env.getSheetId env (UpdateBordersInput.spreadsheetId input)
             (fst (Env.extractSheetName env (UpdateBordersInput.range input))) = Ok sheetId)
    (Hparse : Env.parseRange env
                (snd (Env.extractSheetName env (UpdateBordersInput.range input)))
                sheetId = Ok gridRange) :
  let borders := UpdateBordersInput.borders input in
  exists request,
    fst (updateBordersHandler env input)
    = [SheetLookup (UpdateBordersInput.spreadsheetId input)
         (fst (Env.extractSheetName env (UpdateBordersInput.range input)));
       BatchUpdate (UpdateBordersInput.spreadsheetId input) [updateBorders request]]
    /\ UpdateBordersRequest.range request = gridRange
    /\ isSome (UpdateBordersRequest.top request) = isSome (Borders.top borders)
    /\ isSome (UpdateBordersRequest.bottom request) = isSome (Borders.bottom borders)
    /\ isSome (UpdateBordersRequest.left request) = isSome (Borders.left borders)
    /\ isSome (UpdateBordersRequest.right request) = isSome (Borders.right borders)
    /\ isSome (UpdateBordersRequest.innerHorizontal request)
       = isSome (Borders.innerHorizontal borders)
    /\ isSome (UpdateBordersRequest.innerVertical request)
       = isSome (Borders.innerVertical borders)
    /\ (borders = topNoneOnly ->
        UpdateBordersRequest.top request = Some (Border.mk NONE None None)
        /\ UpdateBordersRequest_keys request = ["top"]).
Proof.
  intros borders.
  exists (updateBordersHandler_request gridRange borders).
  split; [exact (updateBordersHandler_dispatch env input sheetId gridRange Hid Hparse) |].
  split; [reflexivity |].
  destruct (updateBordersHandler_request_edges gridRange borders)
    as (Ht & Hb & Hl & Hr & Hih & Hiv).
  rewrite Ht, Hb, Hl, Hr, Hih, Hiv, !convertBorder_isSome.
  repeat (split; [reflexivity |]).
  intros Honly. rewrite Honly in *.
  unfold UpdateBordersRequest_keys. rewrite Ht, Hb, Hl, Hr, Hih, Hiv.
  split; reflexivity.
Qed.

Lemma C8_border_edges_witness :
  let env := RangeHelpers.env [("Sheet1", 0)] (Spreadsheet.mk None) in
  let input := UpdateBordersInput.mk "doc" "Sheet1!A1:C1" topNoneOnly in
  let gridRange := GridRange.mk (Some 0) (Some 0) (Some 0) (Some 0) (Some 2) in
  Env.getSheetId env "doc" (fst (Env.extractSheetName env "Sheet1!A1:C1")) = Ok 0
  /\ Env.parseRange env (snd (Env.extractSheetName env "Sheet1!A1:C1")) 0 = Ok gridRange
  /\ exists request,
       fst (updateBordersHandler env input)
       = [SheetLookup "doc" (Some "Sheet1"); BatchUpdate "doc" [updateBorders request]]
       /\ UpdateBordersRequest.top request = Some (Border.mk NONE None None)
       /\ UpdateBordersRequest_keys request = ["top"].
Proof.
  intros env input gridRange.
  assert (Hid : Env.getSheetId env (UpdateBordersInput.spreadsheetId input)
                  (fst (Env.extractSheetName env (UpdateBordersInput.range input))) = Ok 0)
    by reflexivity.
  assert (Hparse : Env.parseRange env
                     (snd (Env.extractSheetName env (UpdateBordersInput.range input)))
                     0 = Ok gridRange) by reflexivity.
  split; [exact Hid | split; [exact Hparse |]].
  destruct (C8_border_edges env input 0 gridRange Hid Hparse)
    as (request & Hcalls & _ & _ & _ & _ & _ & _ & _ & Honly).
  exists request. split; [exact Hcalls | exact (Honly eq_refl)].
Defined.

(** ** The range patterns against the shape they describe *)

Section Runs.
Import Js.

Lemma all_app (p : ascii -> bool) (a b : string) :
  all p (a ++ b) = (all p a && all p b)%bool.
Proof.
  induction a as [| c a IH]; simpl; [reflexivity |].
  rewrite IH. now rewrite andb_assoc.
Qed.

Lemma span_app (p : ascii -> bool) (a b : string) :
  all p a = true -> headOutside p b -> span p (a ++ b) = (a, b).
Proof.
  induction a as [| c a IH]; simpl; intros Hall Hhead.
  - destruct b as [| c b]; simpl in *; [reflexivity | now rewrite Hhead].
  - apply andb_true_iff in Hall as [Hc Ha].
    rewrite Hc, (IH Ha Hhead). reflexivity.
Qed.

Lemma span_sound (p : ascii -> bool) (s : string) :
  forall a b, span p s = (a, b) -> s = a ++ b /\ all p a = true /\ headOutside p b.
Proof.
  induction s as [| c s IH]; simpl; intros a b H.
  - injection H as <- <-. repeat split.
  - destruct (p c) eqn:Hc.
    + destruct (span p s) as [a' b'] eqn:Hs. injection H as <- <-.
      destruct (IH a' b' eq_refl) as (-> & Ha & Hb).
      simpl. rewrite Hc, Ha. repeat split. exact Hb.
    + injection H as <- <-. simpl. repeat split. exact Hc.
Qed.

Lemma isEmpty_false (s : string) : isEmpty s = false <-> s <> EmptyString.
Proof. destruct s; simpl; split; intros H; congruence. Qed.

Lemma upper_not_digit (c : ascii) : isUpper c = true -> isDigit c = false.
Proof.
  unfold isUpper, isDigit. intros H.
  apply andb_true_iff in H as [H1 _]. apply Nat.leb_le in H1.
  apply andb_false_iff. right. apply Nat.leb_gt. lia.
Qed.

Lemma digit_not_upper (c : ascii) : isDigit c = true -> isUpper c = false.
Proof.
  unfold isUpper, isDigit. intros H.
  apply andb_true_iff in H as [_ H2]. apply Nat.leb_le in H2.
  apply andb_false_iff. left. apply Nat.leb_gt. lia.
Qed.

(** A non-empty run of digits starts outside the letters, and conversely. *)
Lemma digits_headOutside_upper (s t : string) :
  digits s -> headOutside isUpper (s ++ t).
Proof.
  intros [Hne Hall]. destruct s as [| c s]; [congruence |]. simpl in *.
  apply andb_true_iff in Hall as [Hc _]. now apply digit_not_upper.
Qed.

Lemma letters_headOutside_digit (s t : string) :
  letters s -> headOutside isDigit (s ++ t).
Proof.
  intros [Hne Hall]. destruct s as [| c s]; [congruence |]. simpl in *.
  apply andb_true_iff in Hall as [Hc _]. now apply upper_not_digit.
Qed.

Lemma upper_notColon (s : string) : all isUpper s = true -> all notColon s = true.
Proof.
  induction s as [| c s IH]; simpl; [reflexivity |]. intros H.
  apply andb_true_iff in H as [Hc Hs]. rewrite (IH Hs), andb_true_r.
  unfold notColon. destruct (Ascii.eqb_spec c ":") as [-> | _]; [discriminate | reflexivity].
Qed.

Lemma digit_notColon (s : string) : all isDigit s = true -> all notColon s = true.
Proof.
  induction s as [| c s IH]; simpl; [reflexivity |]. intros H.
  apply andb_true_iff in H as [Hc Hs]. rewrite (IH Hs), andb_true_r.
  unfold notColon. destruct (Ascii.eqb_spec c ":") as [-> | _]; [discriminate | reflexivity].
Qed.

Lemma colon_inside (x y : string) : all notColon (x ++ String ":" y) = false.
Proof.
  rewrite all_app. change (all notColon (String ":" y)) with false.
  apply andb_false_r.
Qed.

(** Two ways of cutting a string at a colon agree when what follows the
    colon has no further colon. *)
Lemma split_last_colon (x : string) :
  forall x' y y',
    all notColon y = true -> all notColon y' = true ->
    x ++ String ":" y = x' ++ String ":" y' -> x = x' /\ y = y'.
Proof.
  induction x as [| c x IH]; intros x' y y' Hy Hy' Heq; destruct x' as [| c' x']; simpl in Heq.
  - injection Heq as ->. split; reflexivity.
  - injection Heq as <- ->. rewrite colon_inside in Hy. discriminate.
  - injection Heq as -> <-. rewrite colon_inside in Hy'. discriminate.
  - injection Heq as -> Heq. destruct (IH x' y y' Hy Hy' Heq) as [-> ->].
    split; reflexivity.
Qed.

Lemma trailingDigits_all (b : string) : all isDigit b = true -> trailingDigits b = b.
Proof. destruct b as [| c b]; simpl; intros H; [reflexivity | now rewrite H]. Qed.

Lemma trailingDigits_letters (a b : string) :
  all isUpper a = true -> all isDigit b = true -> trailingDigits (a ++ b) = b.
Proof.
  induction a as [| c a IH]; intros Ha Hb.
  - simpl. now apply trailingDigits_all.
  - simpl in Ha. apply andb_true_iff in Ha as [Hc Ha].
    change (String c a ++ b) with (String c (a ++ b)).
    unfold trailingDigits; fold trailingDigits.
    simpl all. rewrite (upper_not_digit c Hc). simpl. now apply IH.
Qed.

Lemma trailingDigits_run (u a b : string) :
  letters a -> all isDigit b = true -> trailingDigits (u ++ a ++ b) = b.
Proof.
  intros [Hne Ha] Hb. induction u as [| c u IH].
  - simpl. now apply trailingDigits_letters.
  - change (String c u ++ a ++ b) with (String c (u ++ a ++ b)).
    unfold trailingDigits; fold trailingDigits.
    assert (Hno : all isDigit (String c (u ++ a ++ b)) = false).
    { simpl. rewrite !all_app. destruct a as [| x a]; [congruence |].
      simpl in Ha. apply andb_true_iff in Ha as [Hx _].
      simpl. rewrite (upper_not_digit x Hx). simpl.
      rewrite andb_false_r. apply andb_false_r. }
    rewrite Hno. exact IH.
Qed.

End Runs.

(** *** The backtracking engine never has to give a character back *)

Section Greedy.
Import Js.

Lemma span_lengths (class : ascii -> bool) (s : string) :
  forall a b, span class s = (a, b) ->
    Regex.runLength class s = String.length a
    /\ Regex.takeN (String.length a) s = a
    /\ Regex.dropN (String.length a) s = b.
Proof.
  induction s as [| c s IH]; simpl; intros a b H.
  - injection H as <- <-. repeat split.
  - destruct (class c) eqn:Hc.
    + destruct (span class s) as [a' b'] eqn:Hs. injection H as <- <-.
      destruct (IH a' b' eq_refl) as (Hn & Ht & Hd).
      simpl. rewrite Hn, Ht, Hd. repeat split.
    + injection H as <- <-. repeat split.
Qed.

(** Fewer characters than the run has leave a character of the class in
    front. *)
Lemma dropN_in_run (class : ascii -> bool) (s : string) :
  forall a b k, span class s = (a, b) -> (k < String.length a)%nat ->
                headInside class (Regex.dropN k s).
Proof.
  induction s as [| c s IH]; simpl; intros a b k H Hk.
  - injection H as <- <-. simpl in Hk. lia.
  - destruct (class c) eqn:Hc.
    + destruct (span class s) as [a' b'] eqn:Hs. injection H as <- <-.
      destruct k as [| k]; simpl; [exact Hc |].
      simpl in Hk. apply (IH a' b' k eq_refl). lia.
    + injection H as <- <-. simpl in Hk. lia.
Qed.

Lemma tryLengths_none (rest : string -> option (list string)) (s : string) (n : nat) :
  (forall k, (0 < k <= n)%nat -> rest (Regex.dropN k s) = None) ->
  Regex.tryLengths rest s n = None.
Proof.
  induction n as [| n IH]; intros Hfail; [reflexivity |].
  cbn [Regex.tryLengths]. rewrite (Hfail (S n)) by lia.
  apply IH. intros k Hk. apply Hfail. lia.
Qed.

(** When the rest of the pattern fails on every string that starts inside
    the class, the run is the longest one or there is no match. *)
Lemma tryLengths_longest (class : ascii -> bool)
    (rest : string -> option (list string)) (s a b : string) :
  span class s = (a, b) ->
  (forall t, headInside class t -> rest t = None) ->
  Regex.tryLengths rest s (Regex.runLength class s)
  = if isEmpty a then None
    else match rest b with
         | Some groups => Some (a :: groups)
         | None => None
         end.
Proof.
  intros Hspan Hfail.
  destruct (span_lengths class s a b Hspan) as (Hn & Ht & Hd).
  rewrite Hn. destruct a as [| c a]; [reflexivity |].
  cbn [String.length Regex.tryLengths isEmpty].
  change (S (String.length a)) with (String.length (String c a)).
  rewrite Ht, Hd.
  destruct (rest b) as [groups |]; [reflexivity |].
  apply tryLengths_none. intros k Hk.
  apply Hfail. apply (dropN_in_run class s (String c a) b k Hspan). simpl. lia.
Qed.

(** A last run with nothing after it takes the longest stretch at once. *)
Lemma tryLengths_last (class : ascii -> bool) (s a b : string) :
  span class s = (a, b) ->
  Regex.tryLengths (Regex.matchItems []) s (Regex.runLength class s)
  = if isEmpty a then None else Some [a].
Proof.
  intros Hspan.
  destruct (span_lengths class s a b Hspan) as (Hn & Ht & Hd).
  rewrite Hn. destruct a as [| c a]; [reflexivity |].
  cbn [String.length Regex.tryLengths isEmpty Regex.matchItems].
  change (S (String.length a)) with (String.length (String c a)).
  rewrite Ht. reflexivity.
Qed.

Lemma matchItems_run (class : ascii -> bool) (rest : list Regex.Item) (s : string) :
  Regex.matchItems (Regex.Run class :: rest) s
  = Regex.tryLengths (Regex.matchItems rest) s (Regex.runLength class s).
Proof. reflexivity. Qed.

Lemma matchItems_lit (c c' : ascii) (rest : list Regex.Item) (s : string) :
  Regex.matchItems (Regex.Lit c :: rest) (String c' s)
  = if Ascii.eqb c' c then Regex.matchItems rest s else None.
Proof. reflexivity. Qed.

Lemma matchItems_end (rest : list Regex.Item) (s : string) :
  Regex.matchItems (Regex.EndOfInput :: rest) s
  = if isEmpty s then Regex.matchItems rest s else None.
Proof. reflexivity. Qed.

Lemma digits_fail_on_letter (rest : list Regex.Item) (t : string) :
  headInside isUpper t -> Regex.matchItems (Regex.Run isDigit :: rest) t = None.
Proof.
  destruct t as [| c t]; simpl; [contradiction |]. intros Hc.
  rewrite (upper_not_digit c Hc). reflexivity.
Qed.

Lemma colon_fails_on_digit (rest : list Regex.Item) (t : string) :
  headInside isDigit t -> Regex.matchItems (Regex.Lit ":" :: rest) t = None.
Proof.
  destruct t as [| c t]; simpl; [contradiction |]. intros Hc.
  destruct (Ascii.eqb_spec c ":") as [-> | _]; [discriminate | reflexivity].
Qed.

Lemma end_fails_on_digit (rest : list Regex.Item) (t : string) :
  headInside isDigit t -> Regex.matchItems (Regex.EndOfInput :: rest) t = None.
Proof. destruct t as [| c t]; simpl; [contradiction | reflexivity]. Qed.

(** The part of both patterns after the colon. *)
Lemma matchItems_after_colon (anchored : bool) (s : string) :
  Regex.matchItems
    (Regex.Run isUpper :: Regex.Run isDigit
     :: (if anchored then [Regex.EndOfInput] else [])) s
  = let '(c2, s4) := span isUpper s in
    if isEmpty c2 then None else
    let '(r2, s5) := span isDigit s4 in
    if isEmpty r2 then None else
    if (negb anchored || isEmpty s5)%bool then Some [c2; r2] else None.
Proof.
  destruct (span isUpper s) as [c2 s4] eqn:H3.
  rewrite matchItems_run.
  rewrite (tryLengths_longest isUpper _ s c2 s4 H3 (digits_fail_on_letter _)).
  destruct (isEmpty c2); [reflexivity |].
  destruct (span isDigit s4) as [r2 s5] eqn:H4.
  rewrite matchItems_run.
  destruct anchored.
  - rewrite (tryLengths_longest isDigit _ s4 r2 s5 H4 (end_fails_on_digit _)).
    destruct (isEmpty r2); [reflexivity |].
    rewrite matchItems_end. destruct (isEmpty s5); reflexivity.
  - rewrite (tryLengths_last isDigit s4 r2 s5 H4).
    destruct (isEmpty r2); reflexivity.
Qed.

(** One attempt of the engine is the direct reading of the four runs. *)
Lemma matchItems_matchHere (anchored : bool) (s : string) :
  Regex.matchItems
    (Regex.Run isUpper :: Regex.Run isDigit :: Regex.Lit ":"
     :: Regex.Run isUpper :: Regex.Run isDigit
     :: (if anchored then [Regex.EndOfInput] else [])) s
  = groupList (Regex.matchHere anchored s).
Proof.
  unfold Regex.matchHere.
  destruct (span isUpper s) as [c1 s1] eqn:H1.
  rewrite matchItems_run.
  rewrite (tryLengths_longest isUpper _ s c1 s1 H1 (digits_fail_on_letter _)).
  destruct (isEmpty c1); [reflexivity |].
  destruct (span isDigit s1) as [r1 s2] eqn:H2.
  rewrite matchItems_run.
  rewrite (tryLengths_longest isDigit _ s1 r1 s2 H2 (colon_fails_on_digit _)).
  destruct (isEmpty r1); [reflexivity |].
  destruct s2 as [| colon s3]; [reflexivity |].
  rewrite matchItems_lit.
  destruct colon as [[] [] [] [] [] [] [] []]; try reflexivity.
  change (Ascii false true false true true true false false) with ":"%char.
  rewrite Ascii.eqb_refl.
  rewrite (matchItems_after_colon anchored s3).
  destruct (span isUpper s3) as [c2 s4].
  destruct (isEmpty c2); [reflexivity |].
  destruct (span isDigit s4) as [r2 s5].
  destruct (isEmpty r2); [reflexivity |].
  destruct (negb anchored || isEmpty s5)%bool; reflexivity.
Qed.

Lemma exec_search (anchored : bool) (s : string) :
  Regex.exec
    (Regex.Run isUpper :: Regex.Run isDigit :: Regex.Lit ":"
     :: Regex.Run isUpper :: Regex.Run isDigit
     :: (if anchored then [Regex.EndOfInput] else [])) s
  = groupList (Regex.search anchored s).
Proof.
  induction s as [| c s IH].
  - destruct anchored; reflexivity.
  - cbn [Regex.exec Regex.search].
    rewrite (matchItems_matchHere anchored (String c s)).
    destruct (Regex.matchHere anchored (String c s)) as [[[[a b] c0] d] |].
    + reflexivity.
    + cbn [groupList]. exact IH.
Qed.

(** The anchored pattern of the row-count check, read directly. *)
Lemma matchRangePattern_search (s : string) :
  Regex.matchRangePattern s = Regex.search true s.
Proof.
  unfold Regex.matchRangePattern, Regex.rangePattern.
  rewrite (exec_search true s).
  destruct (Regex.search true s) as [[[[a b] c] d] |]; reflexivity.
Qed.

(** The row pattern of the chart domain, read directly. *)
Lemma matchRowSpan_search (s : string) :
  Regex.matchRowSpan s
  = match Regex.search false s with
    | Some (_, row1, _, row2) => Some (row1, row2)
    | None => None
    end.
Proof.
  unfold Regex.matchRowSpan, Regex.rowSpanPattern.
  rewrite (exec_search false s).
  destruct (Regex.search false s) as [[[[a b] c] d] |]; reflexivity.
Qed.

End Greedy.

Section RangePattern.
Import Js.

(** An attempt succeeds on a string of the right shape and reads its runs. *)
Lemma matchHere_complete (c1 r1 c2 r2 : string) :
  letters c1 -> digits r1 -> letters c2 -> digits r2 ->
  Regex.matchHere true (c1 ++ r1 ++ ":" ++ c2 ++ r2) = Some (c1, r1, c2, r2).
Proof.
  intros Hc1 Hr1 Hc2 Hr2. unfold Regex.matchHere.
  rewrite (span_app isUpper c1 _ (proj2 Hc1) (digits_headOutside_upper r1 _ Hr1)).
  rewrite (proj2 (isEmpty_false c1) (proj1 Hc1)).
  assert (Hcolon : headOutside isDigit (":" ++ c2 ++ r2)) by reflexivity.
  rewrite (span_app isDigit r1 _ (proj2 Hr1) Hcolon).
  rewrite (proj2 (isEmpty_false r1) (proj1 Hr1)).
  change (":" ++ c2 ++ r2) with (String ":" (c2 ++ r2)). cbv iota beta.
  pose proof (digits_headOutside_upper r2 "" Hr2) as Hend.
  rewrite append_empty_r in Hend.
  rewrite (span_app isUpper c2 r2 (proj2 Hc2) Hend).
  rewrite (proj2 (isEmpty_false c2) (proj1 Hc2)).
  rewrite <- (append_empty_r r2) at 1.
  rewrite (span_app isDigit r2 "" (proj2 Hr2) I).
  rewrite (proj2 (isEmpty_false r2) (proj1 Hr2)). reflexivity.
Qed.

(** A successful anchored attempt read the whole string, run by run. *)
Lemma matchHere_sound (t c1 r1 c2 r2 : string) :
  Regex.matchHere true t = Some (c1, r1, c2, r2) ->
  t = c1 ++ r1 ++ ":" ++ c2 ++ r2
  /\ letters c1 /\ digits r1 /\ letters c2 /\ digits r2.
Proof.
  unfold Regex.matchHere.
  destruct (span isUpper t) as [a s1] eqn:H1.
  destruct (isEmpty a) eqn:Ea; [discriminate |].
  destruct (span isDigit s1) as [b s2] eqn:H2.
  destruct (isEmpty b) eqn:Eb; [discriminate |].
  destruct s2 as [| colon s3]; [discriminate |].
  destruct colon as [[] [] [] [] [] [] [] []]; try discriminate.
  change (Ascii false true false true true true false false) with ":"%char.
  destruct (span isUpper s3) as [c s4] eqn:H3.
  destruct (isEmpty c) eqn:Ec; [discriminate |].
  destruct (span isDigit s4) as [d s5] eqn:H4.
  destruct (isEmpty d) eqn:Ed; [discriminate |].
  simpl. destruct (isEmpty s5) eqn:E5; [| discriminate].
  intros H. injection H as <- <- <- <-.
  destruct s5; [| discriminate].
  apply span_sound in H1 as (-> & Ha & _).
  apply span_sound in H2 as (-> & Hb & _).
  apply span_sound in H3 as (-> & Hc & _).
  apply span_sound in H4 as (-> & Hd & _).
  rewrite append_empty_r.
  repeat split; try assumption; now apply isEmpty_false.
Qed.

(** The search answers with an attempt made at some suffix. *)
Lemma search_sound (s : string) :
  forall g, Regex.search true s = Some g ->
            exists prefix t, s = prefix ++ t /\ Regex.matchHere true t = Some g.
Proof.
  induction s as [| c s IH]; intros g H.
  - discriminate H.
  - cbn [Regex.search] in H.
    destruct (Regex.matchHere true (String c s)) eqn:Hm.
    + injection H as <-. exists "", (String c s). split; [reflexivity | exact Hm].
    + destruct (IH g H) as (prefix & t & -> & Ht).
      exists (String c prefix), t. split; [reflexivity | exact Ht].
Qed.

(** The search succeeds as soon as some suffix can be matched. *)
Lemma search_complete (prefix t : string) :
  forall g, Regex.matchHere true t = Some g ->
            exists g', Regex.search true (prefix ++ t) = Some g'.
Proof.
  induction prefix as [| c prefix IH]; intros g Ht.
  - simpl. destruct t as [| c t]; cbn [Regex.search]; rewrite Ht; eauto.
  - change (String c prefix ++ t) with (String c (prefix ++ t)).
    cbn [Regex.search].
    destruct (Regex.matchHere true (String c (prefix ++ t))); eauto.
Qed.

(** Two readings of one string as prefix, letters, digits, colon, letters,
    digits agree on everything after the first run of letters. *)
Lemma rectangle_unique (p a b c d p' a' b' c' d' : string) :
  letters a -> digits b -> letters c -> digits d ->
  letters a' -> digits b' -> letters c' -> digits d' ->
  p ++ a ++ b ++ ":" ++ c ++ d = p' ++ a' ++ b' ++ ":" ++ c' ++ d' ->
  b = b' /\ c = c' /\ d = d'.
Proof.
  intros Ha Hb Hc Hd Ha' Hb' Hc' Hd' Heq.
  assert (Hy : all notColon (c ++ d) = true).
  { rewrite all_app, (upper_notColon c (proj2 Hc)), (digit_notColon d (proj2 Hd)).
    reflexivity. }
  assert (Hy' : all notColon (c' ++ d') = true).
  { rewrite all_app, (upper_notColon c' (proj2 Hc')), (digit_notColon d' (proj2 Hd')).
    reflexivity. }
  assert (Heq' : (p ++ a ++ b) ++ String ":" (c ++ d)
                 = (p' ++ a' ++ b') ++ String ":" (c' ++ d')).
  { rewrite !append_assoc. exact Heq. }
  destruct (split_last_colon _ _ _ _ Hy Hy' Heq') as [Hx Hcd].
  assert (Hspan : span isUpper (c ++ d) = span isUpper (c' ++ d')) by now rewrite Hcd.
  pose proof (digits_headOutside_upper d "" Hd) as Hd0.
  pose proof (digits_headOutside_upper d' "" Hd') as Hd0'.
  rewrite append_empty_r in Hd0, Hd0'.
  rewrite (span_app isUpper c d (proj2 Hc) Hd0) in Hspan.
  rewrite (span_app isUpper c' d' (proj2 Hc') Hd0') in Hspan.
  injection Hspan as -> ->.
  assert (Hb0 : trailingDigits (p ++ a ++ b) = b)
    by (apply trailingDigits_run; [exact Ha | exact (proj2 Hb)]).
  assert (Hb0' : trailingDigits (p' ++ a' ++ b') = b')
    by (apply trailingDigits_run; [exact Ha' | exact (proj2 Hb')]).
  rewrite Hx in Hb0. rewrite Hb0 in Hb0'.
  repeat split; assumption.
Qed.

(** On a range that ends in letters-digits:letters-digits the pattern
    matches, and groups 2, 3 and 4 are the runs of that ending. *)
Lemma matchRangePattern_rectangle (prefix col1 row1 col2 row2 : string) :
  letters col1 -> digits row1 -> letters col2 -> digits row2 ->
  exists col1',
    Regex.matchRangePattern (prefix ++ col1 ++ row1 ++ ":" ++ col2 ++ row2)
    = Some (col1', row1, col2, row2).
Proof.
  intros Hc1 Hr1 Hc2 Hr2. rewrite matchRangePattern_search.
  destruct (search_complete prefix _ _ (matchHere_complete _ _ _ _ Hc1 Hr1 Hc2 Hr2))
    as [[[[a b] c] d] Hsearch].
  destruct (search_sound _ _ Hsearch) as (p & t & Hsplit & Ht).
  destruct (matchHere_sound _ _ _ _ _ Ht) as (-> & Ha & Hb & Hc & Hd).
  destruct (rectangle_unique _ _ _ _ _ _ _ _ _ _ Ha Hb Hc Hd Hc1 Hr1 Hc2 Hr2
              (eq_sym Hsplit)) as (-> & -> & ->).
  exists a. exact Hsearch.
Qed.

(** The pattern fails exactly on the ranges that do not end in
    letters-digits:letters-digits. *)
Lemma matchRangePattern_None_iff (range : string) :
  Regex.matchRangePattern range = None
  <-> ~ (exists row1 row2, endsInRectangle range row1 row2).
Proof.
  split.
  - intros Hnone (row1 & row2 & prefix & col1 & col2 & -> & Hc1 & Hr1 & Hc2 & Hr2).
    destruct (matchRangePattern_rectangle prefix col1 row1 col2 row2 Hc1 Hr1 Hc2 Hr2)
      as [col1' Hsome].
    congruence.
  - intros Hno. destruct (Regex.matchRangePattern range) as [[[[a b] c] d] |] eqn:Hm;
      [| reflexivity].
    exfalso. apply Hno. rewrite matchRangePattern_search in Hm.
    destruct (search_sound _ _ Hm) as (p & t & -> & Ht).
    destruct (matchHere_sound _ _ _ _ _ Ht) as (-> & Ha & Hb & Hc & Hd).
    exists b, d, p, a, c. repeat split;
      try (apply Ha || apply Hb || apply Hc || apply Hd).
Qed.

(** An unanchored attempt on letters-digits:letters-digits reads its runs,
    whatever follows the last digit. *)
Lemma matchHere_rectangle (c1 r1 c2 r2 tail : string) :
  letters c1 -> digits r1 -> letters c2 -> digits r2 -> headOutside isDigit tail ->
  Regex.matchHere false (c1 ++ r1 ++ ":" ++ c2 ++ r2 ++ tail) = Some (c1, r1, c2, r2).
Proof.
  intros Hc1 Hr1 Hc2 Hr2 Htail. unfold Regex.matchHere.
  rewrite (span_app isUpper c1 _ (proj2 Hc1) (digits_headOutside_upper r1 _ Hr1)).
  rewrite (proj2 (isEmpty_false c1) (proj1 Hc1)).
  assert (Hcolon : headOutside isDigit (":" ++ c2 ++ r2 ++ tail)) by reflexivity.
  rewrite (span_app isDigit r1 _ (proj2 Hr1) Hcolon).
  rewrite (proj2 (isEmpty_false r1) (proj1 Hr1)).
  change (":" ++ c2 ++ r2 ++ tail) with (String ":" (c2 ++ r2 ++ tail)). cbv iota beta.
  rewrite (span_app isUpper c2 _ (proj2 Hc2) (digits_headOutside_upper r2 _ Hr2)).
  rewrite (proj2 (isEmpty_false c2) (proj1 Hc2)).
  rewrite (span_app isDigit r2 tail (proj2 Hr2) Htail).
  rewrite (proj2 (isEmpty_false r2) (proj1 Hr2)). reflexivity.
Qed.

(** On a series range of the form letters-digits:letters-digits the row
    pattern gives the two row labels. *)
Lemma matchRowSpan_rectangle (col1 row1 col2 row2 : string) :
  letters col1 -> digits row1 -> letters col2 -> digits row2 ->
  Regex.matchRowSpan (col1 ++ row1 ++ ":" ++ col2 ++ row2) = Some (row1, row2).
Proof.
  intros Hc1 Hr1 Hc2 Hr2. rewrite matchRowSpan_search.
  pose proof (matchHere_rectangle col1 row1 col2 row2 "" Hc1 Hr1 Hc2 Hr2 I) as Hm.
  rewrite append_empty_r in Hm.
  destruct (col1 ++ row1 ++ ":" ++ col2 ++ row2) as [| c s];
    cbn [Regex.search]; rewrite Hm; reflexivity.
Qed.

End RangePattern.

(** ** Value update *)



(** C10.  The row count is checked only for a range that matches
    [/([A-Z]+)(\d+):([A-Z]+)(\d+)$/].  For a range that does not match, such
    as the single cell "A1", the bare column range "A:C" or the open anchor
    "A42", [validateRangeRowCount] returns without error whatever the
    payload, and the handler dispatches the update of that range with those
    values as its one backend call. *)
Theorem C10_unmatched_range_dispatched (env : Env.t) (input : UpdateValuesInput.t)
    (Hnomatch : Regex.matchRangePattern (UpdateValuesInput.range input) = None) :
  validateRangeRowCount (UpdateValuesInput.range input)
    (UpdateValuesInput.values input) = Ok tt
  /\ fst (handleUpdateValues env input)
     = [ValuesUpdate (UpdateValuesInput.spreadsheetId input)
          (UpdateValuesInput.range input)
          (UpdateValuesInput.valueInputOption input)
          (UpdateValuesInput.values input)]
  /\ Regex.matchRangePattern "A1" = None
  /\ Regex.matchRangePattern "A:C" = None
  /\ Regex.matchRangePattern "A42" = None.
Proof.
  assert (Hok : validateRangeRowCount (UpdateValuesInput.range input)
                  (UpdateValuesInput.values input) = Ok tt)
    by (unfold validateRangeRowCount; rewrite Hnomatch; reflexivity).
  split; [exact Hok |]. split; [| repeat split; reflexivity].
  unfold handleUpdateValues, handleUpdateValues_body, lift, await, bind.
  rewrite Hok.
  destruct (Env.valuesUpdate env _ _ _ _); reflexivity.
Qed.

Lemma C10_unmatched_range_dispatched_witness :
  let env := RangeHelpers.env [("Sheet1", 0)] (Spreadsheet.mk None) in
  let input := UpdateValuesInput.mk "doc" "A1" [[]; []; []] "USER_ENTERED" in
  Regex.matchRangePattern "A1" = None
  /\ validateRangeRowCount "A1" [[]; []; []] = Ok tt
  /\ fst (handleUpdateValues env input)
     = [ValuesUpdate "doc" "A1" "USER_ENTERED" [[]; []; []]].
Proof.
  intros env input.
  assert (Hnomatch : Regex.matchRangePattern (UpdateValuesInput.range input) = None)
    by reflexivity.
  split; [exact Hnomatch |].
  destruct (C10_unmatched_range_dispatched env input Hnomatch) as (Hok & Hcalls & _).
  split; [exact Hok | exact Hcalls].
Defined.

(** ** The field mask of the formatting requests *)

(** The single-range request always names the whole format object. *)
Lemma formatCellsHandler_request_fields (gridRange : GridRange.t) (format : CellFormat.t) :
  RepeatCell.fields (formatCellsHandler_request gridRange format) = "userEnteredFormat".
Proof. reflexivity. Qed.

(** So does every request of the batch handler. *)
Lemma handleBatchFormatCells_loop_fields (env : Env.t) (spreadsheetId : string)
    (formatRequests : list FormatRequest.t) :
  forall acc calls requests,
    Forall (fun q => match q with
                     | repeatCell r => RepeatCell.fields r = "userEnteredFormat"
                     | _ => False
                     end) acc ->
    handleBatchFormatCells_loop env spreadsheetId formatRequests acc = (calls, Ok requests) ->
    Forall (fun q => match q with
                     | repeatCell r => RepeatCell.fields r = "userEnteredFormat"
                     | _ => False
                     end) requests.
Proof.
  induction formatRequests as [| fr rest IH]; intros acc calls requests Hacc Hrun.
  - simpl in Hrun. injection Hrun as _ <-. exact Hacc.
  - simpl in Hrun.
    destruct (Env.extractSheetName env (FormatRequest.range fr)) as [sheetName cleanRange].
    unfold awaitSheetId, await, lift, bind in Hrun.
    destruct (Env.getSheetId env spreadsheetId sheetName) as [sheetId | e];
      [| discriminate].
    destruct (Env.parseRange env cleanRange sheetId) as [gridRange | e];
      [| discriminate].
    simpl in Hrun.
    destruct (handleBatchFormatCells_loop env spreadsheetId rest _)
      as [calls' [requests' | e]] eqn:Hrest; [| discriminate].
    injection Hrun as _ <-.
    refine (IH _ _ _ _ Hrest).
    apply Forall_app. split; [exact Hacc |].
    constructor; [reflexivity | constructor].
Qed.

(** Under that mask the service replaces the whole format of a cell by the
    format of the request. *)
Lemma applyRepeatCell_whole_format (gridRange : GridRange.t)
    (format existing : CellFormat.t) :
  Backend.applyRepeatCell (formatCellsHandler_request gridRange format) existing
  = formatCellsHandler_cellFormat format.
Proof.
  unfold formatCellsHandler_request.
  generalize (formatCellsHandler_cellFormat format) as q. intros q.
  destruct q. reflexivity.
Qed.

(** C7.  The formatting request does not keep to the attributes of the
    input: for the format [{ textFormat: { bold: true } }] the request's
    mask still names the whole [userEnteredFormat], so on a cell with a red
    background and centred text the service clears the background colour and
    the alignment, two attributes the input never mentioned. *)
Theorem C7_omitted_attributes_overwritten :
  forall gridRange : GridRange.t,
    let request := formatCellsHandler_request gridRange boldOnly in
    let after := Backend.applyRepeatCell request redCentred in
    CellFormat.backgroundColor boldOnly = None
    /\ CellFormat.horizontalAlignment boldOnly = None
    /\ RepeatCell.fields request = "userEnteredFormat"
    /\ CellFormat.backgroundColor after = None
    /\ CellFormat.backgroundColor after <> CellFormat.backgroundColor redCentred
    /\ CellFormat.horizontalAlignment after <> CellFormat.horizontalAlignment redCentred.
Proof.
  intros gridRange request after. subst request after.
  rewrite applyRepeatCell_whole_format. simpl.
  repeat split; try reflexivity; discriminate.
Qed.

(** ** Legend positions *)

(** Chart creation appends the suffix to a position given without it. *)
Lemma handleCreateChart_legendPosition_suffix (pos : string) :
  Js.truthy pos = true -> Js.endsWith pos "_LEGEND" = false -> pos <> "NO_LEGEND" ->
  handleCreateChart_legendPosition (Some (LegendInput.mk (Some pos))) = pos ++ "_LEGEND".
Proof.
  intros Ht He Hn. unfold handleCreateChart_legendPosition. simpl.
  rewrite Ht, He. destruct (String.eqb_spec pos "NO_LEGEND"); [contradiction | reflexivity].
Qed.

(** Chart update passes a given position through as it is. *)
Lemma handleUpdateChart_legend_basic (input : UpdateChartInput.t) (spec : ChartSpec.t)
    (basic : BasicChartSpec.t) (pos : string) :
  UpdateChartInput.legend input = Some (LegendInput.mk (Some pos)) ->
  Js.truthy pos = true ->
  ChartSpec.basicChart spec = Some basic ->
  legendPositionOf (handleUpdateChart_legend input spec) = Some pos.
Proof.
  intros Hl Ht Hb. unfold handleUpdateChart_legend, legendPositionOf.
  rewrite Hl, Hb. simpl. unfold Js.orString. rewrite Ht. reflexivity.
Qed.

(** C9.  A legend position given without the [_LEGEND] suffix is completed
    by chart creation but not by chart update: for the position "RIGHT",
    creation puts "RIGHT_LEGEND" in its request, while the specification
    that the update of a column chart sends has the legend position "RIGHT",
    unsuffixed. *)
Theorem C9_update_legend_not_suffixed :
  let legend := Some (LegendInput.mk (Some "RIGHT")) in
  handleCreateChart_legendPosition legend = "RIGHT_LEGEND"
  /\ legendPositionOf (handleUpdateChart_spec (updateInput None legend) columnChart)
     = Some "RIGHT"
  /\ legendPositionOf (handleUpdateChart_spec (updateInput (Some "BAR") legend) columnChart)
     = Some "RIGHT"
  /\ legendPositionOf (handleUpdateChart_spec (updateInput (Some "PIE") legend) columnChart)
     = Some "RIGHT".
Proof. repeat split; reflexivity. Qed.

(** ** Chart creation: the domain of a pie chart *)

(** For a pie chart the handler builds a pie specification and no basic
    one, whatever else the input holds. *)
Lemma handleCreateChart_family_pie (legendPosition : string) (chartSpec : ChartSpec.t) :
  handleCreateChart_family "PIE" legendPosition chartSpec
  = ChartSpec.set_pieChart
      (Some (PieChartSpec.mk (Some legendPosition) (Some ChartData.empty)
               (Some ChartData.empty) [])) chartSpec.
Proof. reflexivity. Qed.

(** The pie branch never reads [domainRange]: the specification built for a
    pie chart is the same for every value of it. *)
Lemma handleCreateChart_pie_ignores_domainRange (env : Env.t)
    (input : CreateChartInput.t) (domainRange : option string) :
  CreateChartInput.chartType input = "PIE" ->
  handleCreateChart_spec env (withDomainRange domainRange input)
  = handleCreateChart_spec env input.
Proof.
  intros Hpie. unfold handleCreateChart_spec, withDomainRange.
  cbn [CreateChartInput.title CreateChartInput.subtitle CreateChartInput.backgroundColor
       CreateChartInput.altText CreateChartInput.legend CreateChartInput.chartType].
  rewrite Hpie. rewrite !handleCreateChart_family_pie.
  set (spec0 := whenDefined (CreateChartInput.altText input) ChartSpec.set_altText _).
  set (pie0 := PieChartSpec.mk _ _ _ _).
  assert (Hbasic : ChartSpec.basicChart (ChartSpec.set_pieChart (Some pie0) spec0) = None).
  { subst spec0. simpl.
    destruct (CreateChartInput.altText input), (CreateChartInput.backgroundColor input),
      (CreateChartInput.subtitle input), (CreateChartInput.title input); reflexivity. }
  unfold handleCreateChart_axes. cbn [CreateChartInput.domainAxis
    CreateChartInput.leftAxis CreateChartInput.rightAxis].
  rewrite Hbasic.
  unfold handleCreateChart_ranges.
  cbn [CreateChartInput.chartType CreateChartInput.series].
  rewrite Hbasic, Hpie.
  replace (ChartSpec.pieChart (ChartSpec.set_pieChart (Some pie0) spec0))
    with (Some pie0) by reflexivity.
  destruct (CreateChartInput.series input) as [| firstSeries rest]; [reflexivity |].
  cbv beta iota. change (String.eqb "PIE" "PIE") with true. cbv beta iota.
  reflexivity.
Qed.

(** When the row pattern matches the series range, the domain of a pie
    chart is column A of the series' sheet over the matched rows. *)
Lemma handleCreateChart_pie_domain (env : Env.t) (input : CreateChartInput.t)
    (firstSeries : SeriesInput.t) (rest : list SeriesInput.t)
    (sheetName : option string) (cleanRange row1 row2 : string)
    (seriesSheetId : Z) (gridRange domainGridRange : GridRange.t) :
  CreateChartInput.chartType input = "PIE" ->
  CreateChartInput.series input = firstSeries :: rest ->
  Env.extractSheetName env (SeriesInput.sourceRange firstSeries) = (sheetName, cleanRange) ->
  snd (resolveSheetId env (CreateChartInput.spreadsheetId input) sheetName
         (CreateChartInput.anchorSheetId input)) = Ok seriesSheetId ->
  Env.parseRange env cleanRange seriesSheetId = Ok gridRange ->
  Regex.matchRowSpan cleanRange = Some (row1, row2) ->
  Env.parseRange env ("A" ++ row1 ++ ":A" ++ row2) seriesSheetId = Ok domainGridRange ->
  sentPieDomain (handleCreateChart_spec env input)
  = Some (ChartData.ofSources [domainGridRange]).
Proof.
  intros Hpie Hseries Hextract Hresolve Hparse Hmatch Hdomain.
  unfold handleCreateChart_spec. rewrite Hpie, handleCreateChart_family_pie.
  set (spec0 := whenDefined (CreateChartInput.altText input) ChartSpec.set_altText _).
  set (pie0 := PieChartSpec.mk _ _ _ _).
  assert (Hbasic : ChartSpec.basicChart (ChartSpec.set_pieChart (Some pie0) spec0) = None).
  { subst spec0. simpl.
    destruct (CreateChartInput.altText input), (CreateChartInput.backgroundColor input),
      (CreateChartInput.subtitle input), (CreateChartInput.title input); reflexivity. }
  unfold handleCreateChart_axes. rewrite Hbasic.
  unfold handleCreateChart_ranges. rewrite Hbasic, Hpie, Hseries.
  replace (ChartSpec.pieChart (ChartSpec.set_pieChart (Some pie0) spec0))
    with (Some pie0) by reflexivity.
  cbv beta iota. change (String.eqb "PIE" "PIE") with true. cbv beta iota.
  unfold handleCreateChart_pieBranch. rewrite Hextract.
  destruct (resolveSheetId env (CreateChartInput.spreadsheetId input) sheetName
              (CreateChartInput.anchorSheetId input)) as [calls r].
  simpl in Hresolve. subst r.
  unfold columnADomain. rewrite Hmatch.
  unfold lift, bind, ret. rewrite Hparse, Hdomain. reflexivity.
Qed.

(** For a series range of the form letters-digits:letters-digits on a named
    sheet, the derived domain of a pie chart is the range "A<row1>:A<row2>"
    parsed against that same sheet. *)
Lemma handleCreateChart_pie_domain_rectangle (env : Env.t) (input : CreateChartInput.t)
    (firstSeries : SeriesInput.t) (rest : list SeriesInput.t)
    (sheetName : option string) (col1 row1 col2 row2 : string)
    (seriesSheetId : Z) (gridRange domainGridRange : GridRange.t) :
  CreateChartInput.chartType input = "PIE" ->
  CreateChartInput.series input = firstSeries :: rest ->
  letters col1 -> digits row1 -> letters col2 -> digits row2 ->
  Env.extractSheetName env (SeriesInput.sourceRange firstSeries)
  = (sheetName, col1 ++ row1 ++ ":" ++ col2 ++ row2) ->
  snd (resolveSheetId env (CreateChartInput.spreadsheetId input) sheetName
         (CreateChartInput.anchorSheetId input)) = Ok seriesSheetId ->
  Env.parseRange env (col1 ++ row1 ++ ":" ++ col2 ++ row2) seriesSheetId = Ok gridRange ->
  Env.parseRange env ("A" ++ row1 ++ ":A" ++ row2) seriesSheetId = Ok domainGridRange ->
  sentPieDomain (handleCreateChart_spec env input)
  = Some (ChartData.ofSources [domainGridRange]).
Proof.
  intros Hpie Hseries Hc1 Hr1 Hc2 Hr2 Hextract Hresolve Hparse Hdomain.
  apply (handleCreateChart_pie_domain env input firstSeries rest sheetName
           (col1 ++ row1 ++ ":" ++ col2 ++ row2) row1 row2 seriesSheetId
           gridRange domainGridRange); try assumption.
  apply matchRowSpan_rectangle; assumption.
Qed.

(** C1.  For the pie chart over the one series "Sheet1!B2:B10" with no
    domain range, the domain sent is column A of Sheet1 over rows 2 to 10
    ("Sheet1!A2:A10").  With the domain range "Sheet1!C2:C10" supplied the
    request is the same: its domain is still column A, not the range that
    was given. *)
Theorem C1_pie_explicit_domain_not_used :
  let env := RangeHelpers.env [("Sheet1", 0)] (Spreadsheet.mk None) in
  let derived := sourcesOf (Env.parseRange env "A2:A10" 0) in
  let explicit := sourcesOf (Env.parseRange env "C2:C10" 0) in
  sentPieDomain (handleCreateChart_spec env (pieInput None)) = derived
  /\ derived = Some (ChartData.ofSources
                       [GridRange.mk (Some 0) (Some 1) (Some 9) (Some 0) (Some 0)])
  /\ sentPieDomain (handleCreateChart_spec env (pieInput (Some "Sheet1!C2:C10"))) = derived
  /\ explicit <> derived
  /\ handleCreateChart env (pieInput (Some "Sheet1!C2:C10"))
     = handleCreateChart env (pieInput None).
Proof.
  intros env derived explicit. subst env derived explicit.
  repeat split; try reflexivity.
  vm_compute. discriminate.
Qed.

(** ** Chart update *)

(** The handler reads the spreadsheet first; with the chart found, its
    second and last call carries the position and the updated
    specification. *)
Lemma handleUpdateChart_dispatch (env : Env.t) (input : UpdateChartInput.t)
    (spreadsheet : Spreadsheet.t) (currentChart : EmbeddedChart.t) :
  Env.spreadsheetsGet env (UpdateChartInput.spreadsheetId input) = Ok spreadsheet ->
  findChart (UpdateChartInput.chartId input)
    (Js.orObject (Spreadsheet.sheets spreadsheet) []) = Some currentChart ->
  fst (handleUpdateChart env input)
  = [SpreadsheetsGet (UpdateChartInput.spreadsheetId input);
     BatchUpdate (UpdateChartInput.spreadsheetId input)
       [updateEmbeddedObjectPosition (UpdateChartInput.chartId input)
          (handleUpdateChart_position input currentChart) "position";
        updateChartSpec (UpdateChartInput.chartId input)
          (handleUpdateChart_spec input currentChart)]].
Proof.
  intros Hget Hfind.
  unfold handleUpdateChart, handleUpdateChart_body, await, awaitBatchUpdate, bind.
  rewrite Hget, Hfind. simpl.
  destruct (Env.batchUpdate env _ _) as [[] | e]; reflexivity.
Qed.

(** Without the chart the handler stops after the read, with an error. *)
Lemma handleUpdateChart_not_found (env : Env.t) (input : UpdateChartInput.t)
    (spreadsheet : Spreadsheet.t) :
  Env.spreadsheetsGet env (UpdateChartInput.spreadsheetId input) = Ok spreadsheet ->
  findChart (UpdateChartInput.chartId input)
    (Js.orObject (Spreadsheet.sheets spreadsheet) []) = None ->
  handleUpdateChart env input
  = ([SpreadsheetsGet (UpdateChartInput.spreadsheetId input)],
     HandledError ("Chart with ID " ++ Js.numberToString (UpdateChartInput.chartId input)
                   ++ " not found")).
Proof.
  intros Hget Hfind.
  unfold handleUpdateChart, handleUpdateChart_body, await, throw, bind.
  rewrite Hget, Hfind. reflexivity.
Qed.




(** A legend position given to the update reaches the specification as it
    is, for whichever chart family the specification ends up with. *)
Lemma handleUpdateChart_spec_legend_unchanged (input : UpdateChartInput.t)
    (currentChart : EmbeddedChart.t) (pos : string) :
  UpdateChartInput.legend input = Some (LegendInput.mk (Some pos)) ->
  Js.truthy pos = true ->
  let sent := handleUpdateChart_spec input currentChart in
  (isSome (ChartSpec.basicChart sent) || isSome (ChartSpec.pieChart sent))%bool = true ->
  legendPositionOf sent = Some pos.
Proof.
  intros Hlegend Htruthy.
  unfold handleUpdateChart_spec, handleUpdateChart_chartType, handleUpdateChart_legend,
    handleUpdateChart_series, handleUpdateChart_legendPosition, legendPositionOf.
  rewrite Hlegend. cbn [LegendInput.position]. unfold Js.orString. rewrite Htruthy.
  generalize (Js.orObject (EmbeddedChart.spec currentChart) ChartSpec.empty) as current.
  intros [t s bg alt basic pie extra].
  destruct (UpdateChartInput.chartType input) as [chartType |];
    [destruct (Js.truthy chartType); [destruct (String.eqb chartType "PIE") |] |];
    destruct (UpdateChartInput.title input), (UpdateChartInput.subtitle input),
      (UpdateChartInput.backgroundColor input), (UpdateChartInput.altText input),
      (UpdateChartInput.series input), basic, pie;
    cbn; intros Hsome; try reflexivity; discriminate Hsome.
Qed.




(** *** What naming a chart type or a series list does besides *)

(** Naming a basic chart type for a basic chart carries axis, domains and
    series over, but the legend position falls back to the default and the
    other keys of the basic chart are not carried over. *)
Lemma handleUpdateChart_chartType_rebuilds_basic :
  let sent := handleUpdateChart_spec (updateInput (Some "BAR") None) columnChart in
  option_map BasicChartSpec.axis (ChartSpec.basicChart sent)
  = option_map BasicChartSpec.axis (ChartSpec.basicChart columnChartSpec)
  /\ option_map BasicChartSpec.domains (ChartSpec.basicChart sent)
     = option_map BasicChartSpec.domains (ChartSpec.basicChart columnChartSpec)
  /\ option_map BasicChartSpec.series (ChartSpec.basicChart sent)
     = option_map BasicChartSpec.series (ChartSpec.basicChart columnChartSpec)
  /\ legendPositionOf columnChartSpec = Some "RIGHT_LEGEND"
  /\ legendPositionOf sent = Some "BOTTOM_LEGEND"
  /\ option_map BasicChartSpec.extra (ChartSpec.basicChart sent) = Some [].
Proof. repeat split; reflexivity. Qed.

(** Every series of an update gets the same fixed source range, whatever
    [sourceRange] the input gives it. *)
Lemma handleUpdateChart_basicSeries_fixed_range (input : UpdateChartInput.t)
    (currentChart : EmbeddedChart.t) (series : SeriesInput.t) (sourceRange : string) :
  BasicChartSeries.series (handleUpdateChart_basicSeries input currentChart series)
  = BasicChartSeries.series
      (handleUpdateChart_basicSeries input currentChart
         (SeriesInput.mk sourceRange (SeriesInput.type series)
            (SeriesInput.targetAxis series))).
Proof. reflexivity. Qed.

(** * Further properties of the handlers *)

(** ** Column letters, the other way round *)

Lemma columnLetter_upper (d : Z) :
  0 <= d < 26 ->
  Js.isUpper (columnLetter d) = true
  /\ Z.of_nat (nat_of_ascii (columnLetter d)) = d + 65.
Proof.
  intros Hd. unfold columnLetter, Js.isUpper.
  rewrite nat_ascii_embedding by lia.
  split.
  - apply andb_true_iff. split; apply Nat.leb_le; lia.
  - lia.
Qed.

(** The loop only ever writes letters in front of the column built so far. *)
Lemma indexToColumn_loop_upper (n : nat) :
  forall num column,
    (Z.to_nat num <= n)%nat ->
    Js.all Js.isUpper column = true ->
    Js.all Js.isUpper (indexToColumn_loop num column) = true
    /\ (String.length column <= String.length (indexToColumn_loop num column))%nat.
Proof.
  induction n as [| n IH]; intros num column Hn Hcol.
  - rewrite indexToColumn_loop_done by lia. split; [exact Hcol | lia].
  - destruct (Z_lt_dec 0 num) as [Hpos | Hle].
    + rewrite indexToColumn_loop_step by exact Hpos.
      assert (Hd : 0 <= (num - 1) mod 26 < 26) by (apply Z.mod_pos_bound; lia).
      destruct (columnLetter_upper _ Hd) as [Hup _].
      assert (Hq : 0 <= (num - 1) / 26 <= num - 1).
      { split; [apply Z.div_pos; lia | apply Z.div_le_upper_bound; lia]. }
      destruct (IH ((num - 1) / 26) (String (columnLetter ((num - 1) mod 26)) column))
        as [Hall Hlen].
      * lia.
      * simpl. rewrite Hup, Hcol. reflexivity.
      * split; [exact Hall |]. simpl in Hlen. lia.
    + rewrite indexToColumn_loop_done by lia. split; [exact Hcol | lia].
Qed.



(** From index 0 on the result is a non-empty run of letters. *)
Lemma indexToColumn_run (index : Z) : 0 <= index -> letters (indexToColumn index).
Proof.
  intros Hindex. unfold indexToColumn.
  rewrite indexToColumn_loop_step by lia.
  assert (Hd : 0 <= (index + 1 - 1) mod 26 < 26) by (apply Z.mod_pos_bound; lia).
  destruct (columnLetter_upper _ Hd) as [Hup _].
  assert (Hq : 0 <= (index + 1 - 1) / 26) by (apply Z.div_pos; lia).
  destruct (indexToColumn_loop_upper (Z.to_nat ((index + 1 - 1) / 26))
              ((index + 1 - 1) / 26)
              (String (columnLetter ((index + 1 - 1) mod 26)) ""))
    as [Hall Hlen]; [lia | simpl; rewrite Hup; reflexivity |].
  split; [| exact Hall].
  intros Hempty. rewrite Hempty in Hlen. simpl in Hlen. lia.
Qed.

(** X1.  For every index from 0 on, [indexToColumn] returns a non-empty
    string made of the letters A to Z only; for a negative index the loop
    does not run and the result is the empty string. *)
Theorem indexToColumn_letters (index : Z) :
  (0 <= index -> letters (indexToColumn index))
  /\ (index < 0 -> indexToColumn index = "").
Proof.
  split; intros Hindex.
  - exact (indexToColumn_run index Hindex).
  - unfold indexToColumn. apply indexToColumn_loop_done. lia.
Qed.

Lemma indexToColumn_letters_witness :
  0 <= 701 /\ letters (indexToColumn 701) /\ -1 < 0 /\ indexToColumn (-1) = "".
Proof.
  assert (H1 : 0 <= 701) by lia. assert (H2 : -1 < 0) by lia.
  split; [exact H1 | split; [exact (proj1 (indexToColumn_letters 701) H1) |]].
  split; [exact H2 | exact (proj2 (indexToColumn_letters (-1)) H2)].
Defined.



(** ** Decimal numbers in template strings *)

Lemma parseInt_from_app (s t : string) :
  forall acc, Js.parseInt_from acc (s ++ t) = Js.parseInt_from (Js.parseInt_from acc s) t.
Proof. induction s as [| c s IH]; intros acc; simpl; [reflexivity | apply IH]. Qed.

Lemma digitChar_digit (d : Z) :
  0 <= d < 10 ->
  Js.isDigit (Js.digitChar d) = true
  /\ Z.of_nat (nat_of_ascii (Js.digitChar d)) - 48 = d.
Proof.
  intros Hd. unfold Js.digitChar, Js.isDigit.
  rewrite nat_ascii_embedding by lia.
  split; [apply andb_true_iff; split; apply Nat.leb_le; lia | lia].
Qed.

(** The digits written for [n] are put in front of what was there, and they
    read back as [n]. *)
Lemma natToString_loop_spec (fuel : nat) :
  forall n acc,
    0 <= n -> (Z.to_nat n < fuel)%nat ->
    exists d, Js.natToString_loop fuel n acc = d ++ acc
              /\ digits d /\ Js.parseInt_from 0 d = n.
Proof.
  induction fuel as [| fuel IH]; intros n acc Hn Hfuel; [lia |].
  assert (Hd : 0 <= n mod 10 < 10) by (apply Z.mod_pos_bound; lia).
  destruct (digitChar_digit _ Hd) as [Hdigit Hcode].
  cbn [Js.natToString_loop].
  destruct (Z.eqb_spec (n / 10) 0) as [Hq | Hq].
  - exists (String (Js.digitChar (n mod 10)) "").
    split; [reflexivity |]. split.
    + split; [discriminate | simpl; rewrite Hdigit; reflexivity].
    + cbn [Js.parseInt_from]. rewrite Hcode. pose proof (Z.div_mod n 10). lia.
  - assert (Hq0 : 0 <= n / 10) by (apply Z.div_pos; lia).
    assert (Hn0 : n <> 0) by (intros ->; apply Hq; reflexivity).
    assert (Hq1 : n / 10 < n) by (apply Z.div_lt; lia).
    destruct (IH (n / 10) (String (Js.digitChar (n mod 10)) acc)) as (d & Heq & Hdig & Hval);
      [lia | lia |].
    exists (d ++ String (Js.digitChar (n mod 10)) "").
    split; [rewrite Heq, append_assoc; reflexivity |]. split.
    + split.
      * destruct d; discriminate.
      * rewrite all_app, (proj2 Hdig). simpl. rewrite Hdigit. reflexivity.
    + rewrite parseInt_from_app, Hval. cbn [Js.parseInt_from]. rewrite Hcode.
      pose proof (Z.div_mod n 10). lia.
Qed.

(** A number from 0 on is written as a non-empty run of digits that
    [parseInt] reads back. *)
Lemma numberToString_parseInt (n : Z) :
  0 <= n -> digits (Js.numberToString n) /\ Js.parseInt (Js.numberToString n) = n.
Proof.
  intros Hn. unfold Js.numberToString, Js.parseInt.
  destruct (Z.ltb_spec n 0) as [Hneg | _]; [lia |].
  destruct (natToString_loop_spec (S (Z.to_nat n)) n "" Hn) as (d & Heq & Hdig & Hval);
    [lia |].
  rewrite Heq, append_empty_r. split; assumption.
Qed.

(** ** Value update: when the row count is accepted *)






Lemma lastChar_app (a b : string) :
  b <> EmptyString -> lastChar (a ++ b) = lastChar b.
Proof.
  intros Hb. induction a as [| c a IH]; [reflexivity |].
  change (String c a ++ b) with (String c (a ++ b)).
  cbn [lastChar]. destruct (a ++ b) eqn:Hab.
  - destruct a; [simpl in Hab; congruence | discriminate].
  - exact IH.
Qed.

Lemma lastChar_all (p : ascii -> bool) (s : string) :
  s <> EmptyString -> Js.all p s = true ->
  exists c, lastChar s = Some c /\ p c = true.
Proof.
  induction s as [| c s IH]; intros Hne Hall; [congruence |].
  simpl in Hall. apply andb_true_iff in Hall as [Hc Hs].
  destruct s as [| c' s'].
  - exists c. split; [reflexivity | exact Hc].
  - destruct (IH ltac:(discriminate) Hs) as (x & Hx & Hpx).
    exists x. split; [exact Hx | exact Hpx].
Qed.

(** A range that ends in a rectangle has a colon and ends in a digit. *)
Lemma endsInRectangle_colon_digit (range row1 row2 : string) :
  endsInRectangle range row1 row2 ->
  Js.all notColon range = false
  /\ exists c, lastChar range = Some c /\ Js.isDigit c = true.
Proof.
  intros (prefix & col1 & col2 & -> & Hc1 & Hr1 & Hc2 & Hr2). split.
  - replace (prefix ++ col1 ++ row1 ++ ":" ++ col2 ++ row2)
      with ((prefix ++ col1 ++ row1) ++ String ":" (col2 ++ row2))
      by (rewrite !append_assoc; reflexivity).
    apply colon_inside.
  - replace (prefix ++ col1 ++ row1 ++ ":" ++ col2 ++ row2)
      with ((prefix ++ col1 ++ row1 ++ ":" ++ col2) ++ row2)
      by (rewrite !append_assoc; reflexivity).
    rewrite (lastChar_app _ row2 (proj1 Hr2)).
    exact (lastChar_all Js.isDigit row2 (proj1 Hr2) (proj2 Hr2)).
Qed.

(** X5.  A range with no colon in it (a single anchor cell such as "A42"),
    and a range whose last character is not a digit (whole columns such as
    "A:C"), is never held against the row count: the check returns for every
    payload and the update is dispatched. *)
Theorem handleUpdateValues_flexible_range (env : Env.t) (input : UpdateValuesInput.t)
    (Hflex : Js.all notColon (UpdateValuesInput.range input) = true
             \/ (forall c, lastChar (UpdateValuesInput.range input) = Some c ->
                           Js.isDigit c = false)) :
  validateRangeRowCount (UpdateValuesInput.range input) (UpdateValuesInput.values input)
  = Ok tt
  /\ fst (handleUpdateValues env input)
     = [ValuesUpdate (UpdateValuesInput.spreadsheetId input)
          (UpdateValuesInput.range input)
          (UpdateValuesInput.valueInputOption input)
          (UpdateValuesInput.values input)].
Proof.
  assert (Hnone : Regex.matchRangePattern (UpdateValuesInput.range input) = None).
  { apply matchRangePattern_None_iff. intros (row1 & row2 & Hshape).
    destruct (endsInRectangle_colon_digit _ _ _ Hshape) as (Hcolon & c & Hlast & Hdigit).
    destruct Hflex as [Hno | Hno].
    - congruence.
    - rewrite (Hno c Hlast) in Hdigit. discriminate. }
  assert (Hok : validateRangeRowCount (UpdateValuesInput.range input)
                  (UpdateValuesInput.values input) = Ok tt)
    by (unfold validateRangeRowCount; rewrite Hnone; reflexivity).
  split; [exact Hok |].
  unfold handleUpdateValues, handleUpdateValues_body, lift, await, bind.
  rewrite Hok. destruct (Env.valuesUpdate env _ _ _ _); reflexivity.
Qed.

Lemma handleUpdateValues_flexible_range_witness :
  let env := RangeHelpers.env [("Sheet1", 0)] (Spreadsheet.mk None) in
  let input := UpdateValuesInput.mk "doc" "Sheet1!A42" [[]; []; []] "RAW" in
  Js.all notColon "Sheet1!A42" = true
  /\ fst (handleUpdateValues env input)
     = [ValuesUpdate "doc" "Sheet1!A42" "RAW" [[]; []; []]].
Proof.
  intros env input.
  assert (Hno : Js.all notColon (UpdateValuesInput.range input) = true) by reflexivity.
  split; [exact Hno |].
  exact (proj2 (handleUpdateValues_flexible_range env input (or_introl Hno))).
Defined.

(** ** Row insertion: the values written into the new rows *)

Section InsertRowsValues.
Variables (env : Env.t) (input : InsertRowsInput.t).
Variables (sheetId : Z) (parsedRange : GridRange.t).

Let sheetName := fst (Env.extractSheetName env (InsertRowsInput.range input)).
Let cellRange := snd (Env.extractSheetName env (InsertRowsInput.range input)).
Let spreadsheetId := InsertRowsInput.spreadsheetId input.
Let request := insertRequest sheetId parsedRange input.

Hypothesis Hid : Env.getSheetId env spreadsheetId sheetName = Ok sheetId.
Hypothesis Hparse : Env.parseRange env cellRange sheetId = Ok parsedRange.

(** With the rows inserted and a non-empty payload, the third and last call
    writes the payload to the range computed from the anchor. *)
Lemma handleInsertRows_values_calls (values : list (list Js.Json)) :
  Env.batchUpdate env spreadsheetId [insertDimension request] = Ok tt ->
  InsertRowsInput.values input = Some values -> values <> [] ->
  fst (handleInsertRows env input)
  = [SheetLookup spreadsheetId sheetName;
     BatchUpdate spreadsheetId [insertDimension request];
     ValuesUpdate spreadsheetId
       (handleInsertRows_updateRange sheetName
          (Js.nullish (GridRange.startColumnIndex parsedRange) 0)
          (InsertDimension.startIndex request) values)
       (InsertRowsInput.valueInputOption input) values].
Proof.
  intros Hbatch Hvalues Hne.
  unfold handleInsertRows, handleInsertRows_body.
  subst sheetName cellRange spreadsheetId request.
  destruct (Env.extractSheetName env (InsertRowsInput.range input)) as [name clean].
  simpl in Hid, Hparse, Hbatch |- *.
  unfold awaitSheetId, await, lift, awaitBatchUpdate, bind.
  rewrite Hid, Hparse. cbn iota beta. rewrite Hbatch. rewrite Hvalues.
  destruct values as [| row rest]; [congruence |].
  unfold handleInsertRows_updateRange. cbn iota beta zeta.
  destruct (Env.valuesUpdate env _ _ _ _); reflexivity.
Qed.

(** With no payload, or an empty one, the handler stops after the
    insertion. *)
Lemma handleInsertRows_no_values_calls :
  (InsertRowsInput.values input = None \/ InsertRowsInput.values input = Some []) ->
  fst (handleInsertRows env input)
  = [SheetLookup spreadsheetId sheetName;
     BatchUpdate spreadsheetId [insertDimension request]].
Proof.
  intros Hvalues.
  unfold handleInsertRows, handleInsertRows_body.
  subst sheetName cellRange spreadsheetId request.
  destruct (Env.extractSheetName env (InsertRowsInput.range input)) as [name clean].
  simpl in Hid, Hparse |- *.
  unfold awaitSheetId, await, lift, awaitBatchUpdate, bind.
  rewrite Hid, Hparse. cbn iota beta.
  destruct (Env.batchUpdate env _ _) as [[] | e]; [| reflexivity].
  destruct Hvalues as [-> | ->]; reflexivity.
Qed.

End InsertRowsValues.

(** The written range with its parts named. *)
Lemma handleInsertRows_updateRange_parts (sheetName : option string)
    (anchorColumnIndex startIndex : Z) (values : list (list Js.Json)) :
  exists prefix,
    handleInsertRows_updateRange sheetName anchorColumnIndex startIndex values
    = prefix ++ indexToColumn anchorColumnIndex ++ Js.numberToString (startIndex + 1)
      ++ ":" ++ indexToColumn (anchorColumnIndex + maxLength values - 1)
      ++ Js.numberToString (startIndex + 1 + Z.of_nat (List.length values) - 1).
Proof.
  unfold handleInsertRows_updateRange.
  destruct (truthyName sheetName).
  - exists ("'" ++ Js.orString sheetName "" ++ "'!").
    rewrite !append_assoc. reflexivity.
  - exists "". reflexivity.
Qed.



(** X7.  When every row of the payload is empty and the anchor is in column
    A, the end column of the written range is computed from index -1 and
    comes out empty: the range sent is "A", start row, ":", end row, with no
    column letters after the colon. *)
Theorem handleInsertRows_empty_rows_range (env : Env.t) (input : InsertRowsInput.t)
    (sheetId : Z) (parsedRange : GridRange.t) (values : list (list Js.Json))
    (Hid : Env.getSheetId env (InsertRowsInput.spreadsheetId input)
             (fst (Env.extractSheetName env (InsertRowsInput.range input))) = Ok sheetId)
    (Hparse : Env.parseRange env
                (snd (Env.extractSheetName env (InsertRowsInput.range input)))
                sheetId = Ok parsedRange)
    (Hbatch : Env.batchUpdate env (InsertRowsInput.spreadsheetId input)
                [insertDimension (insertRequest sheetId parsedRange input)] = Ok tt)
    (Hvalues : InsertRowsInput.values input = Some values)
    (Hne : values <> [])
    (Hcol : Js.nullish (GridRange.startColumnIndex parsedRange) 0 = 0)
    (Hempty : maxLength values = 0) :
  let start := InsertDimension.startIndex (insertRequest sheetId parsedRange input) in
  exists prefix,
    fst (handleInsertRows env input)
    = [SheetLookup (InsertRowsInput.spreadsheetId input)
         (fst (Env.extractSheetName env (InsertRowsInput.range input)));
       BatchUpdate (InsertRowsInput.spreadsheetId input)
         [insertDimension (insertRequest sheetId parsedRange input)];
       ValuesUpdate (InsertRowsInput.spreadsheetId input)
         (prefix ++ "A" ++ Js.numberToString (start + 1) ++ ":"
          ++ Js.numberToString (start + Z.of_nat (List.length values)))
         (InsertRowsInput.valueInputOption input) values].
Proof.
  intros start.
  destruct (handleInsertRows_updateRange_parts
              (fst (Env.extractSheetName env (InsertRowsInput.range input)))
              (Js.nullish (GridRange.startColumnIndex parsedRange) 0) start values)
    as [prefix Hparts].
  rewrite Hcol, Hempty in Hparts.
  replace (start + 1 + Z.of_nat (List.length values) - 1)
    with (start + Z.of_nat (List.length values)) in Hparts by lia.
  change (indexToColumn 0) with "A" in Hparts.
  change (indexToColumn (0 + 0 - 1)) with "" in Hparts.
  exists prefix.
  rewrite (handleInsertRows_values_calls env input sheetId parsedRange Hid Hparse
             values Hbatch Hvalues Hne).
  fold start. rewrite Hcol. rewrite Hparts. reflexivity.
Qed.

Lemma handleInsertRows_empty_rows_range_witness :
  let env := RangeHelpers.env [("Sheet1", 0)] (Spreadsheet.mk None) in
  let input := InsertRowsInput.mk "doc" "Sheet1!A5" 1 AFTER false (Some [[]]) "RAW" in
  let parsed := GridRange.mk (Some 0) (Some 4) (Some 4) (Some 0) (Some 0) in
  maxLength [[]] = 0
  /\ exists prefix,
       fst (handleInsertRows env input)
       = [SheetLookup "doc" (Some "Sheet1");
          BatchUpdate "doc" [insertDimension (insertRequest 0 parsed input)];
          ValuesUpdate "doc" (prefix ++ "A6:6") "RAW" [[]]].
Proof.
  intros env input parsed.
  assert (Hid : Env.getSheetId env (InsertRowsInput.spreadsheetId input)
                  (fst (Env.extractSheetName env (InsertRowsInput.range input))) = Ok 0)
    by reflexivity.
  assert (Hparse : Env.parseRange env
                     (snd (Env.extractSheetName env (InsertRowsInput.range input)))
                     0 = Ok parsed) by reflexivity.
  assert (Hbatch : Env.batchUpdate env (InsertRowsInput.spreadsheetId input)
                     [insertDimension (insertRequest 0 parsed input)] = Ok tt)
    by reflexivity.
  assert (Hvalues : InsertRowsInput.values input = Some [[]]) by reflexivity.
  assert (Hne : [[]] <> @nil (list Js.Json)) by discriminate.
  assert (Hcol : Js.nullish (GridRange.startColumnIndex parsed) 0 = 0) by reflexivity.
  assert (Hempty : maxLength [[]] = 0) by reflexivity.
  split; [exact Hempty |].
  destruct (handleInsertRows_empty_rows_range env input 0 parsed [[]] Hid Hparse Hbatch
              Hvalues Hne Hcol Hempty) as (prefix & Hcalls).
  exists prefix. exact Hcalls.
Defined.

(** X8.  Row insertion never gets ahead of a failure.  When the sheet
    lookup or the parsing of the anchor throws, the handler ends in its
    error path with no request sent; when the insertion itself is rejected,
    the values are not written, whatever payload came with the call; and
    with no payload, or an empty one, the insertion is the last call. *)
Theorem handleInsertRows_failures (env : Env.t) (input : InsertRowsInput.t) :
  let spreadsheetId := InsertRowsInput.spreadsheetId input in
  let sheetName := fst (Env.extractSheetName env (InsertRowsInput.range input)) in
  let cellRange := snd (Env.extractSheetName env (InsertRowsInput.range input)) in
  (forall e,
     Env.getSheetId env spreadsheetId sheetName = Thrown e ->
     handleInsertRows env input = ([SheetLookup spreadsheetId sheetName], HandledError e))
  /\ (forall sheetId e,
        Env.getSheetId env spreadsheetId sheetName = Ok sheetId ->
        Env.parseRange env cellRange sheetId = Thrown e ->
        handleInsertRows env input
        = ([SheetLookup spreadsheetId sheetName], HandledError e))
  /\ (forall sheetId parsedRange e,
        Env.getSheetId env spreadsheetId sheetName = Ok sheetId ->
        Env.parseRange env cellRange sheetId = Ok parsedRange ->
        Env.batchUpdate env spreadsheetId
          [insertDimension (insertRequest sheetId parsedRange input)] = Thrown e ->
        handleInsertRows env input
        = ([SheetLookup spreadsheetId sheetName;
            BatchUpdate spreadsheetId
              [insertDimension (insertRequest sheetId parsedRange input)]],
           HandledError e))
  /\ (forall sheetId parsedRange,
        Env.getSheetId env spreadsheetId sheetName = Ok sheetId ->
        Env.parseRange env cellRange sheetId = Ok parsedRange ->
        InsertRowsInput.values input = None \/ InsertRowsInput.values input = Some [] ->
        fst (handleInsertRows env input)
        = [SheetLookup spreadsheetId sheetName;
           BatchUpdate spreadsheetId
             [insertDimension (insertRequest sheetId parsedRange input)]]).
Proof.
  intros spreadsheetId sheetName cellRange.
  subst spreadsheetId sheetName cellRange.
  unfold handleInsertRows, handleInsertRows_body.
  destruct (Env.extractSheetName env (InsertRowsInput.range input)) as [name clean].
  cbn [fst snd]. unfold awaitSheetId, await, lift, awaitBatchUpdate, bind.
  repeat split.
  - intros e Hid. rewrite Hid. reflexivity.
  - intros sheetId e Hid Hparse. rewrite Hid, Hparse. reflexivity.
  - intros sheetId parsedRange e Hid Hparse Hbatch.
    rewrite Hid, Hparse. cbn iota beta. rewrite Hbatch. reflexivity.
  - intros sheetId parsedRange Hid Hparse Hvalues.
    rewrite Hid, Hparse. cbn iota beta.
    destruct (Env.batchUpdate env _ _) as [[] | e]; [| reflexivity].
    destruct Hvalues as [-> | ->]; reflexivity.
Qed.

Lemma handleInsertRows_failures_witness :
  let rejecting := rejectingEnv [("Sheet1", 0)] "quota" in
  let input := InsertRowsInput.mk "doc" "Sheet1!A5" 1 BEFORE false
                 (Some [[Js.JNum 1]]) "RAW" in
  let missing := InsertRowsInput.mk "doc" "Nope!A5" 1 BEFORE false
                   (Some [[Js.JNum 1]]) "RAW" in
  let parsed := GridRange.mk (Some 0) (Some 4) (Some 4) (Some 0) (Some 0) in
  handleInsertRows rejecting missing
  = ([SheetLookup "doc" (Some "Nope")], HandledError "SheetNotFoundError: Nope")
  /\ handleInsertRows rejecting input
     = ([SheetLookup "doc" (Some "Sheet1");
         BatchUpdate "doc" [insertDimension (insertRequest 0 parsed input)]],
        HandledError "quota").
Proof.
  intros rejecting input missing parsed. split.
  - exact (proj1 (handleInsertRows_failures rejecting missing)
             "SheetNotFoundError: Nope" eq_refl).
  - exact (proj1 (proj2 (proj2 (handleInsertRows_failures rejecting input)))
             0 parsed "quota" eq_refl eq_refl eq_refl).
Defined.

(** ** Batch formatting *)

(** One round of the loop for an entry whose range resolves. *)
Lemma handleBatchFormatCells_loop_step (env : Env.t) (spreadsheetId : string)
    (entry : FormatRequest.t) (rest : list FormatRequest.t) (acc : list Request)
    (gridRange : GridRange.t) :
  resolveRange env spreadsheetId (FormatRequest.range entry) = Ok gridRange ->
  handleBatchFormatCells_loop env spreadsheetId (entry :: rest) acc
  = (let '(calls, r) :=
       handleBatchFormatCells_loop env spreadsheetId rest
         (acc ++ [batchEntryRequest (entry, gridRange)])%list in
     (lookupOf env spreadsheetId (FormatRequest.range entry) :: calls, r)).
Proof.
  unfold resolveRange, lookupOf. intros Hresolve.
  cbn [handleBatchFormatCells_loop].
  destruct (Env.extractSheetName env (FormatRequest.range entry)) as [sheetName cleanRange].
  unfold awaitSheetId, await, lift, bind. cbn [fst].
  destruct (Env.getSheetId env spreadsheetId sheetName) as [sheetId | e]; [| discriminate].
  rewrite Hresolve. cbn iota beta.
  unfold batchEntryRequest, formatCellsHandler_request, handleBatchFormatCells_cellFormat.
  cbn [fst snd].
  destruct (handleBatchFormatCells_loop env spreadsheetId rest _) as [calls r].
  reflexivity.
Qed.

(** One round of the loop for an entry whose range does not resolve. *)
Lemma handleBatchFormatCells_loop_stop (env : Env.t) (spreadsheetId : string)
    (entry : FormatRequest.t) (rest : list FormatRequest.t) (acc : list Request)
    (e : string) :
  resolveRange env spreadsheetId (FormatRequest.range entry) = Thrown e ->
  handleBatchFormatCells_loop env spreadsheetId (entry :: rest) acc
  = ([lookupOf env spreadsheetId (FormatRequest.range entry)], Thrown e).
Proof.
  unfold resolveRange, lookupOf. intros Hresolve.
  cbn [handleBatchFormatCells_loop].
  destruct (Env.extractSheetName env (FormatRequest.range entry)) as [sheetName cleanRange].
  unfold awaitSheetId, await, lift, bind. cbn [fst].
  destruct (Env.getSheetId env spreadsheetId sheetName) as [sheetId | e'].
  - rewrite Hresolve. reflexivity.
  - injection Hresolve as ->. reflexivity.
Qed.

Lemma handleBatchFormatCells_loop_all (env : Env.t) (spreadsheetId : string)
    (entries : list FormatRequest.t) :
  forall (gridRanges : list GridRange.t) (acc : list Request),
    Forall2 (fun entry g => resolveRange env spreadsheetId (FormatRequest.range entry) = Ok g)
            entries gridRanges ->
    handleBatchFormatCells_loop env spreadsheetId entries acc
    = (List.map (fun entry => lookupOf env spreadsheetId (FormatRequest.range entry)) entries,
       Ok (acc ++ List.map batchEntryRequest (List.combine entries gridRanges))%list).
Proof.
  induction entries as [| entry rest IH]; intros gridRanges acc Hall.
  - inversion Hall; subst. simpl. rewrite app_nil_r. reflexivity.
  - inversion Hall as [| ? g ? gs Hhead Htail]; subst.
    rewrite (handleBatchFormatCells_loop_step env spreadsheetId entry rest acc g Hhead).
    rewrite (IH gs _ Htail). cbn [List.map List.combine].
    rewrite <- app_assoc. reflexivity.
Qed.

Lemma handleBatchFormatCells_loop_fail (env : Env.t) (spreadsheetId : string)
    (before : list FormatRequest.t) :
  forall (gridRanges : list GridRange.t) (acc : list Request)
         (bad : FormatRequest.t) (after : list FormatRequest.t) (e : string),
    Forall2 (fun entry g => resolveRange env spreadsheetId (FormatRequest.range entry) = Ok g)
            before gridRanges ->
    resolveRange env spreadsheetId (FormatRequest.range bad) = Thrown e ->
    handleBatchFormatCells_loop env spreadsheetId (before ++ bad :: after) acc
    = (List.map (fun entry => lookupOf env spreadsheetId (FormatRequest.range entry))
         (before ++ [bad]),
       Thrown e).
Proof.
  induction before as [| entry rest IH]; intros gridRanges acc bad after e Hall Hbad.
  - simpl. exact (handleBatchFormatCells_loop_stop env spreadsheetId bad after acc e Hbad).
  - inversion Hall as [| ? g ? gs Hhead Htail]; subst.
    change ((entry :: rest) ++ bad :: after)%list
      with (entry :: (rest ++ bad :: after))%list.
    rewrite (handleBatchFormatCells_loop_step env spreadsheetId entry _ acc g Hhead).
    rewrite (IH gs _ bad after e Htail Hbad). reflexivity.
Qed.

(** X9.  When every range of a batch resolves, the batch handler makes one
    sheet lookup per entry, in order, and then sends a single batch update
    with one [repeatCell] request per entry, in the order of the input, each
    the request that the single-range handler builds for that range and
    format.  An empty batch is still sent, with no request in it. *)
Theorem handleBatchFormatCells_requests (env : Env.t) (input : BatchFormatCellsInput.t)
    (gridRanges : list GridRange.t)
    (Hall : Forall2
              (fun entry g =>
                 resolveRange env (BatchFormatCellsInput.spreadsheetId input)
                   (FormatRequest.range entry) = Ok g)
              (BatchFormatCellsInput.formatRequests input) gridRanges) :
  let spreadsheetId := BatchFormatCellsInput.spreadsheetId input in
  let entries := BatchFormatCellsInput.formatRequests input in
  fst (handleBatchFormatCells env input)
  = (List.map (fun entry => lookupOf env spreadsheetId (FormatRequest.range entry)) entries
     ++ [BatchUpdate spreadsheetId
           (List.map batchEntryRequest (List.combine entries gridRanges))])%list
  /\ List.length (List.map batchEntryRequest (List.combine entries gridRanges))
     = List.length entries.
Proof.
  intros spreadsheetId entries. subst spreadsheetId entries. split.
  - unfold handleBatchFormatCells, handleBatchFormatCells_body, bind.
    rewrite (handleBatchFormatCells_loop_all env _ _ gridRanges [] Hall).
    cbn [app]. unfold awaitBatchUpdate, await.
    destruct (Env.batchUpdate env _ _) as [[] | e]; reflexivity.
  - rewrite length_map, length_combine.
    apply Forall2_length in Hall. lia.
Qed.

Lemma handleBatchFormatCells_requests_witness :
  let env := RangeHelpers.env [("Sheet1", 0); ("Data", 7)] (Spreadsheet.mk None) in
  let entries := [FormatRequest.mk "Sheet1!A1:C1" boldOnly;
                  FormatRequest.mk "Data!B2" redCentred] in
  let input := BatchFormatCellsInput.mk "doc" entries in
  let g1 := GridRange.mk (Some 0) (Some 0) (Some 0) (Some 0) (Some 2) in
  let g2 := GridRange.mk (Some 7) (Some 1) (Some 1) (Some 1) (Some 1) in
  fst (handleBatchFormatCells env input)
  = [SheetLookup "doc" (Some "Sheet1"); SheetLookup "doc" (Some "Data");
     BatchUpdate "doc"
       [repeatCell (formatCellsHandler_request g1 boldOnly);
        repeatCell (formatCellsHandler_request g2 redCentred)]].
Proof.
  intros env entries input g1 g2.
  assert (Hall : Forall2
            (fun entry g =>
               resolveRange env (BatchFormatCellsInput.spreadsheetId input)
                 (FormatRequest.range entry) = Ok g)
            (BatchFormatCellsInput.formatRequests input) [g1; g2]).
  { constructor; [reflexivity |]. constructor; [reflexivity | constructor]. }
  exact (proj1 (handleBatchFormatCells_requests env input [g1; g2] Hall)).
Defined.

(** X10.  A batch is all or nothing on the handler's side: when the range
    of some entry does not resolve (unknown sheet, malformed range), the
    handler stops at that entry with the error, having made only the
    lookups up to it, and no batch update is sent, not even for the entries
    before it. *)
Theorem handleBatchFormatCells_all_or_nothing (env : Env.t)
    (input : BatchFormatCellsInput.t)
    (before after : list FormatRequest.t) (bad : FormatRequest.t)
    (gridRanges : list GridRange.t) (e : string)
    (Hsplit : BatchFormatCellsInput.formatRequests input = (before ++ bad :: after)%list)
    (Hbefore : Forall2
                 (fun entry g =>
                    resolveRange env (BatchFormatCellsInput.spreadsheetId input)
                      (FormatRequest.range entry) = Ok g)
                 before gridRanges)
    (Hbad : resolveRange env (BatchFormatCellsInput.spreadsheetId input)
              (FormatRequest.range bad) = Thrown e) :
  handleBatchFormatCells env input
  = (List.map (fun entry =>
                 lookupOf env (BatchFormatCellsInput.spreadsheetId input)
                   (FormatRequest.range entry))
       (before ++ [bad]),
     HandledError e).
Proof.
  unfold handleBatchFormatCells, handleBatchFormatCells_body, bind.
  rewrite Hsplit.
  rewrite (handleBatchFormatCells_loop_fail env _ before gridRanges [] bad after e
             Hbefore Hbad).
  reflexivity.
Qed.

Lemma handleBatchFormatCells_all_or_nothing_witness :
  let env := RangeHelpers.env [("Sheet1", 0)] (Spreadsheet.mk None) in
  let input := BatchFormatCellsInput.mk "doc"
                 [FormatRequest.mk "Sheet1!A1:C1" boldOnly;
                  FormatRequest.mk "Gone!B2" redCentred;
                  FormatRequest.mk "Sheet1!D4" boldOnly] in
  handleBatchFormatCells env input
  = ([SheetLookup "doc" (Some "Sheet1"); SheetLookup "doc" (Some "Gone")],
     HandledError "SheetNotFoundError: Gone").
Proof.
  intros env input.
  assert (Hbefore : Forall2
            (fun entry g =>
               resolveRange env (BatchFormatCellsInput.spreadsheetId input)
                 (FormatRequest.range entry) = Ok g)
            [FormatRequest.mk "Sheet1!A1:C1" boldOnly]
            [GridRange.mk (Some 0) (Some 0) (Some 0) (Some 0) (Some 2)]).
  { constructor; [reflexivity | constructor]. }
  exact (handleBatchFormatCells_all_or_nothing env input
           [FormatRequest.mk "Sheet1!A1:C1" boldOnly]
           [FormatRequest.mk "Sheet1!D4" boldOnly]
           (FormatRequest.mk "Gone!B2" redCentred) _ "SheetNotFoundError: Gone"
           eq_refl Hbefore eq_refl).
Defined.

(** ** Single-range formatting and borders *)

(** X11.  The formatting handler and the border handler send nothing when
    the range does not resolve: after an unknown sheet or a malformed range
    the only call made is the sheet lookup, and the handler returns the
    error. *)
Theorem range_handlers_stop_on_unresolved_range (env : Env.t) (e : string) :
  (forall input : FormatCellsInput.t,
     resolveRange env (FormatCellsInput.spreadsheetId input) (FormatCellsInput.range input)
     = Thrown e ->
     formatCellsHandler env input
     = ([lookupOf env (FormatCellsInput.spreadsheetId input) (FormatCellsInput.range input)],
        HandledError e))
  /\ (forall input : UpdateBordersInput.t,
        resolveRange env (UpdateBordersInput.spreadsheetId input)
          (UpdateBordersInput.range input) = Thrown e ->
        updateBordersHandler env input
        = ([lookupOf env (UpdateBordersInput.spreadsheetId input)
              (UpdateBordersInput.range input)],
           HandledError e)).
Proof.
  split; intros input; unfold resolveRange, lookupOf.
  - unfold formatCellsHandler, formatCellsHandler_body.
    destruct (Env.extractSheetName env (FormatCellsInput.range input)) as [name clean].
    unfold awaitSheetId, await, lift, bind. cbn [fst].
    destruct (Env.getSheetId env _ name) as [sheetId | e'].
    + intros Hparse. rewrite Hparse. reflexivity.
    + intros He. injection He as ->. reflexivity.
  - unfold updateBordersHandler, updateBordersHandler_body.
    destruct (Env.extractSheetName env (UpdateBordersInput.range input)) as [name clean].
    unfold awaitSheetId, await, lift, bind. cbn [fst].
    destruct (Env.getSheetId env _ name) as [sheetId | e'].
    + intros Hparse. rewrite Hparse. reflexivity.
    + intros He. injection He as ->. reflexivity.
Qed.

Lemma range_handlers_stop_on_unresolved_range_witness :
  let env := RangeHelpers.env [("Sheet1", 0)] (Spreadsheet.mk None) in
  formatCellsHandler env (FormatCellsInput.mk "doc" "Sheet1!7" boldOnly)
  = ([SheetLookup "doc" (Some "Sheet1")], HandledError "InvalidRangeError: 7")
  /\ updateBordersHandler env (UpdateBordersInput.mk "doc" "Gone!A1" topNoneOnly)
     = ([SheetLookup "doc" (Some "Gone")], HandledError "SheetNotFoundError: Gone").
Proof.
  intros env. split.
  - exact (proj1 (range_handlers_stop_on_unresolved_range env "InvalidRangeError: 7")
             (FormatCellsInput.mk "doc" "Sheet1!7" boldOnly) eq_refl).
  - exact (proj2 (range_handlers_stop_on_unresolved_range env "SheetNotFoundError: Gone")
             (UpdateBordersInput.mk "doc" "Gone!A1" topNoneOnly) eq_refl).
Defined.

(** X12.  Neither builder changes a value on its way to the request: the
    cell format sent is the input format, attribute by attribute (a number
    format without a pattern goes out with the pattern null), and every
    border edge sent has the style, colour and width of the input edge. *)
Theorem builders_pass_values_through :
  (forall format : CellFormat.t, formatCellsHandler_cellFormat format = format)
  /\ (forall (gridRange : GridRange.t) (borders : Borders.t),
        let request := updateBordersHandler_request gridRange borders in
        UpdateBordersRequest.top request = Borders.top borders
        /\ UpdateBordersRequest.bottom request = Borders.bottom borders
        /\ UpdateBordersRequest.left request = Borders.left borders
        /\ UpdateBordersRequest.right request = Borders.right borders
        /\ UpdateBordersRequest.innerHorizontal request = Borders.innerHorizontal borders
        /\ UpdateBordersRequest.innerVertical request = Borders.innerVertical borders).
Proof.
  split.
  - intros [bg tf ha va ws nf pd]. unfold formatCellsHandler_cellFormat.
    cbn [CellFormat.backgroundColor CellFormat.textFormat CellFormat.horizontalAlignment
         CellFormat.verticalAlignment CellFormat.wrapStrategy CellFormat.numberFormat
         CellFormat.padding].
    destruct bg, ha, va, ws, pd;
      destruct tf as [tf |]; try rewrite formatCellsHandler_textFormat_id;
      destruct nf as [[ty pat] |]; reflexivity.
  - intros gridRange [t b l r ih iv]. simpl.
    destruct t as [[] |], b as [[] |], l as [[] |], r as [[] |], ih as [[] |], iv as [[] |];
      repeat split; reflexivity.
Qed.

(** ** Chart creation: legend, series, domain and calls *)

Lemma substring_whole (s : string) : substring 0 (String.length s) s = s.
Proof. induction s as [| c s IH]; simpl; [reflexivity | now rewrite IH]. Qed.

Lemma substring_skip (a b : string) (m : nat) :
  substring (String.length a) m (a ++ b) = substring 0 m b.
Proof. induction a as [| c a IH]; simpl; [reflexivity | exact IH]. Qed.

Lemma append_length (a b : string) :
  String.length (a ++ b) = (String.length a + String.length b)%nat.
Proof. induction a as [| c a IH]; simpl; [reflexivity | now rewrite IH]. Qed.

Lemma endsWith_app (a suffix : string) : Js.endsWith (a ++ suffix) suffix = true.
Proof.
  unfold Js.endsWith. rewrite append_length.
  replace (String.length a + String.length suffix - String.length suffix)%nat
    with (String.length a) by lia.
  rewrite substring_skip, substring_whole, String.eqb_refl.
  apply andb_true_iff. split; [apply Nat.leb_le; lia | reflexivity].
Qed.

(** Whatever the legend input, the position computed ends in [_LEGEND]. *)
Lemma handleCreateChart_legendPosition_suffixed (legend : option LegendInput.t) :
  Js.endsWith (handleCreateChart_legendPosition legend) "_LEGEND" = true.
Proof.
  unfold handleCreateChart_legendPosition.
  destruct legend as [[[pos |]] |]; try reflexivity.
  cbn [LegendInput.position].
  destruct (Js.truthy pos); [| reflexivity].
  destruct (Js.endsWith pos "_LEGEND") eqn:Hends.
  - exact Hends.
  - cbn [negb andb].
    destruct (String.eqb_spec pos "NO_LEGEND") as [-> | _]; [reflexivity |].
    cbn [negb]. apply endsWith_app.
Qed.

(** Every family but PIE gets a basic chart of the type asked for. *)
Lemma handleCreateChart_family_basic (chartType legendPosition : string)
    (chartSpec : ChartSpec.t) :
  chartType <> "PIE" ->
  handleCreateChart_family chartType legendPosition chartSpec
  = ChartSpec.set_basicChart (Some (newBasicChart chartType legendPosition)) chartSpec.
Proof.
  intros Hpie. unfold handleCreateChart_family.
  repeat match goal with
         | |- context [String.eqb chartType ?lit] =>
             destruct (String.eqb_spec chartType lit) as [-> | _];
             [try reflexivity; congruence |]
         end.
  reflexivity.
Qed.

(** The specification before the ranges are parsed. *)
Lemma handleCreateChart_spec_unfold (env : Env.t) (input : CreateChartInput.t) :
  exists chartSpec0,
    ChartSpec.basicChart chartSpec0 = None /\ ChartSpec.pieChart chartSpec0 = None
    /\ handleCreateChart_spec env input
       = handleCreateChart_ranges env input
           (handleCreateChart_axes input
              (handleCreateChart_family (CreateChartInput.chartType input)
                 (handleCreateChart_legendPosition (CreateChartInput.legend input))
                 chartSpec0)).
Proof.
  eexists. split; [| split; [| reflexivity]].
  - destruct (CreateChartInput.altText input), (CreateChartInput.backgroundColor input),
      (CreateChartInput.subtitle input), (CreateChartInput.title input); reflexivity.
  - destruct (CreateChartInput.altText input), (CreateChartInput.backgroundColor input),
      (CreateChartInput.subtitle input), (CreateChartInput.title input); reflexivity.
Qed.

Lemma resolveSheetId_lookups (env : Env.t) (spreadsheetId : string)
    (sheetName : option string) (fallback : Z) :
  Forall isLookup (fst (resolveSheetId env spreadsheetId sheetName fallback)).
Proof.
  unfold resolveSheetId, awaitSheetId, await, ret.
  destruct (truthyName sheetName); simpl; repeat constructor.
Qed.

Lemma bind_ok {A B : Type} (calls : list BackendCall) (a : A) (k : A -> Prog B) :
  bind (calls, Ok a) k = ((calls ++ fst (k a))%list, snd (k a)).
Proof. unfold bind. destruct (k a). reflexivity. Qed.

Lemma bind_thrown {A B : Type} (calls : list BackendCall) (e : string) (k : A -> Prog B) :
  bind (calls, Thrown e) k = (calls, Thrown e).
Proof. reflexivity. Qed.

(** The series loop only looks sheets up, and when it succeeds it has added
    one entry per input series, in order. *)
Lemma handleCreateChart_series_spec (env : Env.t) (input : CreateChartInput.t)
    (actualSheetId : Z) (remaining : list SeriesInput.t) :
  forall acc,
    Forall isLookup (fst (handleCreateChart_series env input actualSheetId remaining acc))
    /\ (forall parsed,
          snd (handleCreateChart_series env input actualSheetId remaining acc) = Ok parsed ->
          exists gridRanges,
            Forall2 (fun series g =>
                       chartRange env (CreateChartInput.spreadsheetId input) actualSheetId
                         (SeriesInput.sourceRange series) = Ok g)
                    remaining gridRanges
            /\ parsed = (acc ++ List.map (createdSeries (CreateChartInput.chartType input))
                                  (List.combine remaining gridRanges))%list).
Proof.
  induction remaining as [| series rest IH]; intros acc.
  - split; [constructor |]. intros parsed Hok. injection Hok as <-.
    exists []. split; [constructor | simpl; now rewrite app_nil_r].
  - cbn [handleCreateChart_series].
    assert (Hhead : forall g,
              chartRange env (CreateChartInput.spreadsheetId input) actualSheetId
                (SeriesInput.sourceRange series) = Ok g <->
              (let '(sheetName, cleanRange) :=
                 Env.extractSheetName env (SeriesInput.sourceRange series) in
               match snd (resolveSheetId env (CreateChartInput.spreadsheetId input)
                            sheetName actualSheetId) with
               | Ok sheetId => Env.parseRange env cleanRange sheetId
               | Thrown e => Thrown e
               end) = Ok g) by (intros g; reflexivity).
    destruct (Env.extractSheetName env (SeriesInput.sourceRange series))
      as [sheetName cleanRange].
    pose proof (resolveSheetId_lookups env (CreateChartInput.spreadsheetId input)
                  sheetName actualSheetId) as Hlook.
    destruct (resolveSheetId env (CreateChartInput.spreadsheetId input) sheetName
                actualSheetId) as [calls1 [sheetId | e]]; cbn [fst snd] in *.
    + rewrite bind_ok. unfold lift.
      destruct (Env.parseRange env cleanRange sheetId) as [gridRange | e].
      * rewrite bind_ok. cbn [fst snd app].
        destruct (IH (acc ++ [BasicChartSeries.mk (ChartData.ofSources [gridRange])
                       (Some (Js.orString (SeriesInput.targetAxis series) "LEFT_AXIS"))
                       (Some (Js.orString (SeriesInput.type series)
                                (CreateChartInput.chartType input))) []])%list)
          as [Hcalls Hres].
        split.
        -- apply Forall_app. split; assumption.
        -- intros parsed Hok. destruct (Hres parsed Hok) as (gs & Hall & ->).
           exists (gridRange :: gs). split.
           ++ constructor; [apply Hhead; reflexivity | exact Hall].
           ++ cbn [List.combine List.map]. rewrite <- app_assoc. reflexivity.
      * rewrite bind_thrown. cbn [fst snd].
        split; [rewrite app_nil_r; exact Hlook | discriminate].
    + rewrite bind_thrown. split; [exact Hlook | discriminate].
Qed.

(** ** Chart creation: calls and structure *)

Lemma bind_lookups {A B : Type} (m : Prog A) (k : A -> Prog B) :
  Forall isLookup (fst m) ->
  (forall a, Forall isLookup (fst (k a))) ->
  Forall isLookup (fst (bind m k)).
Proof.
  intros Hm Hk. destruct m as [calls [a | e]].
  - rewrite bind_ok. cbn [fst]. apply Forall_app. split; [exact Hm | apply Hk].
  - exact Hm.
Qed.

Lemma handleCreateChart_basicDomain_lookups (env : Env.t) (input : CreateChartInput.t)
    (actualSheetId : Z) (firstSeriesRange : string) (basic : BasicChartSpec.t) :
  Forall isLookup
    (fst (handleCreateChart_basicDomain env input actualSheetId firstSeriesRange basic)).
Proof.
  unfold handleCreateChart_basicDomain.
  destruct (match CreateChartInput.domainRange input with
            | Some d => Js.truthy d
            | None => false
            end).
  - destruct (Env.extractSheetName env _) as [name clean].
    apply bind_lookups; [apply resolveSheetId_lookups |].
    intros sheetId. apply bind_lookups; [constructor |]. intros g. constructor.
  - destruct (Env.extractSheetName env _) as [name clean].
    apply bind_lookups; [apply resolveSheetId_lookups |].
    intros sheetId. destruct (columnADomain clean); [| constructor].
    apply bind_lookups; [constructor |]. intros g. constructor.
Qed.

Lemma handleCreateChart_ranges_lookups (env : Env.t) (input : CreateChartInput.t)
    (chartSpec : ChartSpec.t) :
  Forall isLookup (fst (handleCreateChart_ranges env input chartSpec)).
Proof.
  assert (Hpie : forall pie firstSeries,
            Forall isLookup
              (fst (handleCreateChart_pieBranch env input chartSpec pie firstSeries))).
  { intros pie firstSeries. unfold handleCreateChart_pieBranch.
    destruct (Env.extractSheetName env _) as [name clean].
    apply bind_lookups; [apply resolveSheetId_lookups |].
    intros sheetId. apply bind_lookups; [constructor |]. intros g.
    destruct (columnADomain clean); [| constructor].
    apply bind_lookups; [constructor |]. intros d. constructor. }
  assert (Hbasic : forall basic firstSeries,
            Forall isLookup
              (fst (handleCreateChart_basicBranch env input chartSpec basic firstSeries))).
  { intros basic firstSeries. unfold handleCreateChart_basicBranch.
    destruct (Env.extractSheetName env _) as [name clean].
    apply bind_lookups; [apply resolveSheetId_lookups |].
    intros actual. apply bind_lookups; [apply handleCreateChart_series_spec |].
    intros parsed. apply bind_lookups; [apply handleCreateChart_basicDomain_lookups |].
    intros b. constructor. }
  unfold handleCreateChart_ranges.
  destruct (ChartSpec.basicChart chartSpec) as [basic |],
           (ChartSpec.pieChart chartSpec) as [pie |],
           (CreateChartInput.series input) as [| firstSeries rest],
           (String.eqb (CreateChartInput.chartType input) "PIE");
    cbn [negb]; try constructor; auto.
Qed.

(** X13.  Chart creation reads before it writes, and writes once: every
    call made while the specification is built is a sheet lookup; when the
    specification is built the handler's one further call is the batch
    update with the single [addChart] request, and when building it fails
    no update is sent at all. *)
Theorem handleCreateChart_calls (env : Env.t) (input : CreateChartInput.t) :
  Forall isLookup (fst (handleCreateChart_spec env input))
  /\ match snd (handleCreateChart_spec env input) with
     | Ok chartSpec =>
         fst (handleCreateChart env input)
         = (fst (handleCreateChart_spec env input)
            ++ [BatchUpdate (CreateChartInput.spreadsheetId input)
                  [addChart chartSpec
                     (ChartPositionInput.toRequest (CreateChartInput.position input))]])%list
     | Thrown e =>
         handleCreateChart env input
         = (fst (handleCreateChart_spec env input), HandledError e)
     end.
Proof.
  split; [apply handleCreateChart_ranges_lookups |].
  unfold handleCreateChart, handleCreateChart_body.
  destruct (handleCreateChart_spec env input) as [calls [chartSpec | e]]; cbn [fst snd].
  - rewrite bind_ok. unfold awaitBatchUpdate, await.
    destruct (Env.batchUpdate env _ _) as [[] | e]; reflexivity.
  - reflexivity.
Qed.

Lemma bind_snd_ok {A B : Type} (m : Prog A) (k : A -> Prog B) (b : B) :
  snd (bind m k) = Ok b -> exists a, snd m = Ok a /\ snd (k a) = Ok b.
Proof.
  destruct m as [calls [a | e]].
  - rewrite bind_ok. cbn [snd]. intros H. exists a. split; [reflexivity | exact H].
  - discriminate.
Qed.

(** A range without a colon holds no row span. *)
Lemma matchRowSpan_no_colon (s : string) :
  Js.all notColon s = true -> Regex.matchRowSpan s = None.
Proof.
  intros Hs. rewrite matchRowSpan_search.
  assert (Hnone : Regex.search false s = None); [| now rewrite Hnone].
  induction s as [| c s IH].
  - reflexivity.
  - assert (Hhere : Regex.matchHere false (String c s) = None).
    { unfold Regex.matchHere.
      destruct (Js.span Js.isUpper (String c s)) as [c1 s1] eqn:H1.
      destruct (Js.isEmpty c1); [reflexivity |].
      destruct (Js.span Js.isDigit s1) as [r1 s2] eqn:H2.
      destruct (Js.isEmpty r1); [reflexivity |].
      destruct (span_sound _ _ _ _ H1) as (E1 & _ & _).
      destruct (span_sound _ _ _ _ H2) as (E2 & _ & _).
      rewrite E1, E2, !all_app in Hs.
      apply andb_true_iff in Hs as [_ Hs]. apply andb_true_iff in Hs as [_ Hs].
      destruct s2 as [| d s3]; [reflexivity |].
      cbn [Js.all] in Hs. apply andb_true_iff in Hs as [Hd _].
      unfold notColon in Hd. apply negb_true_iff in Hd.
      destruct (Ascii.eqb_spec d ":") as [-> | Hne]; [discriminate |].
      destruct d as [[] [] [] [] [] [] [] []]; try reflexivity. congruence. }
    cbn [Regex.search]. rewrite Hhere. apply IH.
    cbn [Js.all] in Hs. now apply andb_true_iff in Hs as [_ Hs].
Qed.

(** Looking the same name up with the answer as the fallback gives the
    answer again. *)
Lemma resolveSheetId_again (env : Env.t) (spreadsheetId : string)
    (sheetName : option string) (fallback sheetId : Z) :
  snd (resolveSheetId env spreadsheetId sheetName fallback) = Ok sheetId ->
  snd (resolveSheetId env spreadsheetId sheetName sheetId) = Ok sheetId.
Proof.
  unfold resolveSheetId. destruct (truthyName sheetName); [trivial | reflexivity].
Qed.

(** A chart of any type but PIE with at least one series is built by the
    basic branch, from a basic chart that has the type and the legend
    position and still no series and no domain. *)
Lemma handleCreateChart_spec_basic (env : Env.t) (input : CreateChartInput.t)
    (firstSeries : SeriesInput.t) (rest : list SeriesInput.t) :
  CreateChartInput.chartType input <> "PIE" ->
  CreateChartInput.series input = firstSeries :: rest ->
  exists chartSpec basic,
    handleCreateChart_spec env input
    = handleCreateChart_basicBranch env input chartSpec basic firstSeries
    /\ BasicChartSpec.series basic = Some []
    /\ BasicChartSpec.domains basic = Some []
    /\ BasicChartSpec.chartType basic = Some (CreateChartInput.chartType input)
    /\ BasicChartSpec.legendPosition basic
       = Some (handleCreateChart_legendPosition (CreateChartInput.legend input)).
Proof.
  intros Hpie Hseries.
  destruct (handleCreateChart_spec_unfold env input) as (spec0 & Hb0 & Hp0 & ->).
  rewrite (handleCreateChart_family_basic _ _ _ Hpie).
  set (nb := newBasicChart _ _).
  assert (Haxes : exists basic,
            ChartSpec.basicChart
              (handleCreateChart_axes input (ChartSpec.set_basicChart (Some nb) spec0))
            = Some basic
            /\ BasicChartSpec.series basic = Some []
            /\ BasicChartSpec.domains basic = Some []
            /\ BasicChartSpec.chartType basic = Some (CreateChartInput.chartType input)
            /\ BasicChartSpec.legendPosition basic
               = Some (handleCreateChart_legendPosition (CreateChartInput.legend input))).
  { unfold handleCreateChart_axes. cbn [ChartSpec.basicChart ChartSpec.set_basicChart].
    destruct (pushAxis "RIGHT_AXIS" _ _) as [| a axes].
    - exists nb. repeat split.
    - eexists. split; [reflexivity |]. repeat split. }
  destruct Haxes as (basic & Hbasic & Hs & Hd & Ht & Hl).
  exists (handleCreateChart_axes input (ChartSpec.set_basicChart (Some nb) spec0)), basic.
  split; [| repeat split; assumption].
  unfold handleCreateChart_ranges. rewrite Hbasic, Hseries.
  destruct (String.eqb_spec (CreateChartInput.chartType input) "PIE") as [E | _];
    [contradiction | reflexivity].
Qed.

(** What a successful run of the basic branch went through. *)
Lemma handleCreateChart_basicBranch_ok (env : Env.t) (input : CreateChartInput.t)
    (chartSpec : ChartSpec.t) (basic : BasicChartSpec.t) (firstSeries : SeriesInput.t)
    (spec : ChartSpec.t) :
  snd (handleCreateChart_basicBranch env input chartSpec basic firstSeries) = Ok spec ->
  exists actualSheetId parsed basic',
    firstSeriesSheetId env input firstSeries = Ok actualSheetId
    /\ snd (handleCreateChart_series env input actualSheetId
              (CreateChartInput.series input)
              (Js.orObject (BasicChartSpec.series basic) [])) = Ok parsed
    /\ snd (handleCreateChart_basicDomain env input actualSheetId
              (SeriesInput.sourceRange firstSeries)
              (BasicChartSpec.set_series parsed basic)) = Ok basic'
    /\ spec = ChartSpec.set_basicChart (Some basic') chartSpec.
Proof.
  unfold handleCreateChart_basicBranch, firstSeriesSheetId.
  destruct (Env.extractSheetName env (SeriesInput.sourceRange firstSeries))
    as [name clean]. cbn [fst].
  intros H.
  apply bind_snd_ok in H as (actual & Hactual & H).
  apply bind_snd_ok in H as (parsed & Hparsed & H).
  apply bind_snd_ok in H as (basic' & Hdomain & H).
  injection H as <-.
  exists actual, parsed, basic'. repeat split; assumption.
Qed.

(** What a successful run of the domain step built. *)
Lemma handleCreateChart_basicDomain_ok (env : Env.t) (input : CreateChartInput.t)
    (actualSheetId : Z) (firstSeriesRange : string) (basic basic' : BasicChartSpec.t) :
  snd (handleCreateChart_basicDomain env input actualSheetId firstSeriesRange basic)
  = Ok basic' ->
  (hasDomainRange input = true ->
   exists g,
     chartRange env (CreateChartInput.spreadsheetId input) actualSheetId
       (Js.orString (CreateChartInput.domainRange input) "") = Ok g
     /\ basic' = BasicChartSpec.set_domains [domainOf g] basic)
  /\ (hasDomainRange input = false ->
      exists sheetId,
        snd (resolveSheetId env (CreateChartInput.spreadsheetId input)
               (fst (Env.extractSheetName env firstSeriesRange)) actualSheetId)
        = Ok sheetId
        /\ match columnADomain (snd (Env.extractSheetName env firstSeriesRange)) with
           | Some domainRange =>
               exists g, Env.parseRange env domainRange sheetId = Ok g
                         /\ basic' = BasicChartSpec.set_domains [domainOf g] basic
           | None => basic' = basic
           end).
Proof.
  unfold handleCreateChart_basicDomain, hasDomainRange, chartRange.
  destruct (match CreateChartInput.domainRange input with
            | Some d => Js.truthy d
            | None => false
            end).
  - destruct (Env.extractSheetName env _) as [name clean].
    intros H. split; [intros _ | discriminate].
    apply bind_snd_ok in H as (sheetId & Hsheet & H).
    apply bind_snd_ok in H as (g & Hg & H).
    injection H as <-. exists g. rewrite Hsheet. split; [exact Hg | reflexivity].
  - destruct (Env.extractSheetName env firstSeriesRange) as [name clean]. cbn [fst snd].
    intros H. split; [discriminate | intros _].
    apply bind_snd_ok in H as (sheetId & Hsheet & H).
    exists sheetId. split; [exact Hsheet |].
    destruct (columnADomain clean) as [d |].
    + apply bind_snd_ok in H as (g & Hg & H). injection H as <-.
      exists g. split; [exact Hg | reflexivity].
    + injection H as <-. reflexivity.
Qed.

(** X14.  A chart of any type but PIE gets one series entry per input
    series, in the order of the input.  Each entry holds the grid range of
    its own source range, where a range that names no sheet is read on the
    sheet of the first series (the anchor's sheet when the first series
    names none either); its target axis defaults to LEFT_AXIS and its type
    to the chart type. *)
Theorem handleCreateChart_basic_series (env : Env.t) (input : CreateChartInput.t)
    (firstSeries : SeriesInput.t) (rest : list SeriesInput.t) (spec : ChartSpec.t)
    (Htype : CreateChartInput.chartType input <> "PIE")
    (Hseries : CreateChartInput.series input = firstSeries :: rest)
    (Hok : snd (handleCreateChart_spec env input) = Ok spec) :
  exists basic actualSheetId gridRanges,
    ChartSpec.basicChart spec = Some basic
    /\ firstSeriesSheetId env input firstSeries = Ok actualSheetId
    /\ Forall2 (fun series g =>
                  chartRange env (CreateChartInput.spreadsheetId input) actualSheetId
                    (SeriesInput.sourceRange series) = Ok g)
               (firstSeries :: rest) gridRanges
    /\ BasicChartSpec.series basic
       = Some (List.map (createdSeries (CreateChartInput.chartType input))
                 (List.combine (firstSeries :: rest) gridRanges)).
Proof.
  destruct (handleCreateChart_spec_basic env input firstSeries rest Htype Hseries)
    as (chartSpec & basic0 & Hspec & Hs0 & _).
  rewrite Hspec in Hok.
  apply handleCreateChart_basicBranch_ok in Hok
    as (actual & parsed & basic' & Hactual & Hparsed & Hdomain & ->).
  rewrite Hs0, Hseries in Hparsed. cbn [Js.orObject] in Hparsed.
  destruct (proj2 (handleCreateChart_series_spec env input actual (firstSeries :: rest) [])
              parsed Hparsed) as (gs & Hall & ->).
  exists basic', actual, gs. split; [reflexivity |]. split; [exact Hactual |].
  split; [exact Hall |].
  apply handleCreateChart_basicDomain_ok in Hdomain as [Hyes Hno].
  destruct (hasDomainRange input).
  - destruct (Hyes eq_refl) as (g & _ & ->). reflexivity.
  - destruct (Hno eq_refl) as (sheetId & _ & Hcol).
    destruct (columnADomain _); [destruct Hcol as (g & _ & ->) | subst basic'];
      reflexivity.
Qed.

Lemma handleCreateChart_basic_series_witness :
  exists spec basic actualSheetId gridRanges,
    snd (handleCreateChart_spec twoSheets (comboInput None None)) = Ok spec
    /\ ChartSpec.basicChart spec = Some basic
    /\ actualSheetId = 7
    /\ gridRanges = [GridRange.mk (Some 7) (Some 1) (Some 9) (Some 1) (Some 1);
                     GridRange.mk (Some 7) (Some 1) (Some 9) (Some 2) (Some 2)]
    /\ BasicChartSpec.series basic
       = Some [BasicChartSeries.mk
                 (ChartData.ofSources
                    [GridRange.mk (Some 7) (Some 1) (Some 9) (Some 1) (Some 1)])
                 (Some "LEFT_AXIS") (Some "COLUMN") [];
               BasicChartSeries.mk
                 (ChartData.ofSources
                    [GridRange.mk (Some 7) (Some 1) (Some 9) (Some 2) (Some 2)])
                 (Some "RIGHT_AXIS") (Some "LINE") []].
Proof.
  assert (Htype : CreateChartInput.chartType (comboInput None None) <> "PIE")
    by discriminate.
  destruct (snd (handleCreateChart_spec twoSheets (comboInput None None)))
    as [spec | e] eqn:Hok; [| vm_compute in Hok; discriminate Hok].
  destruct (handleCreateChart_basic_series twoSheets (comboInput None None)
              (SeriesInput.mk "Data!B2:B10" None None)
              [SeriesInput.mk "C2:C10" (Some "LINE") (Some "RIGHT_AXIS")]
              spec Htype eq_refl Hok)
    as (basic & actual & gs & Hbasic & Hactual & Hall & Hs).
  exists spec, basic, actual, gs.
  vm_compute in Hactual. injection Hactual as <-.
  inversion Hall as [| s1 g1 l1 l1' H1 Hrest]; subst.
  inversion Hrest as [| s2 g2 l2 l2' H2 Hnil]; subst.
  inversion Hnil; subst.
  vm_compute in H1. injection H1 as <-.
  vm_compute in H2. injection H2 as <-.
  split; [reflexivity |]. split; [exact Hbasic |].
  split; [reflexivity |]. split; [reflexivity |]. exact Hs.
Defined.

(** X15.  For a chart of any type but PIE a supplied domain range is used:
    the chart's one domain is the grid range of that range, which is read
    on the sheet of the first series when it names no sheet itself. *)
Theorem handleCreateChart_basic_explicit_domain (env : Env.t)
    (input : CreateChartInput.t) (firstSeries : SeriesInput.t)
    (rest : list SeriesInput.t) (domainRange : string) (spec : ChartSpec.t)
    (Htype : CreateChartInput.chartType input <> "PIE")
    (Hseries : CreateChartInput.series input = firstSeries :: rest)
    (Hdomain : CreateChartInput.domainRange input = Some domainRange)
    (Hgiven : domainRange <> "")
    (Hok : snd (handleCreateChart_spec env input) = Ok spec) :
  exists basic actualSheetId g,
    ChartSpec.basicChart spec = Some basic
    /\ firstSeriesSheetId env input firstSeries = Ok actualSheetId
    /\ chartRange env (CreateChartInput.spreadsheetId input) actualSheetId domainRange
       = Ok g
    /\ BasicChartSpec.domains basic = Some [domainOf g].
Proof.
  destruct (handleCreateChart_spec_basic env input firstSeries rest Htype Hseries)
    as (chartSpec & basic0 & Hspec & _).
  rewrite Hspec in Hok.
  apply handleCreateChart_basicBranch_ok in Hok
    as (actual & parsed & basic' & Hactual & _ & Hdom & ->).
  assert (Htruthy : Js.truthy domainRange = true).
  { unfold Js.truthy. apply negb_true_iff. now apply isEmpty_false. }
  apply handleCreateChart_basicDomain_ok in Hdom as [Hyes _].
  unfold hasDomainRange in Hyes. rewrite Hdomain in Hyes.
  cbn [Js.orString] in Hyes. rewrite Htruthy in Hyes.
  destruct (Hyes eq_refl) as (g & Hg & ->).
  exists (BasicChartSpec.set_domains [domainOf g] (BasicChartSpec.set_series parsed basic0)),
    actual, g.
  repeat split; assumption.
Qed.

Lemma handleCreateChart_basic_explicit_domain_witness :
  exists spec basic,
    snd (handleCreateChart_spec twoSheets (comboInput (Some "E2:E10") None)) = Ok spec
    /\ ChartSpec.basicChart spec = Some basic
    /\ BasicChartSpec.domains basic
       = Some [domainOf (GridRange.mk (Some 7) (Some 1) (Some 9) (Some 4) (Some 4))].
Proof.
  assert (Htype : CreateChartInput.chartType (comboInput (Some "E2:E10") None) <> "PIE")
    by discriminate.
  assert (Hgiven : "E2:E10" <> "") by discriminate.
  destruct (snd (handleCreateChart_spec twoSheets (comboInput (Some "E2:E10") None)))
    as [spec | e] eqn:Hok; [| vm_compute in Hok; discriminate Hok].
  destruct (handleCreateChart_basic_explicit_domain twoSheets
              (comboInput (Some "E2:E10") None)
              (SeriesInput.mk "Data!B2:B10" None None)
              [SeriesInput.mk "C2:C10" (Some "LINE") (Some "RIGHT_AXIS")]
              "E2:E10" spec Htype eq_refl eq_refl Hgiven Hok)
    as (basic & actual & g & Hbasic & Hactual & Hg & Hd).
  exists spec, basic.
  vm_compute in Hactual. injection Hactual as <-.
  vm_compute in Hg. injection Hg as <-.
  split; [reflexivity |]. split; [exact Hbasic | exact Hd].
Defined.

(** X16.  With no domain range given (absent or empty), a chart of any type
    but PIE derives its domain from the first series alone.  When the first
    series' range is a rectangle letters-digits:letters-digits, the domain
    is column A over the rows of that rectangle, on the first series' sheet;
    when that range holds no colon (a single cell, say), the chart is sent
    with an empty list of domains. *)
Theorem handleCreateChart_basic_derived_domain (env : Env.t)
    (input : CreateChartInput.t) (firstSeries : SeriesInput.t)
    (rest : list SeriesInput.t) (spec : ChartSpec.t)
    (Htype : CreateChartInput.chartType input <> "PIE")
    (Hseries : CreateChartInput.series input = firstSeries :: rest)
    (Hdomain : hasDomainRange input = false)
    (Hok : snd (handleCreateChart_spec env input) = Ok spec) :
  let cleanRange := snd (Env.extractSheetName env (SeriesInput.sourceRange firstSeries)) in
  exists basic actualSheetId,
    ChartSpec.basicChart spec = Some basic
    /\ firstSeriesSheetId env input firstSeries = Ok actualSheetId
    /\ (forall col1 row1 col2 row2,
          letters col1 -> digits row1 -> letters col2 -> digits row2 ->
          cleanRange = col1 ++ row1 ++ ":" ++ col2 ++ row2 ->
          exists g,
            Env.parseRange env ("A" ++ row1 ++ ":A" ++ row2) actualSheetId = Ok g
            /\ BasicChartSpec.domains basic = Some [domainOf g])
    /\ (Js.all notColon cleanRange = true -> BasicChartSpec.domains basic = Some []).
Proof.
  intros cleanRange. subst cleanRange.
  destruct (handleCreateChart_spec_basic env input firstSeries rest Htype Hseries)
    as (chartSpec & basic0 & Hspec & _ & Hd0 & _).
  rewrite Hspec in Hok.
  apply handleCreateChart_basicBranch_ok in Hok
    as (actual & parsed & basic' & Hactual & _ & Hdom & ->).
  apply handleCreateChart_basicDomain_ok in Hdom as [_ Hno].
  destruct (Hno Hdomain) as (sheetId & Hsheet & Hcol).
  pose proof (resolveSheetId_again _ _ _ _ _ Hactual) as Hagain.
  rewrite Hagain in Hsheet. injection Hsheet as <-.
  exists basic', actual. split; [reflexivity |]. split; [exact Hactual |]. split.
  - intros col1 row1 col2 row2 Hc1 Hr1 Hc2 Hr2 Hclean.
    unfold columnADomain in Hcol.
    rewrite Hclean, (matchRowSpan_rectangle _ _ _ _ Hc1 Hr1 Hc2 Hr2) in Hcol.
    destruct Hcol as (g & Hg & ->). exists g. split; [exact Hg | reflexivity].
  - intros Hflat. unfold columnADomain in Hcol.
    rewrite (matchRowSpan_no_colon _ Hflat) in Hcol. subst basic'. exact Hd0.
Qed.

Lemma handleCreateChart_basic_derived_domain_witness :
  exists spec basic,
    snd (handleCreateChart_spec twoSheets (comboInput None None)) = Ok spec
    /\ ChartSpec.basicChart spec = Some basic
    /\ BasicChartSpec.domains basic
       = Some [domainOf (GridRange.mk (Some 7) (Some 1) (Some 9) (Some 0) (Some 0))].
Proof.
  assert (Htype : CreateChartInput.chartType (comboInput None None) <> "PIE")
    by discriminate.
  destruct (snd (handleCreateChart_spec twoSheets (comboInput None None)))
    as [spec | e] eqn:Hok; [| vm_compute in Hok; discriminate Hok].
  destruct (handleCreateChart_basic_derived_domain twoSheets (comboInput None None)
              (SeriesInput.mk "Data!B2:B10" None None)
              [SeriesInput.mk "C2:C10" (Some "LINE") (Some "RIGHT_AXIS")]
              spec Htype eq_refl eq_refl Hok)
    as (basic & actual & Hbasic & Hactual & Hrect & _).
  exists spec, basic.
  vm_compute in Hactual. injection Hactual as <-.
  assert (HB : letters "B") by (split; [discriminate | reflexivity]).
  assert (H2 : digits "2") by (split; [discriminate | reflexivity]).
  assert (H10 : digits "10") by (split; [discriminate | reflexivity]).
  destruct (Hrect "B" "2" "B" "10" HB H2 HB H10 eq_refl) as (g & Hg & Hd).
  vm_compute in Hg. injection Hg as <-.
  split; [reflexivity |]. split; [exact Hbasic | exact Hd].
Defined.

(** The range step leaves the legend position of the family alone. *)
Lemma handleCreateChart_ranges_legend (env : Env.t) (input : CreateChartInput.t)
    (chartSpec spec : ChartSpec.t) :
  snd (handleCreateChart_ranges env input chartSpec) = Ok spec ->
  legendPositionOf spec = legendPositionOf chartSpec.
Proof.
  assert (Hpie : forall pie firstSeries,
            ChartSpec.pieChart chartSpec = Some pie ->
            snd (handleCreateChart_pieBranch env input chartSpec pie firstSeries) = Ok spec ->
            legendPositionOf spec = legendPositionOf chartSpec).
  { intros pie firstSeries Hp H. unfold handleCreateChart_pieBranch in H.
    destruct (Env.extractSheetName env _) as [name clean].
    apply bind_snd_ok in H as (sheetId & _ & H).
    apply bind_snd_ok in H as (g & _ & H).
    unfold legendPositionOf. rewrite Hp.
    destruct (columnADomain clean).
    - apply bind_snd_ok in H as (d & _ & H). injection H as <-.
      cbn. destruct (ChartSpec.basicChart chartSpec); reflexivity.
    - injection H as <-. cbn. destruct (ChartSpec.basicChart chartSpec); reflexivity. }
  assert (Hbasic : forall basic firstSeries,
            ChartSpec.basicChart chartSpec = Some basic ->
            snd (handleCreateChart_basicBranch env input chartSpec basic firstSeries)
            = Ok spec ->
            legendPositionOf spec = legendPositionOf chartSpec).
  { intros basic firstSeries Hb H.
    apply handleCreateChart_basicBranch_ok in H
      as (actual & parsed & basic' & _ & _ & Hdom & ->).
    unfold legendPositionOf. rewrite Hb. cbn.
    apply handleCreateChart_basicDomain_ok in Hdom as [Hyes Hno].
    destruct (hasDomainRange input).
    - destruct (Hyes eq_refl) as (g & _ & ->). reflexivity.
    - destruct (Hno eq_refl) as (sheetId & _ & Hcol).
      destruct (columnADomain _); [destruct Hcol as (g & _ & ->) | subst basic'];
        reflexivity. }
  unfold handleCreateChart_ranges.
  destruct (ChartSpec.basicChart chartSpec) as [basic |] eqn:Hb,
           (ChartSpec.pieChart chartSpec) as [pie |] eqn:Hp,
           (CreateChartInput.series input) as [| firstSeries rest],
           (String.eqb (CreateChartInput.chartType input) "PIE");
    cbn [negb]; intros H;
    try (injection H as <-; unfold legendPositionOf; rewrite Hb, ?Hp; reflexivity);
    eauto.
Qed.

(** X17.  Whatever legend position the input names, the chart that is sent
    carries one that ends in [_LEGEND]: a token without the suffix gets it
    appended, a missing or empty one becomes BOTTOM_LEGEND, and NO_LEGEND,
    which already ends that way, is kept. *)
Theorem handleCreateChart_legend_suffixed (env : Env.t) (input : CreateChartInput.t)
    (spec : ChartSpec.t)
    (Hok : snd (handleCreateChart_spec env input) = Ok spec) :
  legendPositionOf spec
  = Some (handleCreateChart_legendPosition (CreateChartInput.legend input))
  /\ Js.endsWith (handleCreateChart_legendPosition (CreateChartInput.legend input))
       "_LEGEND" = true
  /\ (forall legend position,
        CreateChartInput.legend input = Some legend ->
        LegendInput.position legend = Some position ->
        Js.endsWith position "_LEGEND" = false ->
        position <> "" ->
        legendPositionOf spec = Some (position ++ "_LEGEND"))
  /\ (CreateChartInput.legend input = None
      \/ option_map LegendInput.position (CreateChartInput.legend input) = Some None
      \/ option_map LegendInput.position (CreateChartInput.legend input) = Some (Some "") ->
      legendPositionOf spec = Some "BOTTOM_LEGEND").
Proof.
  destruct (handleCreateChart_spec_unfold env input) as (spec0 & Hb0 & Hp0 & Hspec).
  rewrite Hspec in Hok. apply handleCreateChart_ranges_legend in Hok.
  assert (Hsent : legendPositionOf spec
                  = Some (handleCreateChart_legendPosition
                            (CreateChartInput.legend input))).
  { rewrite Hok. unfold handleCreateChart_axes.
    set (lp := handleCreateChart_legendPosition _).
    assert (Hfam : legendPositionOf
                     (handleCreateChart_family (CreateChartInput.chartType input) lp spec0)
                   = Some lp).
    { unfold handleCreateChart_family, legendPositionOf.
      repeat match goal with
             | |- context [String.eqb ?a ?b] => destruct (String.eqb a b)
             end; cbn; rewrite ?Hb0; reflexivity. }
    destruct (ChartSpec.basicChart (handleCreateChart_family _ lp spec0))
      as [basic |] eqn:Hb; [| exact Hfam].
    destruct (pushAxis "RIGHT_AXIS" _ _); [exact Hfam |].
    unfold legendPositionOf in *. rewrite Hb in Hfam. cbn. exact Hfam. }
  split; [exact Hsent |]. split; [apply handleCreateChart_legendPosition_suffixed |].
  split.
  - intros legend position Hlegend Hposition Hends Hne.
    rewrite Hsent, Hlegend. unfold handleCreateChart_legendPosition.
    rewrite Hposition, Hends.
    assert (Htruthy : Js.truthy position = true).
    { unfold Js.truthy. apply negb_true_iff. now apply isEmpty_false. }
    rewrite Htruthy.
    destruct (String.eqb_spec position "NO_LEGEND") as [-> | _];
      [discriminate Hends | reflexivity].
  - intros Hdefault. rewrite Hsent. unfold handleCreateChart_legendPosition.
    destruct (CreateChartInput.legend input) as [[[position |]] |];
      cbn [option_map LegendInput.position] in *; try reflexivity.
    destruct Hdefault as [H | [H | H]]; try discriminate H.
    injection H as ->. reflexivity.
Qed.

Lemma handleCreateChart_legend_suffixed_witness :
  exists spec,
    snd (handleCreateChart_spec twoSheets
           (comboInput None (Some (LegendInput.mk (Some "RIGHT"))))) = Ok spec
    /\ legendPositionOf spec = Some "RIGHT_LEGEND".
Proof.
  destruct (snd (handleCreateChart_spec twoSheets
                   (comboInput None (Some (LegendInput.mk (Some "RIGHT"))))))
    as [spec | e] eqn:Hok; [| vm_compute in Hok; discriminate Hok].
  exists spec. split; [reflexivity |].
  destruct (handleCreateChart_legend_suffixed twoSheets
              (comboInput None (Some (LegendInput.mk (Some "RIGHT")))) spec Hok)
    as (_ & _ & Happended & _).
  apply (Happended (LegendInput.mk (Some "RIGHT")) "RIGHT" eq_refl eq_refl eq_refl).
  discriminate.
Defined.

(** X18.  With an empty series list nothing is looked up or parsed: the
    handler's one call is the batch update, whose chart has the family of
    its type with no series and no domain in it. *)
Theorem handleCreateChart_no_series (env : Env.t) (input : CreateChartInput.t)
    (Hseries : CreateChartInput.series input = []) :
  exists spec,
    handleCreateChart_spec env input = ([], Ok spec)
    /\ fst (handleCreateChart env input)
       = [BatchUpdate (CreateChartInput.spreadsheetId input)
            [addChart spec
               (ChartPositionInput.toRequest (CreateChartInput.position input))]]
    /\ (if String.eqb (CreateChartInput.chartType input) "PIE"
        then ChartSpec.basicChart spec = None
             /\ option_map PieChartSpec.series (ChartSpec.pieChart spec)
                = Some (Some ChartData.empty)
             /\ option_map PieChartSpec.domain (ChartSpec.pieChart spec)
                = Some (Some ChartData.empty)
        else ChartSpec.pieChart spec = None
             /\ option_map BasicChartSpec.series (ChartSpec.basicChart spec)
                = Some (Some [])
             /\ option_map BasicChartSpec.domains (ChartSpec.basicChart spec)
                = Some (Some [])).
Proof.
  destruct (handleCreateChart_spec_unfold env input) as (spec0 & Hb0 & Hp0 & Hspec).
  assert (Hranges : forall chartSpec,
            handleCreateChart_ranges env input chartSpec = ([], Ok chartSpec)).
  { intros chartSpec. unfold handleCreateChart_ranges. rewrite Hseries.
    destruct (ChartSpec.basicChart chartSpec), (ChartSpec.pieChart chartSpec);
      reflexivity. }
  rewrite Hranges in Hspec.
  eexists. split; [exact Hspec |]. split.
  - unfold handleCreateChart, handleCreateChart_body. rewrite Hspec, bind_ok.
    unfold awaitBatchUpdate, await.
    destruct (Env.batchUpdate env _ _) as [[] | e]; reflexivity.
  - destruct (String.eqb_spec (CreateChartInput.chartType input) "PIE") as [E | E].
    + rewrite E, handleCreateChart_family_pie. unfold handleCreateChart_axes.
      cbn. rewrite Hb0. cbn. rewrite Hb0. repeat split.
    + rewrite (handleCreateChart_family_basic _ _ _ E). unfold handleCreateChart_axes.
      cbn [ChartSpec.basicChart ChartSpec.set_basicChart].
      destruct (pushAxis "RIGHT_AXIS" _ _); cbn; rewrite Hp0; repeat split.
Qed.

Lemma handleCreateChart_no_series_witness :
  let input := CreateChartInput.mk "doc" (anchorOnSheet 0) "LINE" (Some "Empty") None
                 [] (Some "Data!A2:A10") None None None None None None in
  fst (handleCreateChart twoSheets input)
  = [BatchUpdate "doc"
       [addChart
          (ChartSpec.set_basicChart (Some (newBasicChart "LINE" "BOTTOM_LEGEND"))
             (ChartSpec.set_title "Empty" ChartSpec.empty))
          (ChartPositionInput.toRequest (anchorOnSheet 0))]].
Proof.
  intros input.
  destruct (handleCreateChart_no_series twoSheets input eq_refl)
    as (spec & Hspec & Hcalls & _).
  vm_compute in Hspec. injection Hspec as <-. exact Hcalls.
Defined.

(** X19.  A pie chart is built from its first series alone: further series,
    a domain range and axis titles in the input change nothing in what the
    handler does. *)
Theorem handleCreateChart_pie_first_series_only (env : Env.t)
    (input : CreateChartInput.t)
    (Hpie : CreateChartInput.chartType input = "PIE") :
  handleCreateChart env (pieReduced input) = handleCreateChart env input.
Proof.
  assert (Hspec : handleCreateChart_spec env (pieReduced input)
                  = handleCreateChart_spec env input).
  { unfold handleCreateChart_spec, pieReduced.
    cbn [CreateChartInput.title CreateChartInput.subtitle
         CreateChartInput.backgroundColor CreateChartInput.altText
         CreateChartInput.legend CreateChartInput.chartType].
    rewrite Hpie. rewrite !handleCreateChart_family_pie.
    set (spec0 := whenDefined (CreateChartInput.altText input) ChartSpec.set_altText _).
    set (pie0 := PieChartSpec.mk _ _ _ _).
    assert (Hbasic : ChartSpec.basicChart (ChartSpec.set_pieChart (Some pie0) spec0)
                     = None).
    { subst spec0. simpl.
      destruct (CreateChartInput.altText input), (CreateChartInput.backgroundColor input),
        (CreateChartInput.subtitle input), (CreateChartInput.title input); reflexivity. }
    unfold handleCreateChart_axes.
    cbn [CreateChartInput.domainAxis CreateChartInput.leftAxis CreateChartInput.rightAxis].
    rewrite Hbasic.
    unfold handleCreateChart_ranges.
    cbn [CreateChartInput.chartType CreateChartInput.series].
    rewrite Hbasic, Hpie.
    replace (ChartSpec.pieChart (ChartSpec.set_pieChart (Some pie0) spec0))
      with (Some pie0) by reflexivity.
    destruct (CreateChartInput.series input) as [| firstSeries rest]; [reflexivity |].
    cbv beta iota. change (String.eqb "PIE" "PIE") with true. cbv beta iota.
    reflexivity. }
  unfold handleCreateChart, handleCreateChart_body. rewrite Hspec. reflexivity.
Qed.

Lemma handleCreateChart_pie_first_series_only_witness :
  let input := CreateChartInput.mk "doc" (anchorOnSheet 0) "PIE" None None
                 [SeriesInput.mk "Data!B2:B10" None None;
                  SeriesInput.mk "no range at all" None None]
                 (Some "Data!E2:E10") (Some (AxisInput.mk (Some "Month"))) None None
                 None None None in
  handleCreateChart twoSheets input
  = handleCreateChart twoSheets
      (CreateChartInput.mk "doc" (anchorOnSheet 0) "PIE" None None
         [SeriesInput.mk "Data!B2:B10" None None] None None None None None None None).
Proof.
  intros input.
  exact (eq_sym (handleCreateChart_pie_first_series_only twoSheets input eq_refl)).
Defined.

(** ** Chart update: finding the chart, and what the update never reads *)

Lemma findInSheet_Some (chartId : Z) (sheet : Sheet.t) (chart : EmbeddedChart.t) :
  findInSheet chartId sheet = Some chart ->
  EmbeddedChart.chartId chart = Some chartId
  /\ exists charts, Sheet.charts sheet = Some charts /\ In chart charts.
Proof.
  unfold findInSheet. destruct (Sheet.charts sheet) as [charts |]; [| discriminate].
  intros H. apply find_some in H as [Hin Hid].
  destruct (EmbeddedChart.chartId chart) as [n |]; [| discriminate].
  apply Z.eqb_eq in Hid. subst n. split; [reflexivity |]. now exists charts.
Qed.

Lemma findInSheet_None (chartId : Z) (sheet : Sheet.t) (charts : list EmbeddedChart.t)
    (chart : EmbeddedChart.t) :
  findInSheet chartId sheet = None ->
  Sheet.charts sheet = Some charts -> In chart charts ->
  EmbeddedChart.chartId chart <> Some chartId.
Proof.
  unfold findInSheet. intros H Hcharts Hin. rewrite Hcharts in H.
  pose proof (find_none _ _ H chart Hin) as Hno. cbv beta in Hno.
  intros Hid. rewrite Hid, Z.eqb_refl in Hno. discriminate.
Qed.

Lemma findChart_hasChart (chartId : Z) (sheets : list Sheet.t) :
  (exists chart, findChart chartId sheets = Some chart) <-> hasChart chartId sheets.
Proof.
  induction sheets as [| sheet rest IH]; cbn [findChart].
  - split; [intros [chart H]; discriminate |].
    intros (sheet & charts & chart & [] & _).
  - destruct (findInSheet chartId sheet) as [found |] eqn:Hhere.
    + split; [intros _ | intros _; now exists found].
      destruct (findInSheet_Some _ _ _ Hhere) as (Hid & charts & Hcharts & Hin).
      exists sheet, charts, found. repeat split; try assumption. now left.
    + rewrite IH. split.
      * intros (s & charts & chart & Hin & Hrest). exists s, charts, chart.
        split; [now right | exact Hrest].
      * intros (s & charts & chart & [<- | Hin] & Hcharts & Hc & Hid).
        -- exfalso. exact (findInSheet_None _ _ _ _ Hhere Hcharts Hc Hid).
        -- exists s, charts, chart. repeat split; assumption.
Qed.

(** X20.  Once the spreadsheet has been read, the chart update is sent
    exactly when some sheet holds a chart with the given id, and the chart
    the update is built from has that id.  Otherwise the read is the
    handler's only call and the answer is the error "Chart with ID <id> not
    found". *)
Theorem handleUpdateChart_sent_iff_chart_exists (env : Env.t)
    (input : UpdateChartInput.t) (spreadsheet : Spreadsheet.t)
    (Hget : Env.spreadsheetsGet env (UpdateChartInput.spreadsheetId input)
            = Ok spreadsheet) :
  let spreadsheetId := UpdateChartInput.spreadsheetId input in
  let chartId := UpdateChartInput.chartId input in
  let sheets := Js.orObject (Spreadsheet.sheets spreadsheet) [] in
  (hasChart chartId sheets ->
   exists currentChart,
     EmbeddedChart.chartId currentChart = Some chartId
     /\ fst (handleUpdateChart env input)
        = [SpreadsheetsGet spreadsheetId;
           BatchUpdate spreadsheetId
             [updateEmbeddedObjectPosition chartId
                (handleUpdateChart_position input currentChart) "position";
              updateChartSpec chartId (handleUpdateChart_spec input currentChart)]])
  /\ (~ hasChart chartId sheets ->
      handleUpdateChart env input
      = ([SpreadsheetsGet spreadsheetId],
         HandledError ("Chart with ID " ++ Js.numberToString chartId ++ " not found"))).
Proof.
  intros spreadsheetId chartId sheets. subst spreadsheetId chartId sheets. split.
  - intros Hhas. apply findChart_hasChart in Hhas as [chart Hfind].
    exists chart. split.
    + clear Hget. induction (Js.orObject (Spreadsheet.sheets spreadsheet) [])
        as [| sheet rest IH]; [discriminate |].
      cbn [findChart] in Hfind.
      destruct (findInSheet (UpdateChartInput.chartId input) sheet) as [found |] eqn:Hhere.
      * injection Hfind as <-. exact (proj1 (findInSheet_Some _ _ _ Hhere)).
      * exact (IH Hfind).
    + exact (handleUpdateChart_dispatch env input spreadsheet chart Hget Hfind).
  - intros Hnone. apply handleUpdateChart_not_found with (spreadsheet := spreadsheet);
      [exact Hget |].
    destruct (findChart _ _) as [chart |] eqn:Hfind; [| reflexivity].
    exfalso. apply Hnone. apply findChart_hasChart. now exists chart.
Qed.

Lemma handleUpdateChart_sent_iff_chart_exists_witness :
  let env := RangeHelpers.env [("Sheet1", 0)]
               (Spreadsheet.mk (Some [Sheet.mk None; Sheet.mk (Some [columnChart])])) in
  handleUpdateChart env (updateInput None None)
  = ([SpreadsheetsGet "doc"], HandledError "Chart with ID 7 not found")
  \/ exists currentChart,
       EmbeddedChart.chartId currentChart = Some 7
       /\ fst (handleUpdateChart env (updateInput None None))
          = [SpreadsheetsGet "doc";
             BatchUpdate "doc"
               [updateEmbeddedObjectPosition 7
                  (handleUpdateChart_position (updateInput None None) currentChart)
                  "position";
                updateChartSpec 7
                  (handleUpdateChart_spec (updateInput None None) currentChart)]].
Proof.
  intros env. right.
  apply (proj1 (handleUpdateChart_sent_iff_chart_exists env (updateInput None None)
                  (Spreadsheet.mk (Some [Sheet.mk None; Sheet.mk (Some [columnChart])]))
                  eq_refl)).
  exists (Sheet.mk (Some [columnChart])), [columnChart], columnChart.
  split; [right; left; reflexivity |]. split; [reflexivity |].
  split; [left; reflexivity | reflexivity].
Defined.


(** X22.  When an update supplies series, every series of the basic chart
    it sends reads the block of rows 0 to 100 in column 0, one entry per
    input series.  The block lies on the sheet of the new anchor cell,
    except that an anchor on the sheet with id 0, like no new anchor at
    all, leaves it on the sheet of the chart's current anchor. *)
Theorem handleUpdateChart_series_sheet (input : UpdateChartInput.t)
    (currentChart : EmbeddedChart.t) (series : list SeriesInput.t)
    (basic : BasicChartSpec.t)
    (Hseries : UpdateChartInput.series input = Some series)
    (Hbasic : ChartSpec.basicChart (handleUpdateChart_spec input currentChart)
              = Some basic) :
  let newAnchor := EmbeddedObjectPosition.anchorSheetId (UpdateChartInput.position input) in
  let oldAnchor := EmbeddedObjectPosition.anchorSheetId (EmbeddedChart.position currentChart) in
  exists sent sheetId,
    BasicChartSpec.series basic = Some sent
    /\ List.length sent = List.length series
    /\ Forall (fun entry =>
                 BasicChartSeries.series entry
                 = ChartData.ofSources [placeholderRange sheetId]) sent
    /\ (forall n, newAnchor = Some n -> n <> 0 -> sheetId = Some n)
    /\ (newAnchor = Some 0 \/ newAnchor = None -> sheetId = oldAnchor).
Proof.
  intros newAnchor oldAnchor.
  unfold handleUpdateChart_spec, handleUpdateChart_series in Hbasic.
  rewrite Hseries in Hbasic.
  set (spec6 := handleUpdateChart_legend input _) in Hbasic.
  destruct (ChartSpec.basicChart spec6) as [basic6 |] eqn:H6;
    [| rewrite H6 in Hbasic; discriminate].
  cbn in Hbasic. injection Hbasic as <-.
  exists (List.map (handleUpdateChart_basicSeries input currentChart) series),
    (Js.orNumber newAnchor oldAnchor).
  split; [reflexivity |]. split; [apply length_map |]. split.
  - apply Forall_forall. intros entry Hin.
    apply in_map_iff in Hin as (s & <- & _). reflexivity.
  - split.
    + intros n Hn Hne. rewrite Hn. cbn [Js.orNumber].
      destruct (Z.eqb_spec n 0); [contradiction | reflexivity].
    + intros [H | H]; rewrite H; reflexivity.
Qed.

Lemma handleUpdateChart_series_sheet_witness :
  let moved := EmbeddedObjectPosition.mk
                 (Some (OverlayPosition.mk
                          (Some (AnchorCell.mk (Some 0) (Some 3) (Some 3)))
                          None None None None)) [] in
  let chart := EmbeddedChart.mk (Some 7)
                 (Some (ChartPositionInput.toRequest (anchorOnSheet 5)))
                 (Some columnChartSpec) in
  let input := UpdateChartInput.mk "doc" 7 (Some moved) None None None
                 (Some [SeriesInput.mk "Sheet1!B2:B10" None None]) None None None None
                 None None in
  exists basic,
    ChartSpec.basicChart (handleUpdateChart_spec input chart) = Some basic
    /\ option_map (List.map BasicChartSeries.series) (BasicChartSpec.series basic)
       = Some [ChartData.ofSources [placeholderRange (Some 5)]].
Proof.
  intros moved chart input.
  destruct (ChartSpec.basicChart (handleUpdateChart_spec input chart))
    as [basic |] eqn:Hbasic; [| vm_compute in Hbasic; discriminate Hbasic].
  exists basic. split; [reflexivity |].
  destruct (handleUpdateChart_series_sheet input chart
              [SeriesInput.mk "Sheet1!B2:B10" None None] basic eq_refl Hbasic)
    as (sent & sheetId & Hsent & Hlen & Hall & _ & Hzero).
  rewrite Hsent. rewrite (Hzero (or_introl eq_refl)) in Hall.
  destruct sent as [| entry [| more sent]]; try discriminate Hlen.
  inversion Hall as [| e l He Hl]; subst. cbn [option_map List.map].
  rewrite He. reflexivity.
Defined.

(** ** Chart creation: what the range step leaves alone *)

Lemma handleCreateChart_ranges_keeps (env : Env.t) (input : CreateChartInput.t)
    (chartSpec spec : ChartSpec.t) :
  snd (handleCreateChart_ranges env input chartSpec) = Ok spec ->
  ChartSpec.title spec = ChartSpec.title chartSpec
  /\ ChartSpec.subtitle spec = ChartSpec.subtitle chartSpec
  /\ ChartSpec.backgroundColor spec = ChartSpec.backgroundColor chartSpec
  /\ ChartSpec.altText spec = ChartSpec.altText chartSpec
  /\ ChartSpec.extra spec = ChartSpec.extra chartSpec
  /\ option_map PieChartSpec.legendPosition (ChartSpec.pieChart spec)
     = option_map PieChartSpec.legendPosition (ChartSpec.pieChart chartSpec)
  /\ option_map BasicChartSpec.chartType (ChartSpec.basicChart spec)
     = option_map BasicChartSpec.chartType (ChartSpec.basicChart chartSpec)
  /\ option_map BasicChartSpec.axis (ChartSpec.basicChart spec)
     = option_map BasicChartSpec.axis (ChartSpec.basicChart chartSpec).
Proof.
  assert (Hpie : forall pie firstSeries,
            ChartSpec.pieChart chartSpec = Some pie ->
            snd (handleCreateChart_pieBranch env input chartSpec pie firstSeries) = Ok spec ->
            ChartSpec.title spec = ChartSpec.title chartSpec
            /\ ChartSpec.subtitle spec = ChartSpec.subtitle chartSpec
            /\ ChartSpec.backgroundColor spec = ChartSpec.backgroundColor chartSpec
            /\ ChartSpec.altText spec = ChartSpec.altText chartSpec
            /\ ChartSpec.extra spec = ChartSpec.extra chartSpec
            /\ option_map PieChartSpec.legendPosition (ChartSpec.pieChart spec)
               = option_map PieChartSpec.legendPosition (ChartSpec.pieChart chartSpec)
            /\ option_map BasicChartSpec.chartType (ChartSpec.basicChart spec)
               = option_map BasicChartSpec.chartType (ChartSpec.basicChart chartSpec)
            /\ option_map BasicChartSpec.axis (ChartSpec.basicChart spec)
               = option_map BasicChartSpec.axis (ChartSpec.basicChart chartSpec)).
  { intros pie firstSeries Hp H. unfold handleCreateChart_pieBranch in H.
    destruct (Env.extractSheetName env _) as [name clean].
    apply bind_snd_ok in H as (sheetId & _ & H).
    apply bind_snd_ok in H as (g & _ & H).
    rewrite Hp.
    destruct (columnADomain clean).
    - apply bind_snd_ok in H as (d & _ & H). injection H as <-.
      cbn. repeat split.
    - injection H as <-. cbn. repeat split. }
  assert (Hbasic : forall basic firstSeries,
            ChartSpec.basicChart chartSpec = Some basic ->
            snd (handleCreateChart_basicBranch env input chartSpec basic firstSeries)
            = Ok spec ->
            ChartSpec.title spec = ChartSpec.title chartSpec
            /\ ChartSpec.subtitle spec = ChartSpec.subtitle chartSpec
            /\ ChartSpec.backgroundColor spec = ChartSpec.backgroundColor chartSpec
            /\ ChartSpec.altText spec = ChartSpec.altText chartSpec
            /\ ChartSpec.extra spec = ChartSpec.extra chartSpec
            /\ option_map PieChartSpec.legendPosition (ChartSpec.pieChart spec)
               = option_map PieChartSpec.legendPosition (ChartSpec.pieChart chartSpec)
            /\ option_map BasicChartSpec.chartType (ChartSpec.basicChart spec)
               = option_map BasicChartSpec.chartType (ChartSpec.basicChart chartSpec)
            /\ option_map BasicChartSpec.axis (ChartSpec.basicChart spec)
               = option_map BasicChartSpec.axis (ChartSpec.basicChart chartSpec)).
  { intros basic firstSeries Hb H.
    apply handleCreateChart_basicBranch_ok in H
      as (actual & parsed & basic' & _ & _ & Hdom & ->).
    rewrite Hb. cbn.
    apply handleCreateChart_basicDomain_ok in Hdom as [Hyes Hno].
    destruct (hasDomainRange input).
    - destruct (Hyes eq_refl) as (g & _ & ->). repeat split.
    - destruct (Hno eq_refl) as (sheetId & _ & Hcol).
      destruct (columnADomain _); [destruct Hcol as (g & _ & ->) | subst basic'];
        repeat split. }
  unfold handleCreateChart_ranges.
  destruct (ChartSpec.basicChart chartSpec) as [basic |] eqn:Hb,
           (ChartSpec.pieChart chartSpec) as [pie |] eqn:Hp,
           (CreateChartInput.series input) as [| firstSeries rest],
           (String.eqb (CreateChartInput.chartType input) "PIE");
    cbn [negb]; intros H;
    try (injection H as <-; rewrite Hb, ?Hp; repeat split);
    eauto.
Qed.

Lemma pushAxis_In (position : string) (axisInput : option AxisInput.t)
    (axes : list BasicChartAxis.t) (a : BasicChartAxis.t) :
  In a (pushAxis position axisInput axes)
  <-> In a axes
      \/ exists title, axisTitle axisInput = Some title /\ title <> ""
                       /\ a = titledAxis position title.
Proof.
  unfold pushAxis, axisTitle.
  destruct axisInput as [[[title |]] |]; cbn [AxisInput.title].
  - destruct title as [| c title].
    + cbn. split; [now left |]. intros [H | (t & Ht & Hne & _)]; [exact H |].
      injection Ht as <-. congruence.
    + cbn [Js.truthy Js.isEmpty negb]. rewrite in_app_iff. cbn [In]. split.
      * intros [H | [<- | []]]; [now left |]. right. eexists.
        split; [reflexivity |]. split; [discriminate | reflexivity].
      * intros [H | (t & Ht & _ & ->)]; [now left |]. injection Ht as <-.
        right. now left.
  - split; [now left |]. intros [H | (t & Ht & _)]; [exact H | discriminate].
  - split; [now left |]. intros [H | (t & Ht & _)]; [exact H | discriminate].
Qed.

(** X23.  The chart that is sent carries the title, subtitle, background
    colour and alternative text of the input, each exactly when given, and
    no other top-level key.  It has one chart family: a pie chart for the
    type PIE, and a basic chart of the type named for every other type,
    including types the handler has no case for. *)
Theorem handleCreateChart_fields_and_family (env : Env.t) (input : CreateChartInput.t)
    (spec : ChartSpec.t)
    (Hok : snd (handleCreateChart_spec env input) = Ok spec) :
  ChartSpec.title spec = CreateChartInput.title input
  /\ ChartSpec.subtitle spec = CreateChartInput.subtitle input
  /\ ChartSpec.backgroundColor spec = CreateChartInput.backgroundColor input
  /\ ChartSpec.altText spec = CreateChartInput.altText input
  /\ ChartSpec.extra spec = []
  /\ (CreateChartInput.chartType input = "PIE" ->
      ChartSpec.basicChart spec = None /\ ChartSpec.pieChart spec <> None)
  /\ (CreateChartInput.chartType input <> "PIE" ->
      ChartSpec.pieChart spec = None
      /\ option_map BasicChartSpec.chartType (ChartSpec.basicChart spec)
         = Some (Some (CreateChartInput.chartType input))).
Proof.
  unfold handleCreateChart_spec in Hok.
  set (spec0 := whenDefined (CreateChartInput.altText input) ChartSpec.set_altText _)
    in Hok.
  set (lp := handleCreateChart_legendPosition _) in Hok.
  set (cs := handleCreateChart_axes input _) in Hok.
  apply handleCreateChart_ranges_keeps in Hok
    as (Ht & Hs & Hb & Ha & He & Hpie & Htype & _).
  assert (H0 : ChartSpec.title spec0 = CreateChartInput.title input
               /\ ChartSpec.subtitle spec0 = CreateChartInput.subtitle input
               /\ ChartSpec.backgroundColor spec0 = CreateChartInput.backgroundColor input
               /\ ChartSpec.altText spec0 = CreateChartInput.altText input
               /\ ChartSpec.extra spec0 = []
               /\ ChartSpec.basicChart spec0 = None /\ ChartSpec.pieChart spec0 = None).
  { subst spec0.
    destruct (CreateChartInput.altText input), (CreateChartInput.backgroundColor input),
      (CreateChartInput.subtitle input), (CreateChartInput.title input);
      repeat split. }
  destruct H0 as (Ht0 & Hs0 & Hb0 & Ha0 & He0 & Hbasic0 & Hpie0).
  assert (Hcs : ChartSpec.title cs = ChartSpec.title spec0
                /\ ChartSpec.subtitle cs = ChartSpec.subtitle spec0
                /\ ChartSpec.backgroundColor cs = ChartSpec.backgroundColor spec0
                /\ ChartSpec.altText cs = ChartSpec.altText spec0
                /\ ChartSpec.extra cs = ChartSpec.extra spec0
                /\ (CreateChartInput.chartType input = "PIE" ->
                    ChartSpec.basicChart cs = None
                    /\ option_map PieChartSpec.legendPosition (ChartSpec.pieChart cs)
                       = Some (Some lp))
                /\ (CreateChartInput.chartType input <> "PIE" ->
                    ChartSpec.pieChart cs = None
                    /\ option_map BasicChartSpec.chartType (ChartSpec.basicChart cs)
                       = Some (Some (CreateChartInput.chartType input)))).
  { subst cs.
    destruct (String.eqb_spec (CreateChartInput.chartType input) "PIE") as [E | E].
    - rewrite E, handleCreateChart_family_pie. unfold handleCreateChart_axes.
      cbn [ChartSpec.basicChart ChartSpec.set_pieChart]. rewrite Hbasic0.
      do 5 (split; [reflexivity |]). split; [| congruence].
      intros _. cbn. split; [exact Hbasic0 | reflexivity].
    - rewrite (handleCreateChart_family_basic _ _ _ E). unfold handleCreateChart_axes.
      cbn [ChartSpec.basicChart ChartSpec.set_basicChart].
      destruct (pushAxis "RIGHT_AXIS" _ _) as [| a axes];
        (do 5 (split; [reflexivity |])); (split; [congruence |]);
        intros _; cbn; (split; [exact Hpie0 | reflexivity]). }
  destruct Hcs as (Ht1 & Hs1 & Hb1 & Ha1 & He1 & Hcpie & Hcbasic).
  split; [congruence |]. split; [congruence |]. split; [congruence |].
  split; [congruence |]. split; [congruence |]. split.
  - intros E. destruct (Hcpie E) as [Hnone Hlegend].
    rewrite Hnone in Htype. rewrite Hlegend in Hpie. split.
    + destruct (ChartSpec.basicChart spec); [discriminate Htype | reflexivity].
    + intros Hnot. rewrite Hnot in Hpie. discriminate Hpie.
  - intros E. destruct (Hcbasic E) as [Hnone Hkind].
    rewrite Hnone in Hpie. rewrite Hkind in Htype. split.
    + destruct (ChartSpec.pieChart spec); [discriminate Hpie | reflexivity].
    + exact Htype.
Qed.

Lemma handleCreateChart_fields_and_family_witness :
  let input := CreateChartInput.mk "doc" (anchorOnSheet 0) "COMBO" (Some "Sales") None
                 [SeriesInput.mk "Data!B2:B10" None None] None None None None None
                 None (Some "Sales by month") in
  exists spec,
    snd (handleCreateChart_spec twoSheets input) = Ok spec
    /\ ChartSpec.title spec = Some "Sales"
    /\ ChartSpec.altText spec = Some "Sales by month"
    /\ ChartSpec.pieChart spec = None
    /\ option_map BasicChartSpec.chartType (ChartSpec.basicChart spec)
       = Some (Some "COMBO").
Proof.
  intros input.
  destruct (snd (handleCreateChart_spec twoSheets input)) as [spec | e] eqn:Hok;
    [| vm_compute in Hok; discriminate Hok].
  destruct (handleCreateChart_fields_and_family twoSheets input spec Hok)
    as (Ht & _ & _ & Ha & _ & _ & Hbasic).
  assert (Htype : CreateChartInput.chartType input <> "PIE") by discriminate.
  destruct (Hbasic Htype) as [Hpie Hkind].
  exists spec. split; [reflexivity |].
  split; [exact Ht |]. split; [exact Ha |]. split; [exact Hpie | exact Hkind].
Defined.

(** X24.  A chart of any type but PIE gets one axis entry for each of the
    bottom (domain), left and right axis settings that has a non-empty
    title, carrying that title, and no other axis entry; an axis setting
    without a title is dropped. *)
Theorem handleCreateChart_axis_titles (env : Env.t) (input : CreateChartInput.t)
    (spec : ChartSpec.t)
    (Htype : CreateChartInput.chartType input <> "PIE")
    (Hok : snd (handleCreateChart_spec env input) = Ok spec) :
  exists basic axes,
    ChartSpec.basicChart spec = Some basic
    /\ BasicChartSpec.axis basic = Some axes
    /\ (forall a,
          In a axes
          <-> exists title,
                title <> ""
                /\ ((axisTitle (CreateChartInput.domainAxis input) = Some title
                     /\ a = titledAxis "BOTTOM_AXIS" title)
                    \/ (axisTitle (CreateChartInput.leftAxis input) = Some title
                        /\ a = titledAxis "LEFT_AXIS" title)
                    \/ (axisTitle (CreateChartInput.rightAxis input) = Some title
                        /\ a = titledAxis "RIGHT_AXIS" title)))
    /\ (List.length axes <= 3)%nat.
Proof.
  destruct (handleCreateChart_spec_unfold env input) as (spec0 & Hb0 & Hp0 & Hspec).
  rewrite Hspec in Hok.
  apply handleCreateChart_ranges_keeps in Hok as (_ & _ & _ & _ & _ & _ & _ & Haxis).
  rewrite (handleCreateChart_family_basic _ _ _ Htype) in Haxis.
  set (axes := pushAxis "RIGHT_AXIS" (CreateChartInput.rightAxis input)
                 (pushAxis "LEFT_AXIS" (CreateChartInput.leftAxis input)
                    (pushAxis "BOTTOM_AXIS" (CreateChartInput.domainAxis input) []))).
  assert (Hsent : option_map BasicChartSpec.axis (ChartSpec.basicChart spec)
                  = Some (Some axes)).
  { rewrite Haxis. unfold handleCreateChart_axes.
    cbn [ChartSpec.basicChart ChartSpec.set_basicChart]. fold axes.
    destruct axes; reflexivity. }
  destruct (ChartSpec.basicChart spec) as [basic |]; [| discriminate Hsent].
  injection Hsent as Hsent.
  exists basic, axes. split; [reflexivity |]. split; [exact Hsent |]. split.
  - intros a. subst axes. rewrite !pushAxis_In. cbn [In]. split.
    + intros [[[[] | (t & Ht & Hne & ->)] | (t & Ht & Hne & ->)] | (t & Ht & Hne & ->)];
        exists t; auto 6.
    + intros (t & Hne & [[Ht ->] | [[Ht ->] | [Ht ->]]]).
      * left. left. right. now exists t.
      * left. right. now exists t.
      * right. now exists t.
  - subst axes. unfold pushAxis.
    destruct (CreateChartInput.rightAxis input) as [[[r |]] |],
             (CreateChartInput.leftAxis input) as [[[l |]] |],
             (CreateChartInput.domainAxis input) as [[[d |]] |];
      cbn [AxisInput.title];
      repeat match goal with
             | |- context [Js.truthy ?s] => destruct (Js.truthy s)
             end; cbn; lia.
Qed.

Lemma handleCreateChart_axis_titles_witness :
  let input := CreateChartInput.mk "doc" (anchorOnSheet 0) "LINE" None None
                 [SeriesInput.mk "Data!B2:B10" None None] None
                 (Some (AxisInput.mk (Some "Month"))) (Some (AxisInput.mk (Some "")))
                 (Some (AxisInput.mk None)) None None None in
  exists spec basic axes,
    snd (handleCreateChart_spec twoSheets input) = Ok spec
    /\ ChartSpec.basicChart spec = Some basic
    /\ BasicChartSpec.axis basic = Some axes
    /\ In (titledAxis "BOTTOM_AXIS" "Month") axes.
Proof.
  intros input.
  assert (Htype : CreateChartInput.chartType input <> "PIE") by discriminate.
  destruct (snd (handleCreateChart_spec twoSheets input)) as [spec | e] eqn:Hok;
    [| vm_compute in Hok; discriminate Hok].
  destruct (handleCreateChart_axis_titles twoSheets input spec Htype Hok)
    as (basic & axes & Hbasic & Haxes & Hin & _).
  exists spec, basic, axes.
  split; [reflexivity |]. split; [exact Hbasic |]. split; [exact Haxes |].
  apply Hin. exists "Month". split; [discriminate |]. left. split; reflexivity.
Defined.

(** ** Sheet properties: the field mask *)

Lemma splitComma_from_run (x s current : string) :
  Js.all notComma x = true ->
  Backend.splitComma_from current (x ++ s) = Backend.splitComma_from (current ++ x) s.
Proof.
  revert current. induction x as [| c x IH]; intros current Hx.
  - now rewrite append_empty_r.
  - cbn [Js.all] in Hx. apply andb_true_iff in Hx as [Hc Hx].
    cbn [append Backend.splitComma_from].
    unfold notComma in Hc. apply negb_true_iff in Hc. rewrite Hc.
    rewrite (IH _ Hx), append_assoc. reflexivity.
Qed.

(** Splitting a joined list of comma-free paths gives the list back. *)
Lemma maskPaths_join (l : list string) :
  l <> [] -> Forall (fun x => Js.all notComma x = true) l ->
  Backend.maskPaths (join "," l) = l.
Proof.
  unfold Backend.maskPaths. induction l as [| x rest IH]; [congruence |].
  intros _ Hall. inversion Hall as [| ? ? Hx Hrest]; subst.
  destruct rest as [| y rest].
  - cbn [join]. rewrite <- (append_empty_r x) at 1.
    rewrite (splitComma_from_run x "" "" Hx). reflexivity.
  - change (join "," (x :: y :: rest)) with (x ++ "," ++ join "," (y :: rest)).
    rewrite (splitComma_from_run x _ "" Hx).
    change ("," ++ join "," (y :: rest)) with (String "," (join "," (y :: rest))).
    cbn [Backend.splitComma_from append].
    change (Ascii.eqb "," ",") with true. cbv iota.
    rewrite IH; [reflexivity | discriminate | exact Hrest].
Qed.

Lemma pushIfDefined_In {A : Type} (value : option A) (name path : string)
    (fields : list string) :
  In path (pushIfDefined value name fields)
  <-> In path fields \/ (path = name /\ value <> None).
Proof.
  destruct value as [v |]; cbn [pushIfDefined].
  - rewrite in_app_iff. cbn [In]. split.
    + intros [H | [<- | []]]; [now left | right; split; [reflexivity | discriminate]].
    + intros [H | [-> _]]; [now left | right; now left].
  - split; [now left | intros [H | [_ H]]; [exact H | congruence]].
Qed.

Lemma pushIfDefined_paths {A : Type} (value : option A) (name : string)
    (fields : list string) :
  Js.all notComma name = true ->
  Forall (fun x => Js.all notComma x = true) fields ->
  Forall (fun x => Js.all notComma x = true) (pushIfDefined value name fields).
Proof.
  intros Hname Hfields. destruct value; [| exact Hfields].
  apply Forall_app. split; [exact Hfields | now constructor].
Qed.

Lemma handleUpdateSheetProperties_fields_In (input : UpdateSheetPropertiesInput.t)
    (path : string) :
  In path (handleUpdateSheetProperties_fields input) <-> namesPresentProperty input path.
Proof.
  unfold handleUpdateSheetProperties_fields, namesPresentProperty.
  rewrite pushIfDefined_In.
  destruct (UpdateSheetPropertiesInput.gridProperties input) as [g |].
  - rewrite !pushIfDefined_In. cbn [In]. split.
    + intros [[[[[[[] | H] | H] | H] | H] | H] | H]; auto.
      all: right; right; exists g; split; [reflexivity |]; auto.
    + intros [H | [H | (g' & Hg & H)]]; auto.
      * left. left. left. left. left. now right.
      * injection Hg as <-. destruct H as [H | [H | [H | H]]]; auto 7.
  - rewrite pushIfDefined_In. cbn [In]. split.
    + intros [[[] | H] | H]; auto.
    + intros [H | [H | (g' & Hg & _)]]; auto. discriminate.
Qed.

Lemma handleUpdateSheetProperties_fields_paths (input : UpdateSheetPropertiesInput.t) :
  Forall (fun x => Js.all notComma x = true) (handleUpdateSheetProperties_fields input).
Proof.
  unfold handleUpdateSheetProperties_fields.
  apply pushIfDefined_paths; [reflexivity |].
  destruct (UpdateSheetPropertiesInput.gridProperties input) as [g |].
  - repeat (apply pushIfDefined_paths; [reflexivity |]). constructor.
  - apply pushIfDefined_paths; [reflexivity | constructor].
Qed.

(** X25.  The field mask of a sheet-properties update names exactly the
    properties present in the input: a path is in the mask if and only if it
    is the title, the tab colour or one of the four grid properties and that
    property is given.  The request carries the title, grid properties and
    tab colour as given, for the sheet asked for. *)
Theorem handleUpdateSheetProperties_mask (input : UpdateSheetPropertiesInput.t)
    (request : UpdateSheetPropertiesRequest.t)
    (Hok : handleUpdateSheetProperties_request input = Ok request) :
  (forall path,
     In path (Backend.maskPaths (UpdateSheetPropertiesRequest.fields request))
     <-> namesPresentProperty input path)
  /\ UpdateSheetPropertiesRequest.sheetId request = UpdateSheetPropertiesInput.sheetId input
  /\ UpdateSheetPropertiesRequest.title request = UpdateSheetPropertiesInput.title input
  /\ UpdateSheetPropertiesRequest.gridProperties request
     = UpdateSheetPropertiesInput.gridProperties input
  /\ UpdateSheetPropertiesRequest.tabColor request
     = UpdateSheetPropertiesInput.tabColor input.
Proof.
  unfold handleUpdateSheetProperties_request in Hok.
  pose proof (handleUpdateSheetProperties_fields_paths input) as Hpaths.
  pose proof (handleUpdateSheetProperties_fields_In input) as Hin.
  destruct (handleUpdateSheetProperties_fields input) as [| x rest] eqn:Hfields;
    [discriminate |].
  injection Hok as <-. cbn [UpdateSheetPropertiesRequest.fields
    UpdateSheetPropertiesRequest.sheetId UpdateSheetPropertiesRequest.title
    UpdateSheetPropertiesRequest.gridProperties UpdateSheetPropertiesRequest.tabColor].
  split; [| repeat split].
  intros path.
  change (In path (Backend.maskPaths (join "," (x :: rest)))
          <-> namesPresentProperty input path).
  rewrite maskPaths_join; [apply Hin | discriminate | exact Hpaths].
Qed.

Lemma handleUpdateSheetProperties_mask_witness :
  let input := UpdateSheetPropertiesInput.mk "doc" 3 (Some "Totals")
                 (Some (GridPropertiesInput.mk None None (Some 1) None)) None in
  exists request,
    handleUpdateSheetProperties_request input = Ok request
    /\ UpdateSheetPropertiesRequest.fields request = "title,gridProperties.frozenRowCount"
    /\ (In "gridProperties.frozenRowCount"
          (Backend.maskPaths (UpdateSheetPropertiesRequest.fields request))
        <-> namesPresentProperty input "gridProperties.frozenRowCount").
Proof.
  intros input. eexists. split; [reflexivity |]. split; [reflexivity |].
  exact (proj1 (handleUpdateSheetProperties_mask input _ eq_refl)
           "gridProperties.frozenRowCount").
Defined.

(** X26.  A sheet-properties update is refused, with the error "No
    properties to update" and without any call, exactly when the input
    gives no title, no tab colour and no grid property; grid properties
    given as an empty object count as none.  In every other case the
    handler makes exactly one call. *)
Theorem handleUpdateSheetProperties_nothing_to_update (env : PropertiesEnv.t)
    (input : UpdateSheetPropertiesInput.t) :
  let nothing :=
    UpdateSheetPropertiesInput.title input = None
    /\ UpdateSheetPropertiesInput.tabColor input = None
    /\ (UpdateSheetPropertiesInput.gridProperties input = None
        \/ UpdateSheetPropertiesInput.gridProperties input
           = Some (GridPropertiesInput.mk None None None None)) in
  (nothing ->
   handleUpdateSheetProperties env input = ([], HandledError "No properties to update"))
  /\ (~ nothing ->
      exists request,
        handleUpdateSheetProperties_request input = Ok request
        /\ fst (handleUpdateSheetProperties env input)
           = [UpdateSheetProperties (UpdateSheetPropertiesInput.spreadsheetId input)
                request]).
Proof.
  intros nothing. subst nothing. split.
  - intros (Htitle & Hcolor & Hgrid).
    unfold handleUpdateSheetProperties, handleUpdateSheetProperties_request,
      handleUpdateSheetProperties_fields.
    rewrite Htitle, Hcolor. destruct Hgrid as [-> | ->]; reflexivity.
  - intros Hsome.
    unfold handleUpdateSheetProperties.
    destruct (handleUpdateSheetProperties_request input) as [request | e] eqn:Hreq.
    + exists request. split; reflexivity.
    + exfalso. apply Hsome.
      unfold handleUpdateSheetProperties_request in Hreq.
      pose proof (handleUpdateSheetProperties_fields_In input) as Hin.
      destruct (handleUpdateSheetProperties_fields input) as [| x rest];
        [| discriminate].
      assert (Hnone : forall path, ~ namesPresentProperty input path)
        by (intros path H; exact (proj2 (Hin path) H)).
      unfold namesPresentProperty in Hnone.
      destruct (UpdateSheetPropertiesInput.title input) as [t |].
      { exfalso. apply (Hnone "title"). left. split; [reflexivity | discriminate]. }
      destruct (UpdateSheetPropertiesInput.tabColor input) as [c |].
      { exfalso. apply (Hnone "tabColor"). right. left.
        split; [reflexivity | discriminate]. }
      split; [reflexivity |]. split; [reflexivity |].
      destruct (UpdateSheetPropertiesInput.gridProperties input) as [[r c fr fc] |];
        [right | now left].
      destruct r as [r |].
      { exfalso. apply (Hnone "gridProperties.rowCount"). right. right.
        eexists. split; [reflexivity |]. left. split; [reflexivity | discriminate]. }
      destruct c as [c |].
      { exfalso. apply (Hnone "gridProperties.columnCount"). right. right.
        eexists. split; [reflexivity |]. right. left.
        split; [reflexivity | discriminate]. }
      destruct fr as [fr |].
      { exfalso. apply (Hnone "gridProperties.frozenRowCount"). right. right.
        eexists. split; [reflexivity |]. right. right. left.
        split; [reflexivity | discriminate]. }
      destruct fc as [fc |].
      { exfalso. apply (Hnone "gridProperties.frozenColumnCount"). right. right.
        eexists. split; [reflexivity |]. right. right. right.
        split; [reflexivity | discriminate]. }
      reflexivity.
Qed.

Lemma handleUpdateSheetProperties_nothing_to_update_witness :
  handleUpdateSheetProperties acceptingProperties
    (UpdateSheetPropertiesInput.mk "doc" 3 None
       (Some (GridPropertiesInput.mk None None None None)) None)
  = ([], HandledError "No properties to update").
Proof.
  apply (proj1 (handleUpdateSheetProperties_nothing_to_update acceptingProperties
                  (UpdateSheetPropertiesInput.mk "doc" 3 None
                     (Some (GridPropertiesInput.mk None None None None)) None))).
  split; [reflexivity |]. split; [reflexivity | right; reflexivity].
Defined.

(** ** Spreadsheet creation: the sheets of the request *)

Lemma mapWithIndex_length {A B : Type} (f : A -> Z -> B) (l : list A) :
  forall index, List.length (mapWithIndex f index l) = List.length l.
Proof. induction l as [| x l IH]; intros index; simpl; [reflexivity | now rewrite IH]. Qed.

Lemma mapWithIndex_nth_error {A B : Type} (f : A -> Z -> B) (l : list A) :
  forall index i,
    nth_error (mapWithIndex f index l) i
    = option_map (fun x => f x (index + Z.of_nat i)) (nth_error l i).
Proof.
  induction l as [| x l IH]; intros index i.
  - destruct i; reflexivity.
  - destruct i as [| i].
    + cbn. now rewrite Z.add_0_r.
    + cbn [mapWithIndex nth_error]. rewrite IH.
      destruct (nth_error l i); cbn [option_map]; [| reflexivity].
      do 2 f_equal. lia.
Qed.

Lemma mapWithIndex_In {A B : Type} (f : A -> Z -> B) (l : list A) (y : B) :
  forall index,
    In y (mapWithIndex f index l) -> exists x j, In x l /\ index <= j /\ y = f x j.
Proof.
  induction l as [| x l IH]; intros index; cbn [mapWithIndex In]; [intros [] |].
  intros [<- | H].
  - exists x, index. split; [now left | split; [lia | reflexivity]].
  - destruct (IH _ H) as (x' & j & Hin & Hj & ->).
    exists x', j. split; [now right | split; [lia | reflexivity]].
Qed.

Lemma orCount_nonzero (count : option Z) (fallback : Z) :
  fallback <> 0 -> orCount count fallback <> 0.
Proof.
  intros Hf. unfold orCount. destruct count as [n |]; [| exact Hf].
  destruct (Z.eqb_spec n 0); assumption.
Qed.

(** X27.  A spreadsheet created with a non-empty list of sheets gets one
    sheet entry per input sheet, in order.  No entry has a row or column
    count of 0: a count that is given and not 0 is kept, a missing one or 0
    becomes 1000 rows and 26 columns.  A non-empty title is kept, and a
    missing or empty one becomes "Sheet" followed by the sheet's position in
    the list, counted from 1. *)
Theorem handleCreateSpreadsheet_sheet_entries (input : CreateSpreadsheetInput.t)
    (sheets : list SheetInput.t)
    (Hsheets : CreateSpreadsheetInput.sheets input = Some sheets)
    (Hsome : sheets <> []) :
  exists sent,
    CreateRequestBody.sheets (handleCreateSpreadsheet_requestBody input) = Some sent
    /\ List.length sent = List.length sheets
    /\ forall i sheet,
         nth_error sheets i = Some sheet ->
         exists entry,
           nth_error sent i = Some entry
           /\ NewSheet.rowCount entry <> 0 /\ NewSheet.columnCount entry <> 0
           /\ (forall n, SheetInput.rowCount sheet = Some n -> n <> 0 ->
                         NewSheet.rowCount entry = n)
           /\ (SheetInput.rowCount sheet = None \/ SheetInput.rowCount sheet = Some 0 ->
               NewSheet.rowCount entry = 1000)
           /\ (forall n, SheetInput.columnCount sheet = Some n -> n <> 0 ->
                         NewSheet.columnCount entry = n)
           /\ (SheetInput.columnCount sheet = None
               \/ SheetInput.columnCount sheet = Some 0 ->
               NewSheet.columnCount entry = 26)
           /\ (forall title, SheetInput.title sheet = Some title -> title <> "" ->
                             NewSheet.title entry = title)
           /\ (SheetInput.title sheet = None \/ SheetInput.title sheet = Some "" ->
               NewSheet.title entry = "Sheet" ++ Js.numberToString (Z.of_nat i + 1)).
Proof.
  unfold handleCreateSpreadsheet_requestBody. rewrite Hsheets.
  destruct sheets as [| first rest]; [congruence |].
  cbn [CreateRequestBody.sheets].
  exists (mapWithIndex handleCreateSpreadsheet_sheet 0 (first :: rest)).
  split; [reflexivity |]. split; [apply mapWithIndex_length |].
  intros i sheet Hnth. rewrite mapWithIndex_nth_error, Hnth. cbn [option_map].
  exists (handleCreateSpreadsheet_sheet sheet (0 + Z.of_nat i)).
  split; [reflexivity |].
  unfold handleCreateSpreadsheet_sheet.
  cbn [NewSheet.rowCount NewSheet.columnCount NewSheet.title].
  split; [apply orCount_nonzero; discriminate |].
  split; [apply orCount_nonzero; discriminate |].
  assert (Hkeep : forall count fallback n,
            count = Some n -> n <> 0 -> orCount count fallback = n).
  { intros count fallback n -> Hn. cbn. destruct (Z.eqb_spec n 0); [contradiction | reflexivity]. }
  assert (Hdefault : forall count fallback,
            count = None \/ count = Some 0 -> orCount count fallback = fallback).
  { intros count fallback [-> | ->]; reflexivity. }
  split; [intros n; apply Hkeep |]. split; [apply Hdefault |].
  split; [intros n; apply Hkeep |]. split; [apply Hdefault |]. split.
  - intros title -> Hne. cbn [Js.orString].
    assert (Htruthy : Js.truthy title = true).
    { unfold Js.truthy. apply negb_true_iff. now apply isEmpty_false. }
    now rewrite Htruthy.
  - intros [-> | ->]; reflexivity.
Qed.

Lemma handleCreateSpreadsheet_sheet_entries_witness :
  exists sent entry,
    CreateRequestBody.sheets
      (handleCreateSpreadsheet_requestBody
         (CreateSpreadsheetInput.mk "Budget"
            (Some [SheetInput.mk (Some "Totals") (Some 50) None;
                   SheetInput.mk None (Some 0) (Some 4)]))) = Some sent
    /\ List.length sent = 2%nat
    /\ nth_error sent 1 = Some entry
    /\ NewSheet.title entry = "Sheet2"
    /\ NewSheet.rowCount entry = 1000
    /\ NewSheet.columnCount entry = 4.
Proof.
  assert (Hsome : [SheetInput.mk (Some "Totals") (Some 50) None;
                   SheetInput.mk None (Some 0) (Some 4)] <> []) by discriminate.
  destruct (handleCreateSpreadsheet_sheet_entries
              (CreateSpreadsheetInput.mk "Budget"
                 (Some [SheetInput.mk (Some "Totals") (Some 50) None;
                        SheetInput.mk None (Some 0) (Some 4)]))
              _ eq_refl Hsome) as (sent & Hsent & Hlength & Hentries).
  destruct (Hentries 1%nat (SheetInput.mk None (Some 0) (Some 4)) eq_refl)
    as (entry & Hnth & _ & _ & _ & Hrows & Hcolumns & _ & _ & Htitle).
  exists sent, entry.
  split; [exact Hsent |]. split; [exact Hlength |]. split; [exact Hnth |].
  split; [exact (Htitle (or_introl eq_refl)) |].
  split; [exact (Hrows (or_intror eq_refl)) |].
  apply (Hcolumns 4 eq_refl). discriminate.
Defined.

(** X28.  The titles that the handler makes up are pairwise distinct: when
    no sheet of the input has a title of its own, no two sheets of the
    request have the same title. *)
Theorem handleCreateSpreadsheet_default_titles_distinct
    (input : CreateSpreadsheetInput.t) (sheets : list SheetInput.t)
    (sent : list NewSheet.t)
    (Hsheets : CreateSpreadsheetInput.sheets input = Some sheets)
    (Huntitled : Forall (fun sheet => SheetInput.title sheet = None
                                      \/ SheetInput.title sheet = Some "") sheets)
    (Hsent : CreateRequestBody.sheets (handleCreateSpreadsheet_requestBody input)
             = Some sent) :
  NoDup (List.map NewSheet.title sent)
  /\ List.length sent = List.length sheets.
Proof.
  unfold handleCreateSpreadsheet_requestBody in Hsent. rewrite Hsheets in Hsent.
  destruct sheets as [| first rest]; [discriminate |].
  cbn [CreateRequestBody.sheets] in Hsent.
  assert (Hmap : sent = mapWithIndex handleCreateSpreadsheet_sheet 0 (first :: rest))
    by (injection Hsent as <-; reflexivity).
  clear Hsent. subst sent.
  split; [| apply mapWithIndex_length].
  assert (Hgen : forall l index,
            0 <= index ->
            Forall (fun sheet => SheetInput.title sheet = None
                                 \/ SheetInput.title sheet = Some "") l ->
            NoDup (List.map NewSheet.title
                     (mapWithIndex handleCreateSpreadsheet_sheet index l))).
  { clear. induction l as [| sheet l IH]; intros index Hindex Hall; [constructor |].
    inversion Hall as [| ? ? Hsheet Hrest]; subst.
    cbn [mapWithIndex List.map]. constructor; [| apply IH; [lia | exact Hrest]].
    intros Hin. apply in_map_iff in Hin as (entry & Htitle & Hin).
    apply mapWithIndex_In in Hin as (other & j & Hother & Hj & ->).
    rewrite Forall_forall in Hrest. specialize (Hrest other Hother).
    assert (Hname : forall s i,
              SheetInput.title s = None \/ SheetInput.title s = Some "" ->
              NewSheet.title (handleCreateSpreadsheet_sheet s i)
              = "Sheet" ++ Js.numberToString (i + 1))
      by (intros s i [H | H]; unfold handleCreateSpreadsheet_sheet; cbn; rewrite H;
          reflexivity).
    rewrite (Hname other j Hrest), (Hname sheet index Hsheet) in Htitle.
    injection Htitle as Hdigits.
    assert (Heq : Js.parseInt (Js.numberToString (j + 1))
                  = Js.parseInt (Js.numberToString (index + 1)))
      by (now rewrite Hdigits).
    rewrite (proj2 (numberToString_parseInt (j + 1) ltac:(lia))) in Heq.
    rewrite (proj2 (numberToString_parseInt (index + 1) ltac:(lia))) in Heq.
    lia. }
  apply Hgen; [lia | exact Huntitled].
Qed.

Lemma handleCreateSpreadsheet_default_titles_distinct_witness :
  NoDup ["Sheet1"; "Sheet2"; "Sheet3"].
Proof.
  assert (Huntitled : Forall (fun sheet => SheetInput.title sheet = None
                                           \/ SheetInput.title sheet = Some "")
                        [SheetInput.mk None None None; SheetInput.mk (Some "") None None;
                         SheetInput.mk None (Some 10) None]).
  { constructor; [left; reflexivity |]. constructor; [right; reflexivity |].
    constructor; [left; reflexivity | constructor]. }
  exact (proj1 (handleCreateSpreadsheet_default_titles_distinct
                  (CreateSpreadsheetInput.mk "Budget"
                     (Some [SheetInput.mk None None None;
                            SheetInput.mk (Some "") None None;
                            SheetInput.mk None (Some 10) None]))
                  _ [NewSheet.mk "Sheet1" 1000 26; NewSheet.mk "Sheet2" 1000 26;
                     NewSheet.mk "Sheet3" 10 26]
                  eq_refl Huntitled eq_refl)).
Defined.
